(** * Animatronic robot controller: servo scheduler, command mailboxes, emotion mode

    A shallow embedding of the ESP32 robot firmware and the properties of its
    request-to-actuation pipeline.  Two modules hold the firmware:

    - [Controller]: the full controller (the FastLED variant) with per-axis
      servo interpolation, single-slot command mailboxes, the deferred reset
      and the emotion-mode timeout.  The variant without the LED strip has the
      same text for [moveServoSafely], [updateServoPositions] and the handlers
      of /receive, /head and /head_position.
    - [Aug2a]: the simplified sketch (gesture/sketch_aug2a) with its one-slot
      task record.

    The OLED eyes, the LED strip, the serial log and the WiFi link are outputs
    outside the model.

    C [int] and [unsigned long] are 32 bits wide on the ESP32; they are modelled
    as [Z] with the wrap-around written out.  Readings of [millis()] and of
    [random()] are inputs of the functions that take them. *)

From Stdlib Require Import ZArith String Ascii List Bool Lia.
Import ListNotations.
Local Open Scope Z_scope.

(** ** Arduino core arithmetic *)

Module Arduino.

(** 32-bit two's complement [int]. *)
Definition int_of (z : Z) : Z := (z + 2147483648) mod 4294967296 - 2147483648.

(** 32-bit [unsigned long]. *)
Definition ulong_of (z : Z) : Z := z mod 4294967296.

Definition INT_MIN : Z := -2147483648.
Definition INT_MAX : Z := 2147483647.

(** [constrain(amt,low,high)]:
    ((amt)<(low)?(low):((amt)>(high)?(high):(amt))) *)
Definition constrain (amt low high : Z) : Z :=
  if amt <? low then low else if amt >? high then high else amt.

(** [min(a,b)]: ((a)<(b)?(a):(b)) and [max(a,b)]: ((a)>(b)?(a):(b)) *)
Definition min (a b : Z) : Z := if a <? b then a else b.
Definition max (a b : Z) : Z := if a >? b then a else b.

(** [abs(x)]: ((x)>0?(x):-(x)) on [int]. *)
Definition abs (x : Z) : Z := if x >? 0 then x else int_of (- x).

(** [map(x, in_min, in_max, out_min, out_max)] of the ESP32 Arduino core, on
    32-bit [long]: a zero input range returns -1, otherwise
    (x - in_min) * (out_max - out_min) / (in_max - in_min) + out_min
    with C division (truncation toward zero). *)
Definition map (x in_min in_max out_min out_max : Z) : Z :=
  let run := int_of (in_max - in_min) in
  if run =? 0 then -1
  else
    let rise := int_of (out_max - out_min) in
    let delta := int_of (x - in_min) in
    int_of (int_of (Z.quot (int_of (delta * rise)) run) + out_min).

(** [String::toLowerCase]: [tolower] on every character. *)
Definition tolower (c : ascii) : ascii :=
  let n := nat_of_ascii c in
  if (Nat.leb 65 n && Nat.leb n 90)%bool then ascii_of_nat (n + 32) else c.

Fixpoint toLowerCase (s : string) : string :=
  match s with
  | EmptyString => EmptyString
  | String c s' => String (tolower c) (toLowerCase s')
  end.

End Arduino.

(** ** The JSON transport interface (ArduinoJson)

    The handlers use a parsed document only through [containsKey] and the
    conversions [as<int>()] and [as<String>()]; a member is given by what these
    two conversions return for it. *)

Record JsonMember : Type := mkMember {
  asInt : Z;
  asString : string
}.

(** A parsed object: the members in document order. *)
Definition JsonDocument : Type := list (string * JsonMember).

Fixpoint member (key : string) (doc : JsonDocument) : option JsonMember :=
  match doc with
  | [] => None
  | (k, v) :: rest => if String.eqb k key then Some v else member key rest
  end.

Definition containsKey (doc : JsonDocument) (key : string) : bool :=
  match member key doc with Some _ => true | None => false end.

(** [doc[key].as<int>()]; a missing member converts to 0. *)
Definition as_int (doc : JsonDocument) (key : string) : Z :=
  match member key doc with Some m => asInt m | None => 0 end.

(** [doc[key].as<String>()]; a missing member converts to the text null. *)
Definition as_String (doc : JsonDocument) (key : string) : string :=
  match member key doc with Some m => asString m | None => "null"%string end.

(** Values of the JSON objects the handlers answer with. *)
Inductive JsonValue : Type :=
| JInt (z : Z)
| JStr (s : string)
| JBool (b : bool).

(** An HTTP response: status code and the members of the JSON body. *)
Record Response : Type := mkResponse {
  code : Z;
  body : list (string * JsonValue)
}.

(** ** The full controller *)

Module Controller.
Import Arduino.

Definition SERVO_STEP_SIZE : Z := 2.
Definition SERVO_MOVE_DELAY : Z := 25.
Definition BLINK_DURATION : Z := 150.
Definition EMOTION_MODE_DURATION : Z := 12000.

(** *** Global state *)

(** The state of one servo axis. *)
Record ServoState : Type := mkServoState {
  currentPos : Z;
  targetPos : Z;
  lastMoveTime : Z;
  moving : bool;
  minPos : Z;
  maxPos : Z;
  name : string
}.

(** The emotion state variables. *)
Record EmotionVars : Type := mkEmotionVars {
  current_emotion : string;
  current_sentiment : string;
  emotion_mode_active : bool;
  head_tracking_enabled : bool;
  emotion_mode_start : Z
}.

(** The pending request system: one slot per kind of command. *)
Record PendingVars : Type := mkPendingVars {
  pendingEmotion : bool;
  pendingEmotionValue : string;
  pendingHead : bool;
  pendingHeadNumber : Z;
  pendingHeadAngle : Z;
  pendingReset : bool;
  resetAcknowledged : bool;
  resetStartTime : Z
}.

(** The eye blinking system. *)
Record BlinkVars : Type := mkBlinkVars {
  lastBlinkTime : Z;
  nextBlinkInterval : Z;
  isBlinking : bool;
  blinkStartTime : Z;
  eyesOpen : bool
}.

(** The function-local statics of the person count control in
    [processPendingRequests] (its [lastMoveTime] is named [trackLastMoveTime]
    here, apart from the field of [ServoState]). *)
Record TrackVars : Type := mkTrackVars {
  trackLastMoveTime : Z;
  currentDirection : Z;
  movementSpeed : Z
}.

(** All of the state; [headServo], [leftArmServo] and [rightArmServo] hold the
    last angle written to each [Servo] object. *)
Record Robot : Type := mkRobot {
  emo : EmotionVars;
  pend : PendingVars;
  blinkv : BlinkVars;
  track : TrackVars;
  headState : ServoState;
  leftArmState : ServoState;
  rightArmState : ServoState;
  headServo : Z;
  leftArmServo : Z;
  rightArmServo : Z
}.

Definition set_emo (v : EmotionVars) (r : Robot) : Robot :=
  mkRobot v (pend r) (blinkv r) (track r) (headState r) (leftArmState r)
          (rightArmState r) (headServo r) (leftArmServo r) (rightArmServo r).
Definition set_pend (v : PendingVars) (r : Robot) : Robot :=
  mkRobot (emo r) v (blinkv r) (track r) (headState r) (leftArmState r)
          (rightArmState r) (headServo r) (leftArmServo r) (rightArmServo r).
Definition set_blinkv (v : BlinkVars) (r : Robot) : Robot :=
  mkRobot (emo r) (pend r) v (track r) (headState r) (leftArmState r)
          (rightArmState r) (headServo r) (leftArmServo r) (rightArmServo r).
Definition set_track (v : TrackVars) (r : Robot) : Robot :=
  mkRobot (emo r) (pend r) (blinkv r) v (headState r) (leftArmState r)
          (rightArmState r) (headServo r) (leftArmServo r) (rightArmServo r).
Definition set_headState (v : ServoState) (r : Robot) : Robot :=
  mkRobot (emo r) (pend r) (blinkv r) (track r) v (leftArmState r)
          (rightArmState r) (headServo r) (leftArmServo r) (rightArmServo r).
Definition set_leftArmState (v : ServoState) (r : Robot) : Robot :=
  mkRobot (emo r) (pend r) (blinkv r) (track r) (headState r) v
          (rightArmState r) (headServo r) (leftArmServo r) (rightArmServo r).
Definition set_rightArmState (v : ServoState) (r : Robot) : Robot :=
  mkRobot (emo r) (pend r) (blinkv r) (track r) (headState r) (leftArmState r)
          v (headServo r) (leftArmServo r) (rightArmServo r).
Definition set_headServo (v : Z) (r : Robot) : Robot :=
  mkRobot (emo r) (pend r) (blinkv r) (track r) (headState r) (leftArmState r)
          (rightArmState r) v (leftArmServo r) (rightArmServo r).
Definition set_leftArmServo (v : Z) (r : Robot) : Robot :=
  mkRobot (emo r) (pend r) (blinkv r) (track r) (headState r) (leftArmState r)
          (rightArmState r) (headServo r) v (rightArmServo r).
Definition set_rightArmServo (v : Z) (r : Robot) : Robot :=
  mkRobot (emo r) (pend r) (blinkv r) (track r) (headState r) (leftArmState r)
          (rightArmState r) (headServo r) (leftArmServo r) v.

(** The initial poses. *)
Definition headState0 : ServoState := mkServoState 90 90 0 false 45 135 "HEAD".
Definition leftArmState0 : ServoState := mkServoState 180 180 0 false 0 180 "LEFT_ARM".
Definition rightArmState0 : ServoState := mkServoState 0 0 0 false 0 180 "RIGHT_ARM".

(** The state when [setup] returns: the initialisers of the globals, the
    initial positions written to the servos, and the blinking system armed
    at [now] with the interval [rnd] that [random(2000, 5000)] gave. *)
Definition setup (now rnd : Z) : Robot :=
  mkRobot (mkEmotionVars "happy" "happy" false true 0)
          (mkPendingVars false EmptyString false (-1) (-1) false false 0)
          (mkBlinkVars now rnd false 0 true)
          (mkTrackVars 0 1 5)
          headState0 leftArmState0 rightArmState0
          90 180 0.

(** *** Servo movement *)

Definition moveServoSafely (state : ServoState) (targetAngle : Z) : ServoState :=
  let safeAngle := constrain targetAngle (minPos state) (maxPos state) in
  if abs (int_of (targetPos state - safeAngle)) >? 2 then
    mkServoState (currentPos state) safeAngle (lastMoveTime state) true
                 (minPos state) (maxPos state) (name state)
  else state.

(** The HEAD block of [updateServoPositions]. *)
Definition updateHeadServo (now : Z) (r : Robot) : Robot :=
  if (moving (headState r)
      && (ulong_of (now - lastMoveTime (headState r)) >=? SERVO_MOVE_DELAY))%bool
  then
    let pos :=
      if currentPos (headState r) <? targetPos (headState r) then
        min (int_of (currentPos (headState r) + SERVO_STEP_SIZE)) (targetPos (headState r))
      else if currentPos (headState r) >? targetPos (headState r) then
        max (int_of (currentPos (headState r) - SERVO_STEP_SIZE)) (targetPos (headState r))
      else currentPos (headState r) in
    let r1 :=
      if ((pos >=? minPos (headState r)) && (pos <=? maxPos (headState r)))%bool
      then set_headServo pos r else r in
    set_headState
      (mkServoState pos (targetPos (headState r)) now
                    (if pos =? targetPos (headState r) then false
                     else moving (headState r))
                    (minPos (headState r)) (maxPos (headState r))
                    (name (headState r)))
      r1
  else r.

(** The LEFT ARM block. *)
Definition updateLeftArmServo (now : Z) (r : Robot) : Robot :=
  if (moving (leftArmState r)
      && (ulong_of (now - lastMoveTime (leftArmState r)) >=? SERVO_MOVE_DELAY))%bool
  then
    let pos :=
      if currentPos (leftArmState r) <? targetPos (leftArmState r) then
        min (int_of (currentPos (leftArmState r) + SERVO_STEP_SIZE))
            (targetPos (leftArmState r))
      else if currentPos (leftArmState r) >? targetPos (leftArmState r) then
        max (int_of (currentPos (leftArmState r) - SERVO_STEP_SIZE))
            (targetPos (leftArmState r))
      else currentPos (leftArmState r) in
    let r1 :=
      if ((pos >=? minPos (leftArmState r)) && (pos <=? maxPos (leftArmState r)))%bool
      then set_leftArmServo pos r else r in
    set_leftArmState
      (mkServoState pos (targetPos (leftArmState r)) now
                    (if pos =? targetPos (leftArmState r) then false
                     else moving (leftArmState r))
                    (minPos (leftArmState r)) (maxPos (leftArmState r))
                    (name (leftArmState r)))
      r1
  else r.

(** The RIGHT ARM block. *)
Definition updateRightArmServo (now : Z) (r : Robot) : Robot :=
  if (moving (rightArmState r)
      && (ulong_of (now - lastMoveTime (rightArmState r)) >=? SERVO_MOVE_DELAY))%bool
  then
    let pos :=
      if currentPos (rightArmState r) <? targetPos (rightArmState r) then
        min (int_of (currentPos (rightArmState r) + SERVO_STEP_SIZE))
            (targetPos (rightArmState r))
      else if currentPos (rightArmState r) >? targetPos (rightArmState r) then
        max (int_of (currentPos (rightArmState r) - SERVO_STEP_SIZE))
            (targetPos (rightArmState r))
      else currentPos (rightArmState r) in
    let r1 :=
      if ((pos >=? minPos (rightArmState r)) && (pos <=? maxPos (rightArmState r)))%bool
      then set_rightArmServo pos r else r in
    set_rightArmState
      (mkServoState pos (targetPos (rightArmState r)) now
                    (if pos =? targetPos (rightArmState r) then false
                     else moving (rightArmState r))
                    (minPos (rightArmState r)) (maxPos (rightArmState r))
                    (name (rightArmState r)))
      r1
  else r.

(** [updateServoPositions], with [now] the reading of [millis()]. *)
Definition updateServoPositions (now : Z) (r : Robot) : Robot :=
  updateRightArmServo now (updateLeftArmServo now (updateHeadServo now r)).

(** *** Eye blinking *)

(** [updateEyeBlinking]: [now] is its reading of [millis()], [rnd] what
    [random(2000, 5000)] gives when it is called. *)
Definition updateEyeBlinking (now rnd : Z) (r : Robot) : Robot :=
  if isBlinking (blinkv r) then
    if ulong_of (now - blinkStartTime (blinkv r)) >=? BLINK_DURATION then
      set_blinkv (mkBlinkVars now rnd false (blinkStartTime (blinkv r)) true) r
    else r
  else
    if ulong_of (now - lastBlinkTime (blinkv r)) >=? nextBlinkInterval (blinkv r) then
      set_blinkv (mkBlinkVars (lastBlinkTime (blinkv r)) (nextBlinkInterval (blinkv r))
                              true now false) r
    else r.

(** *** The pending request system *)

(** What one call of [processPendingRequests] reads from its environment:
    the readings of [millis()] in program order, the results of [random],
    and the indeterminate value of the uninitialised local [newAngle]. *)
Record PendingEnv : Type := mkPendingEnv {
  t_resetAck : Z;
  t_resetElapsed : Z;
  t_resetBlink : Z;
  rnd_resetBlink : Z;
  t_emotion : Z;
  t_track : Z;
  rnd_track : Z;
  newAngle_indeterminate : Z
}.

(** The three arms of a pose, in the order the source issues them. *)
Definition poseLRH (l rt h : Z) (r : Robot) : Robot :=
  set_headState (moveServoSafely (headState r) h)
    (set_rightArmState (moveServoSafely (rightArmState r) rt)
      (set_leftArmState (moveServoSafely (leftArmState r) l) r)).

Definition poseHLR (h l rt : Z) (r : Robot) : Robot :=
  set_rightArmState (moveServoSafely (rightArmState r) rt)
    (set_leftArmState (moveServoSafely (leftArmState r) l)
      (set_headState (moveServoSafely (headState r) h) r)).

(** The critical section that acknowledges a pending reset. *)
Definition acknowledgeReset (now : Z) (r : Robot) : bool * Robot :=
  if (pendingReset (pend r) && negb (resetAcknowledged (pend r)))%bool then
    (true,
     set_pend (mkPendingVars (pendingEmotion (pend r)) (pendingEmotionValue (pend r))
                             (pendingHead (pend r)) (pendingHeadNumber (pend r))
                             (pendingHeadAngle (pend r))
                             false true now) r)
  else (false, r).

(** The reset to the default state, run when the five seconds are over. *)
Definition executeReset (env : PendingEnv) (r : Robot) : Robot :=
  let r1 :=
    set_pend (mkPendingVars (pendingEmotion (pend r)) (pendingEmotionValue (pend r))
                            (pendingHead (pend r)) (pendingHeadNumber (pend r))
                            (pendingHeadAngle (pend r))
                            (pendingReset (pend r)) false (resetStartTime (pend r))) r in
  let r2 :=
    set_emo (mkEmotionVars "happy" "happy" false true (emotion_mode_start (emo r1))) r1 in
  let r3 := poseHLR 90 180 0 r2 in
  set_blinkv (mkBlinkVars (t_resetBlink env) (rnd_resetBlink env) false
                          (blinkStartTime (blinkv r3)) true) r3.

Definition processReset (env : PendingEnv) (r : Robot) : Robot :=
  let r1 := snd (acknowledgeReset (t_resetAck env) r) in
  if resetAcknowledged (pend r1) then
    let elapsed := ulong_of (t_resetElapsed env - resetStartTime (pend r1)) in
    if elapsed >=? 5000 then executeReset env r1 else r1
  else r1.

(** The critical section that takes the pending emotion out of its slot. *)
Definition drainEmotion (r : Robot) : option string * Robot :=
  if pendingEmotion (pend r) then
    (Some (pendingEmotionValue (pend r)),
     set_pend (mkPendingVars false EmptyString
                             (pendingHead (pend r)) (pendingHeadNumber (pend r))
                             (pendingHeadAngle (pend r))
                             (pendingReset (pend r)) (resetAcknowledged (pend r))
                             (resetStartTime (pend r))) r)
  else (None, r).

Definition eqs (emotion label : string) : bool := String.eqb emotion label.

(** The pose table of the emotion request. *)
Definition emotionPose (emotion : string) (r : Robot) : Robot :=
  if (eqs emotion "sad" || eqs emotion "sadness" || eqs emotion "fear"
      || eqs emotion "scared")%bool then poseLRH 90 90 70 r
  else if (eqs emotion "angry" || eqs emotion "anger")%bool then poseLRH 45 135 95 r
  else if (eqs emotion "surprise" || eqs emotion "surprised")%bool then poseLRH 120 60 85 r
  else if (eqs emotion "happy" || eqs emotion "joy")%bool then poseLRH 160 20 95 r
  else poseLRH 180 0 90 r.

Definition applyEmotion (now : Z) (emotion : string) (r : Robot) : Robot :=
  emotionPose emotion
    (set_emo (mkEmotionVars emotion emotion true false now) r).

Definition processEmotion (env : PendingEnv) (r : Robot) : Robot :=
  match drainEmotion r with
  | (Some emotion, r1) => applyEmotion (t_emotion env) emotion r1
  | (None, r1) => r1
  end.

(** The critical section that takes the pending head command out of its
    slot: the person count and the angle. *)
Definition drainHead (r : Robot) : option (Z * Z) * Robot :=
  if pendingHead (pend r) then
    (Some (pendingHeadNumber (pend r), pendingHeadAngle (pend r)),
     set_pend (mkPendingVars (pendingEmotion (pend r)) (pendingEmotionValue (pend r))
                             false (-1) (-1)
                             (pendingReset (pend r)) (resetAcknowledged (pend r))
                             (resetStartTime (pend r))) r)
  else (None, r).

(** Reversal of the sweep at either bound of the head axis. *)
Definition boundSweep (newAngle dir : Z) (r : Robot) : Z * Z :=
  if newAngle >=? maxPos (headState r) then (maxPos (headState r), -1)
  else if newAngle <=? minPos (headState r) then (minPos (headState r), 1)
  else (newAngle, dir).

(** The next angle of the person count control, with the direction and the
    speed it leaves in the statics. *)
Definition sweep (env : PendingEnv) (number : Z) (r : Robot) : Z * Z * Z :=
  if number =? 0 then
    let newAngle :=
      int_of (currentPos (headState r)
              + int_of (currentDirection (track r) * movementSpeed (track r))) in
    (boundSweep newAngle (currentDirection (track r)) r, movementSpeed (track r))
  else if number >=? 1 then
    let newAngle :=
      int_of (currentPos (headState r) + int_of (currentDirection (track r) * 8)) in
    let dir := if rnd_track env <? 30
               then int_of (currentDirection (track r) * -1)
               else currentDirection (track r) in
    (boundSweep newAngle dir r, 8)
  else (newAngle_indeterminate env, currentDirection (track r), movementSpeed (track r)).

(** The person count control. *)
Definition personCountControl (env : PendingEnv) (number : Z) (r : Robot) : Robot :=
  let currentTime := t_track env in
  if ulong_of (currentTime - trackLastMoveTime (track r)) >? 2000 then
    let s := sweep env number r in
    set_track (mkTrackVars currentTime (snd (fst s)) (snd s))
      (set_headState (moveServoSafely (headState r) (fst (fst s))) r)
  else r.

Definition applyHead (env : PendingEnv) (number angle : Z) (r : Robot) : Robot :=
  if (negb (emotion_mode_active (emo r)) && head_tracking_enabled (emo r))%bool then
    if negb (angle =? -1) then
      let safeAngle := constrain angle (minPos (headState r)) (maxPos (headState r)) in
      set_headState (moveServoSafely (headState r) safeAngle) r
    else if negb (number =? -1) then personCountControl env number r
    else r
  else r.

Definition processHead (env : PendingEnv) (r : Robot) : Robot :=
  match drainHead r with
  | (Some (number, angle), r1) => applyHead env number angle r1
  | (None, r1) => r1
  end.

Definition processPendingRequests (env : PendingEnv) (r : Robot) : Robot :=
  processHead env (processEmotion env (processReset env r)).

(** *** Web server handlers *)

(** What [deserializeJson] made of the request body. *)
Inductive Parsed : Type :=
| ParseError (c_str : string)
| Document (doc : JsonDocument).

Definition postEmotion (sentiment : string) (r : Robot) : Robot :=
  set_pend (mkPendingVars true sentiment
                          (pendingHead (pend r)) (pendingHeadNumber (pend r))
                          (pendingHeadAngle (pend r))
                          (pendingReset (pend r)) (resetAcknowledged (pend r))
                          (resetStartTime (pend r))) r.

Definition postHead (number angle : Z) (r : Robot) : Robot :=
  set_pend (mkPendingVars (pendingEmotion (pend r)) (pendingEmotionValue (pend r))
                          true number angle
                          (pendingReset (pend r)) (resetAcknowledged (pend r))
                          (resetStartTime (pend r))) r.

Definition postReset (r : Robot) : Robot :=
  set_pend (mkPendingVars (pendingEmotion (pend r)) (pendingEmotionValue (pend r))
                          (pendingHead (pend r)) (pendingHeadNumber (pend r))
                          (pendingHeadAngle (pend r))
                          true (resetAcknowledged (pend r))
                          (resetStartTime (pend r))) r.

Definition onReceiveHandler (data : Parsed) (r : Robot) : Response * Robot :=
  match data with
  | ParseError _ => (mkResponse 400 [("error"%string, JStr "invalid_json")], r)
  | Document doc =>
      if negb (containsKey doc "sentiment") then
        (mkResponse 400 [("error"%string, JStr "missing_sentiment")], r)
      else
        let sentiment := toLowerCase (as_String doc "sentiment") in
        (mkResponse 200 [("status"%string, JStr "emotion_queued");
                         ("emotion"%string, JStr sentiment)],
         postEmotion sentiment r)
  end.

Definition onHeadHandler (data : Parsed) (r : Robot) : Response * Robot :=
  match data with
  | ParseError c_str =>
      (mkResponse 400 [("error"%string, JStr "invalid_json");
                       ("details"%string, JStr c_str)], r)
  | Document doc =>
      if containsKey doc "number" then
        let number := as_int doc "number" in
        (mkResponse 200 [("status"%string, JStr "head_number_queued");
                         ("number"%string, JInt number)],
         postHead number (-1) r)
      else if containsKey doc "angle" then
        let angle := as_int doc "angle" in
        (mkResponse 200 [("status"%string, JStr "head_angle_queued");
                         ("angle"%string, JInt angle)],
         postHead (-1) angle r)
      else (mkResponse 400 [("error"%string, JStr "missing_number_or_angle")], r)
  end.

Definition onHeadPositionHandler (data : Parsed) (r : Robot) : Response * Robot :=
  match data with
  | ParseError _ => (mkResponse 400 [("error"%string, JStr "invalid_json")], r)
  | Document doc =>
      if (containsKey doc "x" && containsKey doc "frame_width")%bool then
        let personX := as_int doc "x" in
        let frameWidth := as_int doc "frame_width" in
        let headAngle :=
          map personX 0 frameWidth (minPos (headState r)) (maxPos (headState r)) in
        if (negb (emotion_mode_active (emo r)) && head_tracking_enabled (emo r))%bool
        then
          (mkResponse 200 [("status"%string, JStr "head_position_queued");
                           ("angle"%string, JInt headAngle)],
           postHead (-1) headAngle r)
        else (mkResponse 200 [("status"%string, JStr "ignored_emotion_mode")], r)
      else (mkResponse 400 [("error"%string, JStr "missing_x_or_frame_width")], r)
  end.

Definition onResetHandler (r : Robot) : Response * Robot :=
  (mkResponse 200 [("status"%string, JStr "reset_acknowledged");
                   ("delay"%string, JStr "5_seconds")],
   postReset r).

(** What the status report takes from outside the modelled state. *)
Record StatusEnv : Type := mkStatusEnv {
  leftOledOk : bool;
  rightOledOk : bool;
  ledStripOk : bool;
  wifi_connected : bool;
  free_heap : Z;
  uptime : Z
}.

Definition onStatusHandler (env : StatusEnv) (r : Robot) : Response :=
  mkResponse 200
    [("emotion"%string, JStr (current_emotion (emo r)));
     ("sentiment"%string, JStr (current_sentiment (emo r)));
     ("head_pos"%string, JInt (currentPos (headState r)));
     ("left_arm_pos"%string, JInt (currentPos (leftArmState r)));
     ("right_arm_pos"%string, JInt (currentPos (rightArmState r)));
     ("emotion_mode"%string, JBool (emotion_mode_active (emo r)));
     ("head_tracking"%string, JBool (head_tracking_enabled (emo r)));
     ("left_oled"%string, JBool (leftOledOk env));
     ("right_oled"%string, JBool (rightOledOk env));
     ("led_strip"%string, JBool (ledStripOk env));
     ("wifi_connected"%string, JBool (wifi_connected env));
     ("eyes_open"%string, JBool (eyesOpen (blinkv r)));
     ("blinking"%string, JBool (isBlinking (blinkv r)));
     ("reset_pending"%string, JBool (resetAcknowledged (pend r)));
     ("free_heap"%string, JInt (free_heap env));
     ("uptime"%string, JInt (uptime env))].

(** The value a status report gives for a key. *)
Fixpoint reported (key : string) (members : list (string * JsonValue))
  : option JsonValue :=
  match members with
  | [] => None
  | (k, v) :: rest => if String.eqb k key then Some v else reported key rest
  end.

(** *** The main loop *)

(** The automatic exit from emotion mode, with [now] read at the top of
    [loop]. *)
Definition emotionTimeout (now : Z) (r : Robot) : Robot :=
  if (emotion_mode_active (emo r)
      && (ulong_of (now - emotion_mode_start (emo r)) >? EMOTION_MODE_DURATION))%bool
  then
    poseHLR 90 180 0
      (set_emo (mkEmotionVars "happy" "happy" false true
                              (emotion_mode_start (emo r))) r)
  else r.

(** What one iteration of [loop] reads from its environment. *)
Record LoopEnv : Type := mkLoopEnv {
  now : Z;
  pendingEnv : PendingEnv;
  t_servo : Z;
  t_blink : Z;
  rnd_blink : Z
}.

Definition loop (env : LoopEnv) (r : Robot) : Robot :=
  emotionTimeout (now env)
    (updateEyeBlinking (t_blink env) (rnd_blink env)
      (updateServoPositions (t_servo env)
        (processPendingRequests (pendingEnv env) r))).

(** *** Runs of the system *)

(** One block of [updateServoPositions] read on its own axis: the new state
    of the axis, and the angle the block leaves in the [Servo] object. *)
Definition stepAxis (now : Z) (s : ServoState) : ServoState :=
  if (moving s && (ulong_of (now - lastMoveTime s) >=? SERVO_MOVE_DELAY))%bool then
    let pos :=
      if currentPos s <? targetPos s then
        min (int_of (currentPos s + SERVO_STEP_SIZE)) (targetPos s)
      else if currentPos s >? targetPos s then
        max (int_of (currentPos s - SERVO_STEP_SIZE)) (targetPos s)
      else currentPos s in
    mkServoState pos (targetPos s) now
                 (if pos =? targetPos s then false else moving s)
                 (minPos s) (maxPos s) (name s)
  else s.

Definition writeAxis (now : Z) (s : ServoState) (written : Z) : Z :=
  if (moving s && (ulong_of (now - lastMoveTime s) >=? SERVO_MOVE_DELAY))%bool then
    let pos := currentPos (stepAxis now s) in
    if ((pos >=? minPos s) && (pos <=? maxPos s))%bool then pos else written
  else written.

(** A tick at [now] is due for an axis that is moving. *)
Definition due (now : Z) (s : ServoState) : bool :=
  ulong_of (now - lastMoveTime s) >=? SERVO_MOVE_DELAY.

(** Repeated ticks of one axis at the given readings of [millis()], and the
    number of them that took a step. *)
Fixpoint stepsAxis (ts : list Z) (s : ServoState) : ServoState :=
  match ts with
  | [] => s
  | t :: ts' => stepsAxis ts' (stepAxis t s)
  end.

Fixpoint effective (ts : list Z) (s : ServoState) : nat :=
  match ts with
  | [] => O
  | t :: ts' =>
      ((if (moving s && due t s)%bool then 1 else 0) + effective ts' (stepAxis t s))%nat
  end.

(** [n] ticks, each [SERVO_MOVE_DELAY] after the one before, from [t]. *)
Fixpoint paced (n : nat) (t : Z) : list Z :=
  match n with
  | O => []
  | S n' => (t + SERVO_MOVE_DELAY) :: paced n' (t + SERVO_MOVE_DELAY)
  end.

(** The calls that touch the servo states. *)
Inductive ServoCall : Type :=
| MoveHead (targetAngle : Z)
| MoveLeftArm (targetAngle : Z)
| MoveRightArm (targetAngle : Z)
| UpdateServoPositions (now : Z).

Definition call (c : ServoCall) (r : Robot) : Robot :=
  match c with
  | MoveHead a => set_headState (moveServoSafely (headState r) a) r
  | MoveLeftArm a => set_leftArmState (moveServoSafely (leftArmState r) a) r
  | MoveRightArm a => set_rightArmState (moveServoSafely (rightArmState r) a) r
  | UpdateServoPositions now => updateServoPositions now r
  end.

Definition calls (cs : list ServoCall) (r : Robot) : Robot :=
  fold_left (fun r c => call c r) cs r.

(** The requests the web server routes to a handler. *)
Inductive Request : Type :=
| PostReceive (data : Parsed)
| PostHead (data : Parsed)
| PostHeadPosition (data : Parsed)
| PostReset.

Definition answer (q : Request) (r : Robot) : Response * Robot :=
  match q with
  | PostReceive data => onReceiveHandler data r
  | PostHead data => onHeadHandler data r
  | PostHeadPosition data => onHeadPositionHandler data r
  | PostReset => onResetHandler r
  end.


(** What happens to the system: a request is served, or [loop] runs once. *)
Inductive Event : Type :=
| Http (q : Request)
| Loop (env : LoopEnv).

Definition serve (e : Event) (r : Robot) : Robot :=
  match e with
  | Http q => snd (answer q r)
  | Loop env => loop env r
  end.

Definition run (es : list Event) (r : Robot) : Robot :=
  fold_left (fun r e => serve e r) es r.

(** *** What a client is told was queued *)

Definition status_is (resp : Response) (status : string) : bool :=
  match reported "status" (body resp) with
  | Some (JStr st) => String.eqb st status
  | _ => false
  end.

(** The emotion a response says was queued. *)
Definition queuedEmotion (resp : Response) : option string :=
  if status_is resp "emotion_queued" then
    match reported "emotion" (body resp) with
    | Some (JStr v) => Some v
    | _ => None
    end
  else None.

(** The head command a response says was queued: the person count and the
    angle, -1 for the one that is not given. *)
Definition queuedHead (resp : Response) : option (Z * Z) :=
  if status_is resp "head_number_queued" then
    match reported "number" (body resp) with
    | Some (JInt n) => Some (n, -1)
    | _ => None
    end
  else if (status_is resp "head_angle_queued"
           || status_is resp "head_position_queued")%bool then
    match reported "angle" (body resp) with
    | Some (JInt a) => Some (-1, a)
    | _ => None
    end
  else None.





(** The position and the target of an axis are within its limits. *)
Definition within (s : ServoState) : Prop :=
  minPos s <= currentPos s <= maxPos s /\ minPos s <= targetPos s <= maxPos s.

(** Limits between which the step arithmetic does not wrap. *)
Definition limits_ok (s : ServoState) : Prop :=
  INT_MIN < minPos s /\ maxPos s < INT_MAX.

Definition axis_ok (s : ServoState) : Prop := limits_ok s /\ within s.

(** An axis with the limits [lo] and [hi], and within them. *)
Definition axis_in (lo hi : Z) (s : ServoState) : Prop :=
  minPos s = lo /\ maxPos s = hi /\ within s.

(** The position of an axis with the limits [lo] and [hi] is within them. *)
Definition position_within (lo hi : Z) (s : ServoState) : Prop :=
  minPos s = lo /\ maxPos s = hi /\ lo <= currentPos s <= hi.

(** A request either leaves the target as it is or makes the requested
    angle, constrained to the limits, the target; the target is within the
    limits afterwards. *)
Definition clamps (s : ServoState) (a : Z) : Prop :=
  (targetPos (moveServoSafely s a) = targetPos s
   \/ targetPos (moveServoSafely s a) = constrain a (minPos s) (maxPos s))
  /\ minPos s <= targetPos (moveServoSafely s a) <= maxPos s.

(** What repeated ticks at the readings [ts] do to an axis whose target is
    [d] degrees away: the distance left is [d] less the step size for every
    tick that took a step, the position stays between where it was and
    the target, at most the whole of [d / SERVO_STEP_SIZE] rounded up (and
    at least one) ticks take a step, and the axis stops moving exactly when
    a step has put the position on the target. *)
Definition converges (ts : list Z) (s : ServoState) : Prop :=
  let d := Z.abs (targetPos s - currentPos s) in
  let n := Z.of_nat (effective ts s) in
  let s' := stepsAxis ts s in
  Z.abs (targetPos s' - currentPos s') = Z.max 0 (d - SERVO_STEP_SIZE * n)
  /\ Z.min (currentPos s) (targetPos s) <= currentPos s'
     <= Z.max (currentPos s) (targetPos s)
  /\ n <= Z.max 1 ((d + SERVO_STEP_SIZE - 1) / SERVO_STEP_SIZE)
  /\ (moving s' = false <-> 1 <= n /\ currentPos s' = targetPos s')
  /\ targetPos s' = targetPos s.

(** Ticks one move delay apart reach the target in the whole of
    [d / SERVO_STEP_SIZE] rounded up (and at least one) ticks, each of which
    takes a step, and the axis has stopped moving then. *)
Definition reaches_target (s : ServoState) : Prop :=
  let d := Z.abs (targetPos s - currentPos s) in
  let k := Z.to_nat (Z.max 1 ((d + SERVO_STEP_SIZE - 1) / SERVO_STEP_SIZE)) in
  let ts := paced k (lastMoveTime s) in
  effective ts s = k
  /\ currentPos (stepsAxis ts s) = targetPos s
  /\ moving (stepsAxis ts s) = false.

(** The three axes have the limits they were created with and are within
    them. *)
Definition poses_ok (r : Robot) : Prop :=
  axis_in 45 135 (headState r)
  /\ axis_in 0 180 (leftArmState r)
  /\ axis_in 0 180 (rightArmState r).

(** *** Request bodies *)

(** The body of a head position request: the members x and frame_width. *)
Definition positionBody (x frame_width : Z) : JsonDocument :=
  [("x"%string, mkMember x EmptyString);
   ("frame_width"%string, mkMember frame_width EmptyString)].

(** The angle a head position request is told was queued. *)
Definition queuedAngle (x frame_width : Z) (r : Robot) : option Z :=
  match queuedHead (fst (onHeadPositionHandler (Document (positionBody x frame_width)) r)) with
  | Some (_, angle) => Some angle
  | None => None
  end.

(** The head gate: emotion mode is off and head tracking is enabled. *)
Definition tracking (r : Robot) : bool :=
  (negb (emotion_mode_active (emo r)) && head_tracking_enabled (emo r))%bool.

(** The target a request for [a] leaves on an axis whose target is [t]: [a]
    when it is more than [deadband] degrees from [t], else [t]. *)
Definition requested (deadband t a : Z) : Z :=
  if Z.abs (t - a) >? deadband then a else t.

(** *** A run into the emotion timeout *)

(** An iteration of [loop] all of whose readings of [millis()] are [t]. *)
Definition quiet (t : Z) : LoopEnv :=
  mkLoopEnv t (mkPendingEnv t t t 3000 t t 50 0) t t 3000.

Definition angleBody (angle : Z) : JsonDocument :=
  [("angle"%string, mkMember angle EmptyString)].

(** The head is sent to 95 and then to 88 degrees, and the emotion disgust
    is received at 300 ms. *)
Definition timeoutScenario : list Event :=
  [Http (PostHead (Document (angleBody 95))); Loop (quiet 100);
   Http (PostHead (Document (angleBody 88))); Loop (quiet 200);
   Http (PostReceive (Document [("sentiment"%string, mkMember 0 "disgust")]));
   Loop (quiet 300)].

(** The run into emotion mode, then a reset that is acknowledged at 400 ms. *)
Definition resetScenario : list Event :=
  timeoutScenario ++ [Http PostReset; Loop (quiet 400)].

(** The state in which an iteration of [loop] reaches the check of the
    emotion timeout. *)
Definition beforeTimeout (env : LoopEnv) (r : Robot) : Robot :=
  updateEyeBlinking (t_blink env) (rnd_blink env)
    (updateServoPositions (t_servo env)
      (processPendingRequests (pendingEnv env) r)).

(** The emotion timeout is over at the reading [now] of the clock. *)
Definition timed_out (now : Z) (r : Robot) : Prop :=
  (ulong_of (now - emotion_mode_start (emo r)) >? EMOTION_MODE_DURATION) = true.

(** *** What holds along every run *)

(** The angle last written to each servo is the position of its axis. *)
Definition synced (r : Robot) : Prop :=
  headServo r = currentPos (headState r)
  /\ leftArmServo r = currentPos (leftArmState r)
  /\ rightArmServo r = currentPos (rightArmState r).

(** Head tracking is enabled exactly when emotion mode is off. *)
Definition gate_flags_ok (r : Robot) : Prop :=
  head_tracking_enabled (emo r) = negb (emotion_mode_active (emo r)).

(** The eyes are open exactly when no blink is running. *)
Definition blink_flags_ok (r : Robot) : Prop :=
  eyesOpen (blinkv r) = negb (isBlinking (blinkv r)).

(** The statics of the sweep: a direction of 1 or -1, a speed of 5 or 8. *)
Definition sweep_ok (r : Robot) : Prop :=
  (currentDirection (track r) = 1 \/ currentDirection (track r) = -1)
  /\ (movementSpeed (track r) = 5 \/ movementSpeed (track r) = 8).

(** The positions and the angles written are the same in [r'] as in [r]. *)
Definition same_positions (r r' : Robot) : Prop :=
  headServo r' = headServo r
  /\ leftArmServo r' = leftArmServo r
  /\ rightArmServo r' = rightArmServo r
  /\ currentPos (headState r') = currentPos (headState r)
  /\ currentPos (leftArmState r') = currentPos (leftArmState r)
  /\ currentPos (rightArmState r') = currentPos (rightArmState r).

(** The passes of [processReset] at the readings [envs], one after the other. *)
Definition resetPasses (envs : list PendingEnv) (r : Robot) : Robot :=
  fold_left (fun r env => processReset env r) envs r.

(** A pass that finds the countdown of the reset, started at [t0], running. *)
Definition counting (t0 : Z) (env : PendingEnv) : Prop :=
  ulong_of (t_resetElapsed env - t0) < 5000.

(** *** Repeated calls of updateServoPositions *)

(** The three axes. *)
Inductive Axis : Type :=
| HeadAxis
| LeftArmAxis
| RightArmAxis.

Definition axisState (a : Axis) (r : Robot) : ServoState :=
  match a with
  | HeadAxis => headState r
  | LeftArmAxis => leftArmState r
  | RightArmAxis => rightArmState r
  end.

(** The calls of [updateServoPositions] at the readings [ts] of [millis()],
    one after the other. *)
Definition ticks (ts : list Z) (r : Robot) : Robot :=
  fold_left (fun r t => updateServoPositions t r) ts r.

(** The number of the calls at [ts] that found the axis [a] moving and its
    move delay over, so that its block was run. *)
Fixpoint stepsTaken (a : Axis) (ts : list Z) (r : Robot) : nat :=
  match ts with
  | [] => O
  | t :: ts' =>
      ((if (moving (axisState a r) && due t (axisState a r))%bool then 1 else 0)
       + stepsTaken a ts' (updateServoPositions t r))%nat
  end.

(** What the calls of [updateServoPositions] at [ts] do to the axis [a] of
    the robot, whose target is [d] degrees away: the distance left is [d]
    less the step size for every call that took a step, the position stays
    between where it was and the target, at most the whole of
    [d / SERVO_STEP_SIZE] rounded up (and at least one) calls take a step,
    the axis stops moving exactly when a step has put the position on the
    target, and the target is not touched. *)
Definition axis_converges (a : Axis) (ts : list Z) (r : Robot) : Prop :=
  let s := axisState a r in
  let d := Z.abs (targetPos s - currentPos s) in
  let n := Z.of_nat (stepsTaken a ts r) in
  let s' := axisState a (ticks ts r) in
  Z.abs (targetPos s' - currentPos s') = Z.max 0 (d - SERVO_STEP_SIZE * n)
  /\ Z.min (currentPos s) (targetPos s) <= currentPos s'
     <= Z.max (currentPos s) (targetPos s)
  /\ n <= Z.max 1 ((d + SERVO_STEP_SIZE - 1) / SERVO_STEP_SIZE)
  /\ (moving s' = false <-> 1 <= n /\ currentPos s' = targetPos s')
  /\ targetPos s' = targetPos s.

(** Calls of [updateServoPositions] one move delay apart bring the axis [a]
    to its target in the whole of [d / SERVO_STEP_SIZE] rounded up (and at
    least one) calls, each of which takes a step, and the axis has stopped
    moving then. *)
Definition axis_reaches_target (a : Axis) (r : Robot) : Prop :=
  let s := axisState a r in
  let d := Z.abs (targetPos s - currentPos s) in
  let k := Z.to_nat (Z.max 1 ((d + SERVO_STEP_SIZE - 1) / SERVO_STEP_SIZE)) in
  let ts := paced k (lastMoveTime s) in
  stepsTaken a ts r = k
  /\ currentPos (axisState a (ticks ts r)) = targetPos s
  /\ moving (axisState a (ticks ts r)) = false.

(** *** The reset and the head slot in a pass *)

(** The pass at the readings [env] executes the reset: its countdown is
    running, or is started by the pass, and 5000 ms or more are gone. *)
Definition resetDue (env : PendingEnv) (r : Robot) : bool :=
  let r1 := snd (acknowledgeReset (t_resetAck env) r) in
  (resetAcknowledged (pend r1)
   && (ulong_of (t_resetElapsed env - resetStartTime (pend r1)) >=? 5000))%bool.

(** The person count and the angle that [onHeadHandler] puts in the head
    slot for a body with a number or an angle. *)
Definition headCommand (doc : JsonDocument) : Z * Z :=
  if containsKey doc "number" then (as_int doc "number", -1)
  else (-1, as_int doc "angle").

(** *** The emotion sequence *)

(** [blinkEyes], the manual blink: [now] and [rnd] are its readings of
    [millis()] and of [random(2000, 5000)]. *)
Definition blinkEyes (now rnd : Z) (r : Robot) : Robot :=
  set_blinkv (mkBlinkVars now rnd false (blinkStartTime (blinkv r)) true) r.

(** [moveServoSafely(headServo, headState, a)]. *)
Definition moveHead (a : Z) (r : Robot) : Robot :=
  set_headState (moveServoSafely (headState r) a) r.

(** [performEmotionSequence]; the sequence for surprise only drives the
    LEDs. *)
Definition performEmotionSequence (emotion : string) (now rnd : Z) (r : Robot)
  : Robot :=
  if (eqs emotion "happy" || eqs emotion "joy")%bool then
    moveHead 90 (moveHead 95 (moveHead 85 (blinkEyes now rnd r)))
  else if (eqs emotion "sad" || eqs emotion "sadness")%bool then moveHead 70 r
  else if (eqs emotion "angry" || eqs emotion "anger")%bool then
    moveHead 95 (moveHead 80 (moveHead 100 r))
  else r.

(** The axis [s] sent to the target [a]. *)
Definition sent (a : Z) (s : ServoState) : ServoState :=
  mkServoState (currentPos s) a (lastMoveTime s) true (minPos s) (maxPos s) (name s).

(** The body of a head request with a person count. *)
Definition numberBody (number : Z) : JsonDocument :=
  [("number"%string, mkMember number EmptyString)].

End Controller.

(** ** The LED strip of the full controller

    The strip is driven beside the servos: the LED calls of [setup],
    [processPendingRequests] and [loop] are read here on the state of
    [Controller]; a [delay] only passes time. *)

Module Leds.
Import Arduino.

Definition LED_COUNT : Z := 4.
Definition WIFI_CHECK_INTERVAL : Z := 15000.
Definition HEARTBEAT_INTERVAL : Z := 30000.

(** The colours of FastLED that the controller names. *)
Inductive CRGB : Type :=
| Black | Green | Red | White | Blue | Yellow | Magenta | Orange.

Definition COLOR_HAPPY : CRGB := Green.
Definition COLOR_ANGRY : CRGB := Red.
Definition COLOR_SAD : CRGB := White.
Definition COLOR_FEAR : CRGB := White.
Definition COLOR_DISGUST : CRGB := Blue.
Definition COLOR_SURPRISE : CRGB := Yellow.
Definition COLOR_OFF : CRGB := Black.

(** The strip: the array [leds], the brightness of FastLED (a byte),
    [ledStripOk], and the frames that [FastLED.show()] has put out, the last
    one first, each with its brightness. *)
Record Strip : Type := mkStrip {
  leds : list CRGB;
  brightness : Z;
  ledStripOk : bool;
  shown : list (Z * list CRGB)
}.

(** The strip before [setup]: the array zeroed, the brightness of FastLED at
    its default. *)
Definition power_on : Strip :=
  mkStrip (repeat Black (Z.to_nat LED_COUNT)) 255 false [].

Definition fill_solid (color : CRGB) (s : Strip) : Strip :=
  mkStrip (repeat color (Z.to_nat LED_COUNT)) (brightness s) (ledStripOk s) (shown s).

Definition clear (s : Strip) : Strip := fill_solid Black s.

Definition setBrightness (scale : Z) (s : Strip) : Strip :=
  mkStrip (leds s) (scale mod 256) (ledStripOk s) (shown s).

Definition show (s : Strip) : Strip :=
  mkStrip (leds s) (brightness s) (ledStripOk s) ((brightness s, leds s) :: shown s).

Fixpoint assign (i : nat) (color : CRGB) (l : list CRGB) : list CRGB :=
  match l, i with
  | [], _ => []
  | _ :: rest, O => color :: rest
  | c :: rest, S j => c :: assign j color rest
  end.

(** [leds[led] = color], for an index of the array. *)
Definition setLed (led : Z) (color : CRGB) (s : Strip) : Strip :=
  if ((0 <=? led) && (led <? LED_COUNT))%bool then
    mkStrip (assign (Z.to_nat led) color (leds s)) (brightness s) (ledStripOk s)
            (shown s)
  else s.

(** The values of the counter of [for (b = first; b <= last; b += step)] and
    of [for (b = first; b >= last; b -= step)]. *)
Definition upTo (first last step : Z) : list Z :=
  List.map (fun k => first + step * Z.of_nat k)
      (seq 0 (Z.to_nat ((last - first) / step + 1))).

Definition downTo (first last step : Z) : list Z :=
  List.map (fun k => first - step * Z.of_nat k)
      (seq 0 (Z.to_nat ((first - last) / step + 1))).

Definition initializeLEDs (s : Strip) : Strip :=
  let s1 := show (clear (setBrightness 80 s)) in
  let s2 :=
    fold_left (fun s i => show (setLed i Black (show (setLed i Red s))))
              (upTo 0 (LED_COUNT - 1) 1) s1 in
  let s3 := show (fill_solid COLOR_HAPPY s2) in
  mkStrip (leds s3) (brightness s3) true (shown s3).

(** The colour table of [setEmotionLEDs]. *)
Definition emotionColor (emotion : string) : CRGB :=
  if (Controller.eqs emotion "happy" || Controller.eqs emotion "joy")%bool
  then COLOR_HAPPY
  else if (Controller.eqs emotion "angry" || Controller.eqs emotion "anger")%bool
  then COLOR_ANGRY
  else if (Controller.eqs emotion "sad" || Controller.eqs emotion "sadness")%bool
  then COLOR_SAD
  else if (Controller.eqs emotion "fear" || Controller.eqs emotion "scared")%bool
  then COLOR_FEAR
  else if Controller.eqs emotion "disgust" then COLOR_DISGUST
  else if (Controller.eqs emotion "surprise" || Controller.eqs emotion "surprised")%bool
  then COLOR_SURPRISE
  else COLOR_HAPPY.

Definition setEmotionLEDs (emotion : string) (s : Strip) : Strip :=
  if negb (ledStripOk s) then s
  else show (fill_solid (emotionColor emotion) s).

(** The colour table of [pulseEmotionLEDs]. *)
Definition pulseColor (emotion : string) : CRGB :=
  if (Controller.eqs emotion "happy" || Controller.eqs emotion "joy")%bool
  then COLOR_HAPPY
  else if (Controller.eqs emotion "angry" || Controller.eqs emotion "anger")%bool
  then COLOR_ANGRY
  else if (Controller.eqs emotion "sad" || Controller.eqs emotion "sadness")%bool
  then COLOR_SAD
  else if (Controller.eqs emotion "fear" || Controller.eqs emotion "scared")%bool
  then COLOR_FEAR
  else if Controller.eqs emotion "disgust" then COLOR_DISGUST
  else if (Controller.eqs emotion "surprise" || Controller.eqs emotion "surprised")%bool
  then COLOR_SURPRISE
  else COLOR_HAPPY.

(** One frame of a fade: the brightness set, the strip filled and shown. *)
Definition fade (color : CRGB) (s : Strip) (b : Z) : Strip :=
  show (fill_solid color (setBrightness b s)).

Definition pulseEmotionLEDs (emotion : string) (s : Strip) : Strip :=
  if negb (ledStripOk s) then s
  else
    let s1 := fold_left (fade (pulseColor emotion)) (upTo 20 150 10) s in
    let s2 := fold_left (fade (pulseColor emotion)) (downTo 150 20 10) s1 in
    setEmotionLEDs emotion (setBrightness 80 s2).

(** One flash: the colour shown, then the strip cleared and shown. *)
Definition flash (color : CRGB) (s : Strip) : Strip :=
  show (clear (show (fill_solid color s))).

(** [flashLEDs], with [current_emotion] the global it restores the colour
    of; [duration] is the length of its delays. *)
Definition flashLEDs (color : CRGB) (flashes duration : Z) (current_emotion : string)
  (s : Strip) : Strip :=
  if negb (ledStripOk s) then s
  else setEmotionLEDs current_emotion (Nat.iter (Z.to_nat flashes) (flash color) s).

(** One cycle of [breatheEffect]: the fade in and the fade out. *)
Definition breath (color : CRGB) (s : Strip) : Strip :=
  fold_left (fade color) (downTo 150 0 5) (fold_left (fade color) (upTo 0 150 5) s).

Definition breatheEffect (color : CRGB) (cycles : Z) (current_emotion : string)
  (s : Strip) : Strip :=
  if negb (ledStripOk s) then s
  else
    setEmotionLEDs current_emotion
      (setBrightness 80 (Nat.iter (Z.to_nat cycles) (breath color) s)).

(** The loop of [sparkleEffect]: [clock] gives, test by test, the reading of
    [millis()] in the test of the loop and the LED that [random(LED_COUNT)]
    gives when the body runs; the loop is over at the first reading that
    fails the test, and the test after the last reading of [clock] fails. *)
Fixpoint sparkle (color : CRGB) (startTime duration : Z) (clock : list (Z * Z))
  (s : Strip) : Strip :=
  match clock with
  | [] => s
  | (t, led) :: rest =>
      if ulong_of (t - startTime) <? ulong_of duration then
        sparkle color startTime duration rest
                (show (setLed led Black (show (setLed led color s))))
      else s
  end.

Definition sparkleEffect (color : CRGB) (duration : Z) (current_emotion : string)
  (startTime : Z) (clock : list (Z * Z)) (s : Strip) : Strip :=
  if negb (ledStripOk s) then s
  else setEmotionLEDs current_emotion (sparkle color startTime duration clock s).

(** *** The board: the robot, the strip and the timers of [loop] *)

Record Board : Type := mkBoard {
  robot : Controller.Robot;
  strip : Strip;
  last_wifi_check : Z;
  last_heartbeat : Z
}.

(** [setup]: [now] and [rnd] as in [Controller.setup]; [wifi] tells whether
    the connection came up. *)
Definition setup (now rnd : Z) (wifi : bool) : Board :=
  let s0 := initializeLEDs power_on in
  let s1 :=
    if ledStripOk s0
    then setEmotionLEDs "happy" (flashLEDs Magenta 2 300 "happy" s0) else s0 in
  let s2 :=
    if wifi then
      if ledStripOk s1
      then setEmotionLEDs "happy" (flashLEDs COLOR_HAPPY 3 200 "happy" s1) else s1
    else
      if ledStripOk s1
      then setEmotionLEDs "happy" (flashLEDs COLOR_ANGRY 3 200 "happy" s1) else s1 in
  let s3 := if ledStripOk s2 then setEmotionLEDs "happy" s2 else s2 in
  mkBoard (Controller.setup now rnd) s3 0 0.

(** What an iteration of [loop] reads for the strip: the start and the clock
    of the sparkle, the state of the connection at the WiFi check and after
    the reconnection, the free heap at the heartbeat. *)
Record LedEnv : Type := mkLedEnv {
  t_sparkle : Z;
  sparkles : list (Z * Z);
  wifi_up : bool;
  wifi_back : bool;
  heap : Z
}.

(** The LED calls of the reset block of [processPendingRequests], on the
    robot [r] the block starts from. *)
Definition resetLeds (env : Controller.PendingEnv) (r : Controller.Robot)
  (s : Strip) : Strip :=
  let s1 :=
    if fst (Controller.acknowledgeReset (Controller.t_resetAck env) r) then
      if ledStripOk s
      then flashLEDs Yellow 3 300 (Controller.current_emotion (Controller.emo r)) s
      else s
    else s in
  let r1 := snd (Controller.acknowledgeReset (Controller.t_resetAck env) r) in
  if Controller.resetAcknowledged (Controller.pend r1) then
    if ulong_of (Controller.t_resetElapsed env
                 - Controller.resetStartTime (Controller.pend r1)) >=? 5000
    then setEmotionLEDs "happy" s1 else s1
  else s1.

(** The LED calls of the emotion block, on the robot [r] the block starts
    from; [current_emotion] is the emotion of the request by then. *)
Definition emotionLeds (lenv : LedEnv) (r : Controller.Robot) (s : Strip) : Strip :=
  match fst (Controller.drainEmotion r) with
  | Some emotion =>
      let s1 := setEmotionLEDs emotion s in
      if (Controller.eqs emotion "angry" || Controller.eqs emotion "anger"
          || Controller.eqs emotion "surprise" || Controller.eqs emotion "surprised")%bool
      then
        if (Controller.eqs emotion "angry" || Controller.eqs emotion "anger")%bool
        then flashLEDs COLOR_ANGRY 3 200 emotion s1
        else flashLEDs COLOR_SURPRISE 2 150 emotion s1
      else if (Controller.eqs emotion "happy" || Controller.eqs emotion "joy")%bool
      then sparkleEffect COLOR_HAPPY 1000 emotion (t_sparkle lenv) (sparkles lenv) s1
      else if (Controller.eqs emotion "sad" || Controller.eqs emotion "sadness")%bool
      then breatheEffect COLOR_SAD 2 emotion s1
      else s1
  | None => s
  end.

(** The LED call of the emotion timeout of [loop], on the robot [r] the
    test is made on. *)
Definition timeoutLeds (now : Z) (r : Controller.Robot) (s : Strip) : Strip :=
  if (Controller.emotion_mode_active (Controller.emo r)
      && (ulong_of (now - Controller.emotion_mode_start (Controller.emo r))
          >? Controller.EMOTION_MODE_DURATION))%bool
  then if ledStripOk s then setEmotionLEDs "happy" s else s
  else s.

(** A flash of [loop] that is followed by the colour of the emotion. *)
Definition signal (color : CRGB) (flashes duration : Z) (current_emotion : string)
  (s : Strip) : Strip :=
  if ledStripOk s
  then setEmotionLEDs current_emotion (flashLEDs color flashes duration current_emotion s)
  else s.

(** One iteration of [loop]; [debug_mode] is true. *)
Definition loop (env : Controller.LoopEnv) (lenv : LedEnv) (b : Board) : Board :=
  let penv := Controller.pendingEnv env in
  let now := Controller.now env in
  let s1 := resetLeds penv (robot b) (strip b) in
  let s2 := emotionLeds lenv (Controller.processReset penv (robot b)) s1 in
  let s3 := timeoutLeds now (Controller.beforeTimeout env (robot b)) s2 in
  let r := Controller.loop env (robot b) in
  let current := Controller.current_emotion (Controller.emo r) in
  let check := ulong_of (now - last_wifi_check b) >? WIFI_CHECK_INTERVAL in
  let s4 :=
    if (check && negb (wifi_up lenv))%bool then
      if wifi_back lenv then signal COLOR_HAPPY 2 150 current s3
      else signal COLOR_ANGRY 2 150 current s3
    else s3 in
  let beat := ulong_of (now - last_heartbeat b) >? HEARTBEAT_INTERVAL in
  let s5 :=
    if (beat && (heap lenv <? 50000))%bool then signal Orange 2 100 current s4
    else s4 in
  mkBoard r s5 (if check then now else last_wifi_check b)
          (if beat then now else last_heartbeat b).

(** [emergencyStop]. *)
Definition emergencyStop (b : Board) : Board :=
  let r := robot b in
  let stop (st : Controller.ServoState) :=
    Controller.mkServoState (Controller.currentPos st) (Controller.targetPos st)
                            (Controller.lastMoveTime st) false
                            (Controller.minPos st) (Controller.maxPos st)
                            (Controller.name st) in
  let r1 :=
    Controller.set_rightArmState (stop (Controller.rightArmState r))
      (Controller.set_leftArmState (stop (Controller.leftArmState r))
        (Controller.set_headState (stop (Controller.headState r)) r)) in
  let s1 :=
    if ledStripOk (strip b)
    then flashLEDs COLOR_ANGRY 10 100
                   (Controller.current_emotion (Controller.emo r1)) (strip b)
    else strip b in
  let r2 :=
    Controller.set_rightArmServo 0
      (Controller.set_leftArmServo 180 (Controller.set_headServo 90 r1)) in
  let r3 :=
    Controller.set_emo
      (Controller.mkEmotionVars "happy"
         (Controller.current_sentiment (Controller.emo r2)) false true
         (Controller.emotion_mode_start (Controller.emo r2))) r2 in
  let s2 := if ledStripOk s1 then setEmotionLEDs "happy" s1 else s1 in
  mkBoard r3 s2 (last_wifi_check b) (last_heartbeat b).

(** What happens to the board: a request is answered, or [loop] goes on. *)
Inductive Event : Type :=
| Http (q : Controller.Request)
| Loop (env : Controller.LoopEnv) (lenv : LedEnv).

Definition serve (e : Event) (b : Board) : Board :=
  match e with
  | Http q =>
      mkBoard (snd (Controller.answer q (robot b))) (strip b)
              (last_wifi_check b) (last_heartbeat b)
  | Loop env lenv => loop env lenv b
  end.

Definition run (es : list Event) (b : Board) : Board :=
  fold_left (fun b e => serve e b) es b.

(** The event of the controller in an event of the board. *)
Definition robotEvent (e : Event) : Controller.Event :=
  match e with
  | Http q => Controller.Http q
  | Loop env _ => Controller.Loop env
  end.

(** The strip works at the brightness [b]. *)
Definition working (b : Z) (s : Strip) : Prop :=
  ledStripOk s = true /\ brightness s = b.

(** The strip works, has the brightness [b], holds the colour [color] in every
    LED, and the last frame shown is that. *)
Definition lit (color : CRGB) (b : Z) (s : Strip) : Prop :=
  ledStripOk s = true
  /\ brightness s = b
  /\ leds s = repeat color (Z.to_nat LED_COUNT)
  /\ hd_error (shown s) = Some (b, repeat color (Z.to_nat LED_COUNT)).

(** The strip shows the colour of the current emotion at the brightness 80. *)
Definition showing (b : Board) : Prop :=
  lit (emotionColor (Controller.current_emotion (Controller.emo (robot b)))) 80
      (strip b).

End Leds.

(** ** The controller without the LED strip

    The variant without the LED strip and the blinking has the state of the
    controller less the blinking, resetAcknowledged and resetStartTime (they
    are carried along unused here); its emotion and head blocks are those of
    [Controller], its reset is immediate and comes last. *)

Module Plain.
Import Arduino.
Import Controller.

(** The reset block of [processPendingRequests]. *)
Definition processReset (r : Robot) : Robot :=
  if pendingReset (pend r) then
    let r1 :=
      set_pend (mkPendingVars (pendingEmotion (pend r)) (pendingEmotionValue (pend r))
                              (pendingHead (pend r)) (pendingHeadNumber (pend r))
                              (pendingHeadAngle (pend r))
                              false (resetAcknowledged (pend r))
                              (resetStartTime (pend r))) r in
    poseHLR 90 180 0
      (set_emo (mkEmotionVars "happy" "happy" false true
                              (emotion_mode_start (emo r1))) r1)
  else r.

Definition processPendingRequests (env : PendingEnv) (r : Robot) : Robot :=
  processReset (processHead env (processEmotion env r)).

Definition onResetHandler (r : Robot) : Response * Robot :=
  (mkResponse 200 [("status"%string, JStr "reset_queued")], postReset r).

(** One iteration of [loop]: [now] is read first, [t_servo] by
    [updateServoPositions]. *)
Definition loop (now : Z) (env : PendingEnv) (t_servo : Z) (r : Robot) : Robot :=
  emotionTimeout now (updateServoPositions t_servo (processPendingRequests env r)).

End Plain.

(** ** The simplified sketch (gesture/sketch_aug2a) *)

Module Aug2a.
Import Arduino.

Record SimpleTask : Type := mkSimpleTask {
  has_emotion_task : bool;
  has_head_task : bool;
  emotion_data : string;
  head_angle : Z;
  task_time : Z
}.

Record ServoState : Type := mkServoState {
  currentPos : Z;
  targetPos : Z;
  lastMoveTime : Z;
  moving : bool;
  minPos : Z;
  maxPos : Z
}.

Record Robot : Type := mkRobot {
  current_emotion : string;
  emotion_mode_active : bool;
  head_tracking_enabled : bool;
  server_busy : bool;
  currentTask : SimpleTask;
  headState : ServoState;
  leftArmState : ServoState;
  rightArmState : ServoState
}.

Definition set_current_emotion (v : string) (r : Robot) : Robot :=
  mkRobot v (emotion_mode_active r) (head_tracking_enabled r) (server_busy r)
          (currentTask r) (headState r) (leftArmState r) (rightArmState r).
Definition set_emotion_mode_active (v : bool) (r : Robot) : Robot :=
  mkRobot (current_emotion r) v (head_tracking_enabled r) (server_busy r)
          (currentTask r) (headState r) (leftArmState r) (rightArmState r).
Definition set_head_tracking_enabled (v : bool) (r : Robot) : Robot :=
  mkRobot (current_emotion r) (emotion_mode_active r) v (server_busy r)
          (currentTask r) (headState r) (leftArmState r) (rightArmState r).
Definition set_server_busy (v : bool) (r : Robot) : Robot :=
  mkRobot (current_emotion r) (emotion_mode_active r) (head_tracking_enabled r) v
          (currentTask r) (headState r) (leftArmState r) (rightArmState r).
Definition set_currentTask (v : SimpleTask) (r : Robot) : Robot :=
  mkRobot (current_emotion r) (emotion_mode_active r) (head_tracking_enabled r)
          (server_busy r) v (headState r) (leftArmState r) (rightArmState r).
Definition set_headState (v : ServoState) (r : Robot) : Robot :=
  mkRobot (current_emotion r) (emotion_mode_active r) (head_tracking_enabled r)
          (server_busy r) (currentTask r) v (leftArmState r) (rightArmState r).
Definition set_leftArmState (v : ServoState) (r : Robot) : Robot :=
  mkRobot (current_emotion r) (emotion_mode_active r) (head_tracking_enabled r)
          (server_busy r) (currentTask r) (headState r) v (rightArmState r).
Definition set_rightArmState (v : ServoState) (r : Robot) : Robot :=
  mkRobot (current_emotion r) (emotion_mode_active r) (head_tracking_enabled r)
          (server_busy r) (currentTask r) (headState r) (leftArmState r) v.

(** The initialisers of the globals. *)
Definition initial : Robot :=
  mkRobot "happy" false true false
          (mkSimpleTask false false EmptyString 90 0)
          (mkServoState 90 90 0 false 60 120)
          (mkServoState 180 180 0 false 0 180)
          (mkServoState 0 0 0 false 0 180).

Definition moveServoSafely (state : ServoState) (targetAngle : Z) : ServoState :=
  let safeAngle := constrain targetAngle (minPos state) (maxPos state) in
  if abs (int_of (targetPos state - safeAngle)) >? 3 then
    mkServoState (currentPos state) safeAngle (lastMoveTime state) true
                 (minPos state) (maxPos state)
  else state.

Definition armPose (rt l : Z) (r : Robot) : Robot :=
  set_leftArmState (moveServoSafely (leftArmState r) l)
    (set_rightArmState (moveServoSafely (rightArmState r) rt) r).

Definition updateArmPose (r : Robot) : Robot :=
  if (String.eqb (current_emotion r) "sad"
      || String.eqb (current_emotion r) "fear")%bool then armPose 90 90 r
  else if String.eqb (current_emotion r) "angry" then armPose 150 30 r
  else armPose 0 180 r.

Definition checkEmotionTimeout (now : Z) (r : Robot) : Robot :=
  if (emotion_mode_active r
      && (ulong_of (now - task_time (currentTask r)) >? 8000))%bool then
    let r1 := set_current_emotion "happy"
                (set_head_tracking_enabled true
                  (set_emotion_mode_active false r)) in
    let r2 := updateArmPose r1 in
    set_headState (moveServoSafely (headState r2) 90) r2
  else r.

(** The emotion task of [processSimpleTasks]. *)
Definition processEmotionTask (currentTime : Z) (r : Robot) : Robot :=
  if has_emotion_task (currentTask r) then
    let ra := set_current_emotion (emotion_data (currentTask r)) r in
    let rb := set_head_tracking_enabled false (set_emotion_mode_active true ra) in
    let rc := set_currentTask
                (mkSimpleTask (has_emotion_task (currentTask rb))
                              (has_head_task (currentTask rb))
                              (emotion_data (currentTask rb))
                              (head_angle (currentTask rb)) currentTime) rb in
    let rd := updateArmPose rc in
    let re := set_headState (moveServoSafely (headState rd) 75) rd in
    set_currentTask
      (mkSimpleTask false (has_head_task (currentTask re))
                    (emotion_data (currentTask re))
                    (head_angle (currentTask re)) (task_time (currentTask re))) re
  else r.

(** The head task of [processSimpleTasks] (only if not in emotion mode). *)
Definition processHeadTask (r : Robot) : Robot :=
  if (has_head_task (currentTask r) && negb (emotion_mode_active r))%bool then
    let safeAngle := constrain (head_angle (currentTask r)) 70 110 in
    let ra := set_headState (moveServoSafely (headState r) safeAngle) r in
    set_currentTask
      (mkSimpleTask (has_emotion_task (currentTask ra)) false
                    (emotion_data (currentTask ra))
                    (head_angle (currentTask ra)) (task_time (currentTask ra))) ra
  else r.

Definition processSimpleTasks (currentTime : Z) (r : Robot) : Robot :=
  processHeadTask (processEmotionTask currentTime r).

(** [None] stands for a body that [deserializeJson] rejects. *)
Definition handleReceiveRequest (data : option JsonDocument) (r : Robot)
  : Response * Robot :=
  if server_busy r then (mkResponse 503 [("error"%string, JStr "busy")], r)
  else
    match data with
    | None => (mkResponse 400 [("error"%string, JStr "json")], set_server_busy false r)
    | Some doc =>
        if containsKey doc "sentiment" then
          let sentiment := as_String doc "sentiment" in
          (mkResponse 200 [("status"%string, JStr "ok")],
           set_server_busy false
             (set_currentTask
                (mkSimpleTask true (has_head_task (currentTask r)) sentiment
                              (head_angle (currentTask r)) (task_time (currentTask r)))
                r))
        else (mkResponse 400 [("error"%string, JStr "missing")],
              set_server_busy false r)
    end.

Definition queueHead (angle : Z) (r : Robot) : Robot :=
  set_currentTask
    (mkSimpleTask (has_emotion_task (currentTask r)) true
                  (emotion_data (currentTask r)) angle (task_time (currentTask r))) r.

Definition handleHeadRequest (data : option JsonDocument) (r : Robot)
  : Response * Robot :=
  if (server_busy r || emotion_mode_active r)%bool then
    (mkResponse 503 [("status"%string, JStr "blocked")], r)
  else
    match data with
    | None => (mkResponse 400 [("error"%string, JStr "json")], set_server_busy false r)
    | Some doc =>
        if containsKey doc "angle" then
          let angle := as_int doc "angle" in
          (mkResponse 200 [("status"%string, JStr "ok")],
           set_server_busy false (queueHead angle r))
        else if containsKey doc "number" then
          let people := as_int doc "number" in
          let angle :=
            int_of (90 + (if people >? 1 then int_of (int_of (people - 1) * 5) else 0)) in
          (mkResponse 200 [("status"%string, JStr "ok")],
           set_server_busy false (queueHead angle r))
        else (mkResponse 400 [("error"%string, JStr "missing")],
              set_server_busy false r)
    end.

Definition handleStatusRequest (heap : Z) (r : Robot) : Response :=
  mkResponse 200 [("emotion"%string, JStr (current_emotion r));
                  ("head"%string, JInt (currentPos (headState r)));
                  ("heap"%string, JInt heap)].

(** The body of an emotion request. *)
Definition sentimentBody (sentiment : string) : JsonDocument :=
  [("sentiment"%string, mkMember 0 sentiment)].

(** The three axes have the limits they were created with, and their targets
    are within them. *)
Definition targets_ok (r : Robot) : Prop :=
  (minPos (headState r) = 60 /\ maxPos (headState r) = 120
   /\ 60 <= targetPos (headState r) <= 120)
  /\ (minPos (leftArmState r) = 0 /\ maxPos (leftArmState r) = 180
      /\ 0 <= targetPos (leftArmState r) <= 180)
  /\ (minPos (rightArmState r) = 0 /\ maxPos (rightArmState r) = 180
      /\ 0 <= targetPos (rightArmState r) <= 180).

(** *** The rest of the sketch *)

Definition SERVO_STEP_SIZE : Z := 2.
Definition SERVO_MOVE_DELAY : Z := 50.
Definition blinkInterval : Z := 3000.
Definition blinkDuration : Z := 200.

Definition handleResetRequest (r : Robot) : Response * Robot :=
  let r1 := set_head_tracking_enabled true
              (set_emotion_mode_active false (set_current_emotion "happy" r)) in
  let r2 := updateArmPose r1 in
  (mkResponse 200 [("status"%string, JStr "reset")],
   set_headState (moveServoSafely (headState r2) 90) r2).

(** The globals of [Robot] with the angles last written to the servos and the
    blinking of [loop] (its static [lastBlink]). *)
Record Sketch : Type := mkSketch {
  robot : Robot;
  headServo : Z;
  leftArmServo : Z;
  rightArmServo : Z;
  isBlinking : bool;
  lastBlink : Z
}.

(** The state when [setup] returns. *)
Definition setup : Sketch := mkSketch initial 90 180 0 false 0.

Definition with_robot (f : Robot -> Robot) (k : Sketch) : Sketch :=
  mkSketch (f (robot k)) (headServo k) (leftArmServo k) (rightArmServo k)
           (isBlinking k) (lastBlink k).

(** The position a block of [updateServoPositions] moves an axis to. *)
Definition stepTo (s : ServoState) : Z :=
  if currentPos s <? targetPos s then
    min (int_of (currentPos s + SERVO_STEP_SIZE)) (targetPos s)
  else if currentPos s >? targetPos s then
    max (int_of (currentPos s - SERVO_STEP_SIZE)) (targetPos s)
  else currentPos s.

(** The head block of [updateServoPositions]. *)
Definition updateHeadServo (currentTime : Z) (k : Sketch) : Sketch :=
  if (moving (headState (robot k))
      && (ulong_of (currentTime - lastMoveTime (headState (robot k)))
          >=? SERVO_MOVE_DELAY))%bool
  then
    let pos := stepTo (headState (robot k)) in
    mkSketch
      (set_headState
         (mkServoState pos (targetPos (headState (robot k))) currentTime
                       (if pos =? targetPos (headState (robot k)) then false
                        else moving (headState (robot k)))
                       (minPos (headState (robot k))) (maxPos (headState (robot k))))
         (robot k))
      (if ((pos >=? minPos (headState (robot k)))
           && (pos <=? maxPos (headState (robot k))))%bool
       then pos else headServo k)
      (leftArmServo k) (rightArmServo k) (isBlinking k) (lastBlink k)
  else k.

(** The left arm block. *)
Definition updateLeftArmServo (currentTime : Z) (k : Sketch) : Sketch :=
  if (moving (leftArmState (robot k))
      && (ulong_of (currentTime - lastMoveTime (leftArmState (robot k)))
          >=? SERVO_MOVE_DELAY))%bool
  then
    let pos := stepTo (leftArmState (robot k)) in
    mkSketch
      (set_leftArmState
         (mkServoState pos (targetPos (leftArmState (robot k))) currentTime
                       (if pos =? targetPos (leftArmState (robot k)) then false
                        else moving (leftArmState (robot k)))
                       (minPos (leftArmState (robot k)))
                       (maxPos (leftArmState (robot k))))
         (robot k))
      (headServo k)
      (if ((pos >=? minPos (leftArmState (robot k)))
           && (pos <=? maxPos (leftArmState (robot k))))%bool
       then pos else leftArmServo k)
      (rightArmServo k) (isBlinking k) (lastBlink k)
  else k.

(** The right arm block. *)
Definition updateRightArmServo (currentTime : Z) (k : Sketch) : Sketch :=
  if (moving (rightArmState (robot k))
      && (ulong_of (currentTime - lastMoveTime (rightArmState (robot k)))
          >=? SERVO_MOVE_DELAY))%bool
  then
    let pos := stepTo (rightArmState (robot k)) in
    mkSketch
      (set_rightArmState
         (mkServoState pos (targetPos (rightArmState (robot k))) currentTime
                       (if pos =? targetPos (rightArmState (robot k)) then false
                        else moving (rightArmState (robot k)))
                       (minPos (rightArmState (robot k)))
                       (maxPos (rightArmState (robot k))))
         (robot k))
      (headServo k) (leftArmServo k)
      (if ((pos >=? minPos (rightArmState (robot k)))
           && (pos <=? maxPos (rightArmState (robot k))))%bool
       then pos else rightArmServo k)
      (isBlinking k) (lastBlink k)
  else k.

Definition updateServoPositions (currentTime : Z) (k : Sketch) : Sketch :=
  updateRightArmServo currentTime
    (updateLeftArmServo currentTime (updateHeadServo currentTime k)).

(** The blinking of [loop]: both tests are made, one after the other. *)
Definition blinkStep (currentTime : Z) (k : Sketch) : Sketch :=
  let k1 :=
    if (negb (isBlinking k)
        && (ulong_of (currentTime - lastBlink k) >? blinkInterval))%bool
    then mkSketch (robot k) (headServo k) (leftArmServo k) (rightArmServo k)
                  true currentTime
    else k in
  if (isBlinking k1 && (ulong_of (currentTime - lastBlink k1) >? blinkDuration))%bool
  then mkSketch (robot k1) (headServo k1) (leftArmServo k1) (rightArmServo k1)
                false (lastBlink k1)
  else k1.

(** What one iteration of [loop] reads of the clock: at its top, in
    [processSimpleTasks], in [updateServoPositions] and in
    [checkEmotionTimeout]. *)
Record LoopClock : Type := mkLoopClock {
  currentTime : Z;
  t_tasks : Z;
  t_servo : Z;
  t_timeout : Z
}.

Definition loop (c : LoopClock) (k : Sketch) : Sketch :=
  blinkStep (currentTime c)
    (with_robot (checkEmotionTimeout (t_timeout c))
       (updateServoPositions (t_servo c)
          (with_robot (processSimpleTasks (t_tasks c)) k))).

Inductive Event : Type :=
| Receive (data : option JsonDocument)
| Head (data : option JsonDocument)
| Reset
| Loop (c : LoopClock).

Definition serve (e : Event) (k : Sketch) : Sketch :=
  match e with
  | Receive data => with_robot (fun r => snd (handleReceiveRequest data r)) k
  | Head data => with_robot (fun r => snd (handleHeadRequest data r)) k
  | Reset => with_robot (fun r => snd (handleResetRequest r)) k
  | Loop c => loop c k
  end.

Definition run (es : list Event) (k : Sketch) : Sketch :=
  fold_left (fun k e => serve e k) es k.

(** An axis with the limits [lo] and [hi], and within them. *)
Definition axis_in (lo hi : Z) (s : ServoState) : Prop :=
  minPos s = lo /\ maxPos s = hi
  /\ lo <= currentPos s <= hi /\ lo <= targetPos s <= hi.

(** What holds along every run of the sketch: the limits are those the axes
    were created with, positions and targets are within them, the angles
    written are the positions, the server is not busy between requests, and
    head tracking is enabled exactly when emotion mode is off. *)
Definition sketch_ok (k : Sketch) : Prop :=
  axis_in 60 120 (headState (robot k))
  /\ axis_in 0 180 (leftArmState (robot k))
  /\ axis_in 0 180 (rightArmState (robot k))
  /\ headServo k = currentPos (headState (robot k))
  /\ leftArmServo k = currentPos (leftArmState (robot k))
  /\ rightArmServo k = currentPos (rightArmState (robot k))
  /\ server_busy (robot k) = false
  /\ head_tracking_enabled (robot k) = negb (emotion_mode_active (robot k)).

(** The part of [sketch_ok] on the globals of [Robot]. *)
Definition robot_ok (r : Robot) : Prop :=
  axis_in 60 120 (headState r)
  /\ axis_in 0 180 (leftArmState r)
  /\ axis_in 0 180 (rightArmState r)
  /\ server_busy r = false
  /\ head_tracking_enabled r = negb (emotion_mode_active r).

(** The positions of the three axes are the same in [r'] as in [r]. *)
Definition same_pos (r r' : Robot) : Prop :=
  currentPos (headState r') = currentPos (headState r)
  /\ currentPos (leftArmState r') = currentPos (leftArmState r)
  /\ currentPos (rightArmState r') = currentPos (rightArmState r).

(** The body of a head request with an angle, and one with a person count. *)
Definition angleBody (angle : Z) : JsonDocument :=
  [("angle"%string, mkMember angle EmptyString)].

Definition numberBody (number : Z) : JsonDocument :=
  [("number"%string, mkMember number EmptyString)].

End Aug2a.

(** ** The head tracking sketch (gesture/sketch_jul22a) *)

Module Jul22a.
Import Arduino.

Definition DATA_TIMEOUT : Z := 5000.
Definition DETECTION_DEBOUNCE : Z := 1000.

(** The globals; [myServo] holds the angle last written to the servo. *)
Record Robot : Type := mkRobot {
  person_detected : bool;
  lastMoveTime : Z;
  lastHeadDataReceived : Z;
  sweepingRight : bool;
  angle : Z;
  people_count : Z;
  current_emotion : string;
  current_sentiment : string;
  lastEmotionDataReceived : Z;
  stable_person_detected : bool;
  detection_change_time : Z;
  myServo : Z
}.

(** The state when [setup] returns at the reading [now] of the clock. *)
Definition setup (now : Z) : Robot :=
  mkRobot false 0 now true 90 0 "neutral" "neutral" 0 false 0 90.

(** The head tracking data of [handleHeadTracking]: [t_received] and
    [t_change] are its two readings of the clock. *)
Definition headData (number t_received t_change : Z) (r : Robot) : Robot :=
  let new_detection := number >? 0 in
  if negb (Bool.eqb new_detection (person_detected r)) then
    mkRobot new_detection (lastMoveTime r) t_received (sweepingRight r) (angle r)
            number (current_emotion r) (current_sentiment r)
            (lastEmotionDataReceived r) (stable_person_detected r) t_change (myServo r)
  else
    mkRobot (person_detected r) (lastMoveTime r) t_received (sweepingRight r) (angle r)
            number (current_emotion r) (current_sentiment r)
            (lastEmotionDataReceived r) (stable_person_detected r)
            (detection_change_time r) (myServo r).

Definition emotionData (emotion sentiment : string) (t_received : Z) (r : Robot)
  : Robot :=
  mkRobot (person_detected r) (lastMoveTime r) (lastHeadDataReceived r)
          (sweepingRight r) (angle r) (people_count r) emotion sentiment t_received
          (stable_person_detected r) (detection_change_time r) (myServo r).

(** [handleHeadTracking]: [post] tells whether the method is POST, [data] is
    the parsed body ([None] when it does not parse). *)
Definition handleHeadTracking
  (post : bool) (data : option JsonDocument) (t_received t_change : Z) (r : Robot)
  : Response * Robot :=
  if post then
    match data with
    | Some doc =>
        if containsKey doc "number" then
          (mkResponse 200 [("status"%string, JStr "head_data_received")],
           headData (as_int doc "number") t_received t_change r)
        else if (containsKey doc "emotion" && containsKey doc "sentiment")%bool then
          (mkResponse 200 [("status"%string, JStr "emotion_data_received")],
           emotionData (as_String doc "emotion") (as_String doc "sentiment")
                       t_received r)
        else (mkResponse 400 [("status"%string, JStr "unknown_format")], r)
    | None => (mkResponse 400 [("status"%string, JStr "bad_json")], r)
    end
  else (mkResponse 405 [("status"%string, JStr "method_not_allowed")], r).

(** A step of the sweep by [step] degrees, turned around at 0 and at 180. *)
Definition sweepStep (step : Z) (now : Z) (r : Robot) : Robot :=
  let a := int_of (angle r + (if sweepingRight r then step else - step)) in
  let a' := if a >=? 180 then 180 else if a <=? 0 then 0 else a in
  let right := if a >=? 180 then false
               else if a <=? 0 then true else sweepingRight r in
  mkRobot (person_detected r) now (lastHeadDataReceived r) right a'
          (people_count r) (current_emotion r) (current_sentiment r)
          (lastEmotionDataReceived r) (stable_person_detected r)
          (detection_change_time r) a'.

(** [loop] after [server.handleClient()], with [now] its reading of the
    clock. *)
Definition loop (now : Z) (r : Robot) : Robot :=
  let head_data_fresh := ulong_of (now - lastHeadDataReceived r) <? DATA_TIMEOUT in
  let r1 :=
    if ulong_of (now - detection_change_time r) >? DETECTION_DEBOUNCE then
      mkRobot (person_detected r) (lastMoveTime r) (lastHeadDataReceived r)
              (sweepingRight r) (angle r) (people_count r) (current_emotion r)
              (current_sentiment r) (lastEmotionDataReceived r) (person_detected r)
              (detection_change_time r) (myServo r)
    else r in
  if negb head_data_fresh then
    if ulong_of (now - lastMoveTime r1) >? 100 then sweepStep 2 now r1 else r1
  else if negb (stable_person_detected r1) then
    if ulong_of (now - lastMoveTime r1) >? 50 then sweepStep 3 now r1 else r1
  else
    if abs (int_of (angle r1 - 90)) >? 5 then
      if ulong_of (now - lastMoveTime r1) >? 30 then
        let a := if angle r1 >? 90 then int_of (angle r1 - 2)
                 else int_of (angle r1 + 2) in
        mkRobot (person_detected r1) now (lastHeadDataReceived r1) (sweepingRight r1) a
                (people_count r1) (current_emotion r1) (current_sentiment r1)
                (lastEmotionDataReceived r1) (stable_person_detected r1)
                (detection_change_time r1) a
      else r1
    else r1.

(** What happens to the sketch: a request is handled, or [loop] goes on. *)
Inductive Event : Type :=
| Request (post : bool) (data : option JsonDocument) (t_received t_change : Z)
| Loop (now : Z).

Definition serve (e : Event) (r : Robot) : Robot :=
  match e with
  | Request post data t1 t2 => snd (handleHeadTracking post data t1 t2 r)
  | Loop now => loop now r
  end.

Definition run (es : list Event) (r : Robot) : Robot :=
  fold_left (fun r e => serve e r) es r.

(** The servo is between 0 and 180 degrees, where the sketch has it. *)
Definition servo_ok (r : Robot) : Prop :=
  0 <= angle r <= 180 /\ myServo r = angle r.

(** The distance of the servo from the centre. *)
Definition off_centre (r : Robot) : Z := Z.abs (angle r - 90).

(** The iteration at [now] finds fresh head data and a person whose detection
    is stable. *)
Definition person_in_view (now : Z) (r : Robot) : Prop :=
  (ulong_of (now - lastHeadDataReceived r) <? DATA_TIMEOUT) = true
  /\ (if ulong_of (now - detection_change_time r) >? DETECTION_DEBOUNCE
      then person_detected r else stable_person_detected r) = true.

(** The body of a request with head tracking data. *)
Definition numberBody (number : Z) : JsonDocument :=
  [("number"%string, mkMember number EmptyString)].

(** The sweep goes three steps to the right, then a person is reported at
    400 ms. *)
Definition personArrives : list Event :=
  [Loop 100; Loop 200; Loop 300; Request true (Some (numberBody 1)) 400 400].

End Jul22a.

(** * Properties *)

(** ** Arithmetic *)

Lemma int_of_small (z : Z) :
  Arduino.INT_MIN <= z <= Arduino.INT_MAX -> Arduino.int_of z = z.
Proof.
  unfold Arduino.int_of, Arduino.INT_MIN, Arduino.INT_MAX. intros H.
  rewrite Z.mod_small; lia.
Qed.

Lemma constrain_within (a lo hi : Z) :
  lo <= hi -> lo <= Arduino.constrain a lo hi <= hi.
Proof.
  intros H. unfold Arduino.constrain.
  destruct (a <? lo) eqn:E1; [lia|].
  destruct (a >? hi) eqn:E2; lia.
Qed.

Lemma constrain_id (a lo hi : Z) :
  lo <= a <= hi -> Arduino.constrain a lo hi = a.
Proof.
  intros H. unfold Arduino.constrain.
  destruct (a <? lo) eqn:E1; [lia|].
  destruct (a >? hi) eqn:E2; lia.
Qed.

(** ** The servo axes *)

Section ServoAxis.
Import Controller.

Lemma moveServoSafely_frame (s : ServoState) (a : Z) :
  currentPos (moveServoSafely s a) = currentPos s
  /\ minPos (moveServoSafely s a) = minPos s
  /\ maxPos (moveServoSafely s a) = maxPos s
  /\ lastMoveTime (moveServoSafely s a) = lastMoveTime s
  /\ name (moveServoSafely s a) = name s.
Proof.
  unfold moveServoSafely.
  destruct (Arduino.abs _ >? 2); simpl; repeat split; reflexivity.
Qed.

Lemma moveServoSafely_target (s : ServoState) (a : Z) :
  targetPos (moveServoSafely s a) = targetPos s
  \/ targetPos (moveServoSafely s a) = Arduino.constrain a (minPos s) (maxPos s).
Proof.
  unfold moveServoSafely.
  destruct (Arduino.abs _ >? 2); simpl; [right | left]; reflexivity.
Qed.

Lemma moveServoSafely_ok (s : ServoState) (a : Z) :
  axis_ok s -> axis_ok (moveServoSafely s a).
Proof.
  intros [Hl [Hc Ht]].
  destruct (moveServoSafely_frame s a) as (Ec & Emin & Emax & _ & _).
  unfold axis_ok, limits_ok, within. rewrite Ec, Emin, Emax.
  repeat split; try apply Hl; try apply Hc.
  all: destruct (moveServoSafely_target s a) as [E | E]; rewrite E;
    try apply Ht; apply constrain_within; lia.
Qed.

(** The position a due tick moves to lies between the position and the
    target, and is nearer to the target by the step size, or on it. *)
Lemma stepAxis_due (now : Z) (s : ServoState) :
  axis_ok s -> moving s = true -> due now s = true ->
  stepAxis now s =
    mkServoState
      (if currentPos s <? targetPos s
       then Z.min (currentPos s + SERVO_STEP_SIZE) (targetPos s)
       else Z.max (currentPos s - SERVO_STEP_SIZE) (targetPos s))
      (targetPos s) now
      (negb (Z.abs (targetPos s - currentPos s) <=? SERVO_STEP_SIZE))
      (minPos s) (maxPos s) (name s).
Proof.
  intros [[Hlo Hhi] [Hc Ht]] Hm Hd. unfold stepAxis. unfold due in Hd.
  rewrite Hm, Hd. simpl andb. cbv iota.
  unfold SERVO_STEP_SIZE, Arduino.INT_MIN, Arduino.INT_MAX in *.
  destruct (currentPos s <? targetPos s) eqn:E1.
  - apply Z.ltb_lt in E1.
    rewrite int_of_small by (unfold Arduino.INT_MIN, Arduino.INT_MAX; lia).
    unfold Arduino.min.
    destruct (currentPos s + 2 <? targetPos s) eqn:E2.
    + apply Z.ltb_lt in E2. f_equal; try lia.
      destruct (currentPos s + 2 =? targetPos s) eqn:E3; [lia|].
      symmetry. apply negb_true_iff. apply Z.leb_gt. lia.
    + apply Z.ltb_ge in E2. f_equal; try lia.
      rewrite Z.eqb_refl. symmetry. apply negb_false_iff. apply Z.leb_le. lia.
  - apply Z.ltb_ge in E1.
    destruct (currentPos s >? targetPos s) eqn:E4.
    + apply Z.gtb_lt in E4.
      rewrite int_of_small by (unfold Arduino.INT_MIN, Arduino.INT_MAX; lia).
      unfold Arduino.max.
      destruct (currentPos s - 2 >? targetPos s) eqn:E2.
      * apply Z.gtb_lt in E2. f_equal; try lia.
        destruct (currentPos s - 2 =? targetPos s) eqn:E3; [lia|].
        symmetry. apply negb_true_iff. apply Z.leb_gt. lia.
      * assert (currentPos s - 2 <= targetPos s).
        { destruct (Z.gtb_spec (currentPos s - 2) (targetPos s)); [discriminate | lia]. }
        f_equal; try lia.
        rewrite Z.eqb_refl. symmetry. apply negb_false_iff. apply Z.leb_le. lia.
    + assert (currentPos s = targetPos s).
      { destruct (Z.gtb_spec (currentPos s) (targetPos s)); [discriminate | lia]. }
      f_equal; try lia.
      rewrite H, Z.eqb_refl. symmetry. apply negb_false_iff. apply Z.leb_le. lia.
Qed.

Lemma stepAxis_idle (now : Z) (s : ServoState) :
  (moving s && due now s)%bool = false -> stepAxis now s = s.
Proof.
  unfold stepAxis, due. intros H. rewrite H. reflexivity.
Qed.

Lemma stepAxis_frame (now : Z) (s : ServoState) :
  targetPos (stepAxis now s) = targetPos s
  /\ minPos (stepAxis now s) = minPos s
  /\ maxPos (stepAxis now s) = maxPos s
  /\ name (stepAxis now s) = name s.
Proof.
  unfold stepAxis.
  destruct (moving s && _)%bool; simpl; repeat split; reflexivity.
Qed.

Lemma stepAxis_ok (now : Z) (s : ServoState) :
  axis_ok s -> axis_ok (stepAxis now s).
Proof.
  intros Hok.
  destruct (moving s && due now s)%bool eqn:G.
  - apply andb_true_iff in G. destruct G as [Hm Hd].
    rewrite (stepAxis_due now s Hok Hm Hd).
    destruct Hok as [[Hlo Hhi] [Hc Ht]].
    unfold axis_ok, limits_ok, within, SERVO_STEP_SIZE. simpl.
    destruct (currentPos s <? targetPos s) eqn:E;
      [apply Z.ltb_lt in E | apply Z.ltb_ge in E]; lia.
  - rewrite stepAxis_idle; assumption.
Qed.

End ServoAxis.

(** ** The servo blocks of the controller *)

Section ServoBlocks.
Import Controller.

Lemma axis_in_ok (lo hi : Z) (s : ServoState) :
  Arduino.INT_MIN < lo -> hi < Arduino.INT_MAX -> axis_in lo hi s -> axis_ok s.
Proof.
  intros Hlo Hhi (Emin & Emax & Hw). split; [|exact Hw].
  unfold limits_ok. rewrite Emin, Emax. split; assumption.
Qed.

Lemma moveServoSafely_in (lo hi : Z) (s : ServoState) (a : Z) :
  Arduino.INT_MIN < lo -> hi < Arduino.INT_MAX ->
  axis_in lo hi s -> axis_in lo hi (moveServoSafely s a).
Proof.
  intros Hlo Hhi H.
  pose proof (moveServoSafely_ok s a (axis_in_ok lo hi s Hlo Hhi H)) as [_ Hw].
  destruct H as (Emin & Emax & _).
  destruct (moveServoSafely_frame s a) as (_ & E1 & E2 & _).
  unfold axis_in. rewrite E1, E2. repeat split; try assumption; apply Hw.
Qed.

Lemma stepAxis_in (lo hi : Z) (now : Z) (s : ServoState) :
  Arduino.INT_MIN < lo -> hi < Arduino.INT_MAX ->
  axis_in lo hi s -> axis_in lo hi (stepAxis now s).
Proof.
  intros Hlo Hhi H.
  pose proof (stepAxis_ok now s (axis_in_ok lo hi s Hlo Hhi H)) as [_ Hw].
  destruct H as (Emin & Emax & _).
  destruct (stepAxis_frame now s) as (_ & E1 & E2 & _).
  unfold axis_in. rewrite E1, E2. repeat split; try assumption; apply Hw.
Qed.

Lemma updateHeadServo_eq (now : Z) (r : Robot) :
  updateHeadServo now r =
  set_headState (stepAxis now (headState r))
    (set_headServo (writeAxis now (headState r) (headServo r)) r).
Proof.
  unfold updateHeadServo, writeAxis, stepAxis. destruct r as [e p b t h l rt hs ls rs].
  cbn [headState headServo].
  destruct (moving h && _)%bool; cbn [currentPos minPos maxPos].
  - match goal with |- context [(?a >=? ?b) && (?c <=? ?d)] =>
      destruct ((a >=? b) && (c <=? d))%bool end; reflexivity.
  - destruct h; reflexivity.
Qed.

Lemma updateLeftArmServo_eq (now : Z) (r : Robot) :
  updateLeftArmServo now r =
  set_leftArmState (stepAxis now (leftArmState r))
    (set_leftArmServo (writeAxis now (leftArmState r) (leftArmServo r)) r).
Proof.
  unfold updateLeftArmServo, writeAxis, stepAxis.
  destruct r as [e p b t h l rt hs ls rs].
  cbn [leftArmState leftArmServo].
  destruct (moving l && _)%bool; cbn [currentPos minPos maxPos].
  - match goal with |- context [(?a >=? ?b) && (?c <=? ?d)] =>
      destruct ((a >=? b) && (c <=? d))%bool end; reflexivity.
  - destruct l; reflexivity.
Qed.

Lemma updateRightArmServo_eq (now : Z) (r : Robot) :
  updateRightArmServo now r =
  set_rightArmState (stepAxis now (rightArmState r))
    (set_rightArmServo (writeAxis now (rightArmState r) (rightArmServo r)) r).
Proof.
  unfold updateRightArmServo, writeAxis, stepAxis.
  destruct r as [e p b t h l rt hs ls rs].
  cbn [rightArmState rightArmServo].
  destruct (moving rt && _)%bool; cbn [currentPos minPos maxPos].
  - match goal with |- context [(?a >=? ?b) && (?c <=? ?d)] =>
      destruct ((a >=? b) && (c <=? d))%bool end; reflexivity.
  - destruct rt; reflexivity.
Qed.

(** [updateServoPositions] is the three axes stepped side by side. *)
Lemma updateServoPositions_eq (now : Z) (r : Robot) :
  updateServoPositions now r =
  mkRobot (emo r) (pend r) (blinkv r) (track r)
          (stepAxis now (headState r))
          (stepAxis now (leftArmState r))
          (stepAxis now (rightArmState r))
          (writeAxis now (headState r) (headServo r))
          (writeAxis now (leftArmState r) (leftArmServo r))
          (writeAxis now (rightArmState r) (rightArmServo r)).
Proof.
  unfold updateServoPositions.
  rewrite updateRightArmServo_eq, updateLeftArmServo_eq, updateHeadServo_eq.
  reflexivity.
Qed.

End ServoBlocks.

(** ** The axes stay within their limits *)

Section PosesOk.
Import Controller.

Lemma int_limits_head : Arduino.INT_MIN < 45 /\ 135 < Arduino.INT_MAX.
Proof. unfold Arduino.INT_MIN, Arduino.INT_MAX. lia. Qed.

Lemma int_limits_arm : Arduino.INT_MIN < 0 /\ 180 < Arduino.INT_MAX.
Proof. unfold Arduino.INT_MIN, Arduino.INT_MAX. lia. Qed.

Lemma move_head_in (s : ServoState) (a : Z) :
  axis_in 45 135 s -> axis_in 45 135 (moveServoSafely s a).
Proof. apply moveServoSafely_in; apply int_limits_head. Qed.

Lemma move_arm_in (s : ServoState) (a : Z) :
  axis_in 0 180 s -> axis_in 0 180 (moveServoSafely s a).
Proof. apply moveServoSafely_in; apply int_limits_arm. Qed.

Lemma step_head_in (now : Z) (s : ServoState) :
  axis_in 45 135 s -> axis_in 45 135 (stepAxis now s).
Proof. apply stepAxis_in; apply int_limits_head. Qed.

Lemma step_arm_in (now : Z) (s : ServoState) :
  axis_in 0 180 s -> axis_in 0 180 (stepAxis now s).
Proof. apply stepAxis_in; apply int_limits_arm. Qed.

Lemma poses_ok_same (r r' : Robot) :
  headState r' = headState r -> leftArmState r' = leftArmState r ->
  rightArmState r' = rightArmState r -> poses_ok r -> poses_ok r'.
Proof. unfold poses_ok. intros -> -> ->. trivial. Qed.

Lemma poses_ok_head (r : Robot) (a : Z) :
  poses_ok r -> poses_ok (set_headState (moveServoSafely (headState r) a) r).
Proof.
  intros (H & L & R). repeat split; try apply L; try apply R;
    apply move_head_in; exact H.
Qed.

Lemma poses_ok_leftArm (r : Robot) (a : Z) :
  poses_ok r -> poses_ok (set_leftArmState (moveServoSafely (leftArmState r) a) r).
Proof.
  intros (H & L & R). repeat split; try apply H; try apply R;
    apply move_arm_in; exact L.
Qed.

Lemma poses_ok_rightArm (r : Robot) (a : Z) :
  poses_ok r -> poses_ok (set_rightArmState (moveServoSafely (rightArmState r) a) r).
Proof.
  intros (H & L & R). repeat split; try apply H; try apply L;
    apply move_arm_in; exact R.
Qed.

Lemma poses_ok_poseLRH (l rt h : Z) (r : Robot) :
  poses_ok r -> poses_ok (poseLRH l rt h r).
Proof.
  intros (H & L & R). unfold poseLRH.
  split; [| split]; cbn [headState leftArmState rightArmState set_headState
                          set_leftArmState set_rightArmState].
  - apply move_head_in; exact H.
  - apply move_arm_in; exact L.
  - apply move_arm_in; exact R.
Qed.

Lemma poses_ok_poseHLR (h l rt : Z) (r : Robot) :
  poses_ok r -> poses_ok (poseHLR h l rt r).
Proof.
  intros (H & L & R). unfold poseHLR.
  split; [| split]; cbn [headState leftArmState rightArmState set_headState
                          set_leftArmState set_rightArmState].
  - apply move_head_in; exact H.
  - apply move_arm_in; exact L.
  - apply move_arm_in; exact R.
Qed.

Lemma poses_ok_updateServoPositions (now : Z) (r : Robot) :
  poses_ok r -> poses_ok (updateServoPositions now r).
Proof.
  intros (H & L & R). rewrite updateServoPositions_eq.
  split; [| split]; cbn [headState leftArmState rightArmState].
  - apply step_head_in; exact H.
  - apply step_arm_in; exact L.
  - apply step_arm_in; exact R.
Qed.

Lemma poses_ok_processReset (env : PendingEnv) (r : Robot) :
  poses_ok r -> poses_ok (processReset env r).
Proof.
  intros H. unfold processReset, acknowledgeReset.
  assert (H1 : poses_ok (snd (if (pendingReset (pend r)
                                  && negb (resetAcknowledged (pend r)))%bool
                              then (true, set_pend (mkPendingVars
                                     (pendingEmotion (pend r)) (pendingEmotionValue (pend r))
                                     (pendingHead (pend r)) (pendingHeadNumber (pend r))
                                     (pendingHeadAngle (pend r)) false true (t_resetAck env)) r)
                              else (false, r)))).
  { destruct (pendingReset (pend r) && _)%bool; exact H. }
  revert H1. generalize (snd (if (pendingReset (pend r)
                                  && negb (resetAcknowledged (pend r)))%bool
                              then (true, set_pend (mkPendingVars
                                     (pendingEmotion (pend r)) (pendingEmotionValue (pend r))
                                     (pendingHead (pend r)) (pendingHeadNumber (pend r))
                                     (pendingHeadAngle (pend r)) false true (t_resetAck env)) r)
                              else (false, r))).
  intros r1 H1.
  destruct (resetAcknowledged (pend r1)); [| exact H1].
  destruct (_ >=? 5000); [| exact H1].
  unfold executeReset.
  eapply poses_ok_same; [reflexivity .. |].
  apply poses_ok_poseHLR. exact H1.
Qed.

Lemma poses_ok_processEmotion (env : PendingEnv) (r : Robot) :
  poses_ok r -> poses_ok (processEmotion env r).
Proof.
  intros H. unfold processEmotion, drainEmotion.
  destruct (pendingEmotion (pend r)); [| exact H].
  unfold applyEmotion, emotionPose.
  repeat match goal with
         | |- context [if ?c then _ else _] => destruct c
         end; apply poses_ok_poseLRH; exact H.
Qed.

Lemma poses_ok_processHead (env : PendingEnv) (r : Robot) :
  poses_ok r -> poses_ok (processHead env r).
Proof.
  intros H. unfold processHead, drainHead.
  destruct (pendingHead (pend r)); [| exact H].
  unfold applyHead.
  destruct (negb _ && _)%bool; [| exact H].
  destruct (negb (_ =? -1)).
  { apply (poses_ok_head (set_pend _ r)). exact H. }
  destruct (negb (_ =? -1)); [| exact H].
  unfold personCountControl.
  destruct (_ >? 2000); [| exact H].
  eapply poses_ok_same; [reflexivity .. |].
  apply (poses_ok_head (set_pend _ r)). exact H.
Qed.

Lemma poses_ok_loop (env : LoopEnv) (r : Robot) :
  poses_ok r -> poses_ok (loop env r).
Proof.
  intros H. unfold loop, processPendingRequests.
  pose proof (poses_ok_updateServoPositions (t_servo env) _
                (poses_ok_processHead (pendingEnv env) _
                   (poses_ok_processEmotion (pendingEnv env) _
                      (poses_ok_processReset (pendingEnv env) _ H)))) as H1.
  revert H1. generalize (updateServoPositions (t_servo env)
               (processHead (pendingEnv env)
                  (processEmotion (pendingEnv env) (processReset (pendingEnv env) r)))).
  intros r2 H2.
  assert (H3 : poses_ok (updateEyeBlinking (t_blink env) (rnd_blink env) r2)).
  { unfold updateEyeBlinking.
    repeat match goal with
           | |- context [if ?c then _ else _] => destruct c
           end; exact H2. }
  revert H3. generalize (updateEyeBlinking (t_blink env) (rnd_blink env) r2).
  intros r3 H3. unfold emotionTimeout.
  destruct (_ && _)%bool; [| exact H3].
  apply poses_ok_poseHLR. exact H3.
Qed.

Lemma servos_answer (q : Request) (r : Robot) :
  headState (snd (answer q r)) = headState r
  /\ leftArmState (snd (answer q r)) = leftArmState r
  /\ rightArmState (snd (answer q r)) = rightArmState r
  /\ emo (snd (answer q r)) = emo r
  /\ track (snd (answer q r)) = track r.
Proof.
  destruct q as [d | d | d |]; cbn [answer].
  - unfold onReceiveHandler. destruct d; [repeat split |].
    destruct (negb _); repeat split.
  - unfold onHeadHandler. destruct d; [repeat split |].
    destruct (containsKey doc "number"); [repeat split |].
    destruct (containsKey doc "angle"); repeat split.
  - unfold onHeadPositionHandler. destruct d; [repeat split |].
    destruct (_ && _)%bool; [| repeat split].
    destruct (_ && _)%bool; repeat split.
  - repeat split.
Qed.

Lemma poses_ok_serve (e : Event) (r : Robot) :
  poses_ok r -> poses_ok (serve e r).
Proof.
  intros H. destruct e as [q | env]; cbn [serve].
  - destruct (servos_answer q r) as (E1 & E2 & E3 & _).
    eapply poses_ok_same; eassumption.
  - apply poses_ok_loop. exact H.
Qed.

Lemma poses_ok_setup (now rnd : Z) : poses_ok (setup now rnd).
Proof.
  unfold poses_ok, axis_in, within. cbn. lia.
Qed.

Lemma poses_ok_run (es : list Event) (r : Robot) :
  poses_ok r -> poses_ok (run es r).
Proof.
  revert r. induction es as [| e es IH]; intros r H; cbn.
  - exact H.
  - apply IH. apply poses_ok_serve. exact H.
Qed.

Lemma poses_ok_call (c : ServoCall) (r : Robot) :
  poses_ok r -> poses_ok (call c r).
Proof.
  intros H. destruct c; cbn [call].
  - apply poses_ok_head; exact H.
  - apply poses_ok_leftArm; exact H.
  - apply poses_ok_rightArm; exact H.
  - apply poses_ok_updateServoPositions; exact H.
Qed.

Lemma poses_ok_calls (cs : list ServoCall) (r : Robot) :
  poses_ok r -> poses_ok (calls cs r).
Proof.
  revert r. induction cs as [| c cs IH]; intros r H; cbn.
  - exact H.
  - apply IH. apply poses_ok_call. exact H.
Qed.

End PosesOk.

(** ** Convergence of an axis *)

Section Convergence.
Import Controller.

Lemma stepsAxis_stopped (ts : list Z) (s : ServoState) :
  moving s = false -> stepsAxis ts s = s /\ effective ts s = O.
Proof.
  intros Hm. induction ts as [| t ts IH]; cbn [stepsAxis effective].
  - split; reflexivity.
  - rewrite stepAxis_idle by (rewrite Hm; reflexivity).
    rewrite Hm. cbn. exact IH.
Qed.

Lemma stepsAxis_target (ts : list Z) (s : ServoState) :
  targetPos (stepsAxis ts s) = targetPos s.
Proof.
  revert s. induction ts as [| t ts IH]; intros s; cbn [stepsAxis].
  - reflexivity.
  - rewrite IH. apply stepAxis_frame.
Qed.

Lemma due_paced (s : ServoState) : due (lastMoveTime s + SERVO_MOVE_DELAY) s = true.
Proof.
  unfold due. replace (lastMoveTime s + SERVO_MOVE_DELAY - lastMoveTime s)
    with SERVO_MOVE_DELAY by lia.
  reflexivity.
Qed.

(** The state of a moving axis after any ticks, by the number of them that
    took a step. *)
Lemma stepsAxis_distance (ts : list Z) :
  forall s : ServoState,
    axis_ok s -> moving s = true ->
    let d := Z.abs (targetPos s - currentPos s) in
    let n := Z.of_nat (effective ts s) in
    let s' := stepsAxis ts s in
    Z.abs (targetPos s' - currentPos s') = Z.max 0 (d - SERVO_STEP_SIZE * n)
    /\ Z.min (currentPos s) (targetPos s) <= currentPos s'
       <= Z.max (currentPos s) (targetPos s)
    /\ SERVO_STEP_SIZE * n <= Z.max SERVO_STEP_SIZE (d + 1)
    /\ (moving s' = false <-> 1 <= n /\ currentPos s' = targetPos s').
Proof.
  unfold SERVO_STEP_SIZE.
  induction ts as [| t ts IH]; intros s Hok Hm; cbn [stepsAxis effective].
  - cbn. rewrite Hm. repeat split; try lia; intros; try discriminate; lia.
  - destruct (due t s) eqn:Hd.
    + rewrite Hm. cbn [andb].
      pose proof (stepAxis_ok t s Hok) as Hok1.
      pose proof (stepAxis_due t s Hok Hm Hd) as E.
      destruct (Z.abs (targetPos s - currentPos s) <=? SERVO_STEP_SIZE) eqn:Hnear.
      * (* this step reaches the target *)
        apply Z.leb_le in Hnear. unfold SERVO_STEP_SIZE in *.
        assert (Hm1 : moving (stepAxis t s) = false) by (rewrite E; reflexivity).
        destruct (stepsAxis_stopped ts _ Hm1) as [Es En].
        rewrite Es, En. rewrite E. cbn [currentPos targetPos moving negb].
        destruct (currentPos s <? targetPos s) eqn:C;
          [apply Z.ltb_lt in C | apply Z.ltb_ge in C];
          repeat split; try lia.
      * apply Z.leb_gt in Hnear. unfold SERVO_STEP_SIZE in *.
        assert (Hm1 : moving (stepAxis t s) = true) by (rewrite E; reflexivity).
        specialize (IH _ Hok1 Hm1). cbv zeta in IH.
        destruct IH as (Ha & Hb & Hc & Hdd).
        revert Ha Hb Hc Hdd.
        generalize (effective ts (stepAxis t s)).
        generalize (stepsAxis ts (stepAxis t s)).
        rewrite E. cbn [currentPos targetPos].
        intros s' n Ha Hb Hc Hdd.
        destruct (currentPos s <? targetPos s) eqn:C;
          [apply Z.ltb_lt in C | apply Z.ltb_ge in C];
          (split; [lia | split; [lia | split; [lia |]]]);
          rewrite Hdd; split; intros [? ?]; split; lia.
    + rewrite stepAxis_idle by (rewrite Hd; apply andb_false_r).
      rewrite andb_false_r. cbn [Nat.add]. apply IH; assumption.
Qed.

(** Ticks one move delay apart all take a step until the target is reached. *)
Lemma effective_paced (k : nat) :
  forall s : ServoState,
    axis_ok s -> moving s = true ->
    Z.of_nat k <= Z.max 1 ((Z.abs (targetPos s - currentPos s) + 1) / 2) ->
    effective (paced k (lastMoveTime s)) s = k.
Proof.
  induction k as [| k IH]; intros s Hok Hm Hk; cbn [paced effective].
  - reflexivity.
  - rewrite Hm, due_paced. cbn [andb Nat.add]. f_equal.
    destruct k as [| k']; [reflexivity |].
    pose proof (stepAxis_ok (lastMoveTime s + SERVO_MOVE_DELAY) s Hok) as Hok1.
    pose proof (stepAxis_due _ s Hok Hm (due_paced s)) as E.
    assert (Hfar : 3 <= Z.abs (targetPos s - currentPos s)).
    { assert (2 <= (Z.abs (targetPos s - currentPos s) + 1) / 2) by lia.
      destruct (Z_lt_le_dec (Z.abs (targetPos s - currentPos s)) 3) as [Hlt | ?];
        [| assumption].
      assert ((Z.abs (targetPos s - currentPos s) + 1) / 2 < 2)
        by (apply Z.div_lt_upper_bound; lia).
      lia. }
    assert (Hd1 : Z.abs (targetPos s -
                  (if currentPos s <? targetPos s
                   then Z.min (currentPos s + 2) (targetPos s)
                   else Z.max (currentPos s - 2) (targetPos s)))
            = Z.abs (targetPos s - currentPos s) - 2).
    { destruct (currentPos s <? targetPos s) eqn:C;
        [apply Z.ltb_lt in C | apply Z.ltb_ge in C]; lia. }
    revert Hok1 E.
    generalize (stepAxis (lastMoveTime s + SERVO_MOVE_DELAY) s).
    intros s1 Hok1 E.
    assert (El : lastMoveTime s1 = lastMoveTime s + SERVO_MOVE_DELAY)
      by (rewrite E; reflexivity).
    rewrite <- El. apply IH.
    + exact Hok1.
    + rewrite E. cbn [moving]. apply negb_true_iff. apply Z.leb_gt.
      unfold SERVO_STEP_SIZE. lia.
    + rewrite E. cbn [currentPos targetPos]. unfold SERVO_STEP_SIZE.
      rewrite Hd1.
      replace (Z.abs (targetPos s - currentPos s) - 2 + 1)
        with ((Z.abs (targetPos s - currentPos s) + 1) + (-1) * 2) by lia.
      rewrite Z.div_add by lia. lia.
Qed.

End Convergence.

(** ** Claims on the servo axes *)

Section ServoClaims.
Import Controller.

Lemma poses_ok_positions (r : Robot) :
  poses_ok r ->
  position_within 45 135 (headState r)
  /\ position_within 0 180 (leftArmState r)
  /\ position_within 0 180 (rightArmState r).
Proof.
  unfold poses_ok, axis_in, position_within, within. intuition lia.
Qed.

Lemma axis_in_clamps (lo hi : Z) (s : ServoState) (a : Z) :
  Arduino.INT_MIN < lo -> hi < Arduino.INT_MAX -> axis_in lo hi s -> clamps s a.
Proof.
  intros Hlo Hhi H. split; [apply moveServoSafely_target |].
  pose proof (moveServoSafely_in lo hi s a Hlo Hhi H) as (E1 & E2 & _ & Ht).
  destruct (moveServoSafely_frame s a) as (_ & F1 & F2 & _).
  rewrite <- F1, <- F2. exact Ht.
Qed.

Lemma poses_ok_clamps (r : Robot) (a : Z) :
  poses_ok r ->
  clamps (headState r) a /\ clamps (leftArmState r) a /\ clamps (rightArmState r) a.
Proof.
  intros (H & L & R). split; [| split].
  - apply (axis_in_clamps 45 135); try apply int_limits_head; exact H.
  - apply (axis_in_clamps 0 180); try apply int_limits_arm; exact L.
  - apply (axis_in_clamps 0 180); try apply int_limits_arm; exact R.
Qed.

(** C1: from the initial poses, after any sequence of moveServoSafely calls
    on the three axes interleaved with updateServoPositions ticks (the
    calls [cs]), and after any run of the whole system (requests served by
    the handlers and iterations of the loop, [es]), every axis has its
    limits unchanged and minPos <= currentPos <= maxPos; and a
    moveServoSafely request for any angle [a] can only make the target the
    angle constrained into [minPos, maxPos]. *)
Theorem C1_positions_within_limits
  (now rnd : Z) (cs : list ServoCall) (es : list Event) (a : Z) :
  let r := calls cs (setup now rnd) in
  let q := run es (setup now rnd) in
  (position_within 45 135 (headState r)
   /\ position_within 0 180 (leftArmState r)
   /\ position_within 0 180 (rightArmState r))
  /\ (clamps (headState r) a /\ clamps (leftArmState r) a
      /\ clamps (rightArmState r) a)
  /\ (position_within 45 135 (headState q)
      /\ position_within 0 180 (leftArmState q)
      /\ position_within 0 180 (rightArmState q))
  /\ (clamps (headState q) a /\ clamps (leftArmState q) a
      /\ clamps (rightArmState q) a).
Proof.
  intros r q.
  assert (Hr : poses_ok r) by (apply poses_ok_calls, poses_ok_setup).
  assert (Hq : poses_ok q) by (apply poses_ok_run, poses_ok_setup).
  split; [apply poses_ok_positions; exact Hr |].
  split; [apply poses_ok_clamps; exact Hr |].
  split; [apply poses_ok_positions; exact Hq |].
  apply poses_ok_clamps; exact Hq.
Qed.

Lemma ceil_half (d : Z) : (d + SERVO_STEP_SIZE - 1) / SERVO_STEP_SIZE = (d + 1) / 2.
Proof. unfold SERVO_STEP_SIZE. f_equal. lia. Qed.

(** One axis on its own: the steps of a moving axis within its limits
    converge, and ticks one move delay apart reach the target. *)
Lemma stepsAxis_converges (s : ServoState) (ts : list Z) :
  axis_ok s -> moving s = true ->
  converges ts s /\ reaches_target s.
Proof.
  intros Hok Hm.
  assert (Hc : converges ts s).
  { unfold converges. rewrite ceil_half.
    destruct (stepsAxis_distance ts s Hok Hm) as (Ha & Hb & Hc & Hd).
    unfold SERVO_STEP_SIZE in *.
    split; [exact Ha |]. split; [exact Hb |]. split; [| split].
    - assert (Hdiv : Z.of_nat (effective ts s)
                     <= (Z.abs (targetPos s - currentPos s) + 1) / 2
                     \/ Z.of_nat (effective ts s) <= 1).
      { destruct (Z_le_gt_dec (Z.of_nat (effective ts s)) 1); [right; lia |].
        left. apply Z.div_le_lower_bound; lia. }
      lia.
    - exact Hd.
    - apply stepsAxis_target. }
  split; [exact Hc |].
  unfold reaches_target. rewrite ceil_half.
  set (d := Z.abs (targetPos s - currentPos s)).
  set (k := Z.to_nat (Z.max 1 ((d + 1) / 2))).
  assert (Hk : effective (paced k (lastMoveTime s)) s = k).
  { apply effective_paced; try assumption. fold d. unfold k.
    rewrite Z2Nat.id; lia. }
  destruct (stepsAxis_distance (paced k (lastMoveTime s)) s Hok Hm)
    as (Ha & _ & _ & Hd).
  rewrite Hk in Ha, Hd. fold d in Ha.
  assert (Hk2 : d <= 2 * Z.of_nat k).
  { unfold k. rewrite Z2Nat.id by lia.
    assert (d < 2 * ((d + 1) / 2) + 2).
    { pose proof (Z.mul_succ_div_gt (d + 1) 2). lia. }
    assert (d <> 2 * ((d + 1) / 2) + 1).
    { pose proof (Z.div_mod (d + 1) 2). pose proof (Z.mod_pos_bound (d + 1) 2). lia. }
    lia. }
  assert (Hk1 : 1 <= Z.of_nat k) by (unfold k; rewrite Z2Nat.id; lia).
  unfold SERVO_STEP_SIZE in Ha.
  assert (Hon : currentPos (stepsAxis (paced k (lastMoveTime s)) s)
                = targetPos (stepsAxis (paced k (lastMoveTime s)) s)) by lia.
  split; [exact Hk |]. split.
  - rewrite Hon. apply stepsAxis_target.
  - apply Hd. split; assumption.
Qed.

Lemma axisState_updateServoPositions (a : Axis) (t : Z) (r : Robot) :
  axisState a (updateServoPositions t r) = stepAxis t (axisState a r).
Proof.
  rewrite updateServoPositions_eq. destruct a; reflexivity.
Qed.

Lemma axisState_ticks (a : Axis) (ts : list Z) :
  forall r : Robot, axisState a (ticks ts r) = stepsAxis ts (axisState a r).
Proof.
  induction ts as [| t ts IH]; intros r; [reflexivity |].
  change (ticks (t :: ts) r) with (ticks ts (updateServoPositions t r)).
  cbn [stepsAxis]. rewrite IH, axisState_updateServoPositions. reflexivity.
Qed.

Lemma stepsTaken_effective (a : Axis) (ts : list Z) :
  forall r : Robot, stepsTaken a ts r = effective ts (axisState a r).
Proof.
  induction ts as [| t ts IH]; intros r; cbn [stepsTaken effective]; [reflexivity |].
  rewrite IH, axisState_updateServoPositions. reflexivity.
Qed.

(** C2: for every axis of the robot that is moving and within its limits (so
    that its target is reachable), repeated calls of updateServoPositions at
    any readings of the clock leave the position of the axis between where
    it was and the target (no overshoot), nearer by SERVO_STEP_SIZE for every
    call that took a step; no more than the whole of
    |targetPos - currentPos| / SERVO_STEP_SIZE rounded up (at least one)
    calls take a step; the moving flag is false exactly when a step has put
    currentPos on targetPos; and with calls one SERVO_MOVE_DELAY apart that
    many calls reach the target and clear the flag. *)
Theorem C2_steps_converge (a : Axis) (r : Robot) (ts : list Z) :
  axis_ok (axisState a r) -> moving (axisState a r) = true ->
  axis_converges a ts r /\ axis_reaches_target a r.
Proof.
  intros Hok Hm.
  destruct (stepsAxis_converges (axisState a r) ts Hok Hm) as [Hc Hr].
  split.
  - unfold axis_converges. cbv zeta.
    rewrite axisState_ticks, stepsTaken_effective. exact Hc.
  - unfold axis_reaches_target. cbv zeta.
    rewrite axisState_ticks, stepsTaken_effective. exact Hr.
Qed.

(** The head is sent from 90 to 95 degrees and updateServoPositions is
    called at 25, 30, 50 and 75 ms. *)
Lemma C2_steps_converge_witness :
  axis_ok (axisState HeadAxis (call (MoveHead 95) (setup 0 3000)))
  /\ moving (axisState HeadAxis (call (MoveHead 95) (setup 0 3000))) = true
  /\ axis_converges HeadAxis [25; 30; 50; 75] (call (MoveHead 95) (setup 0 3000))
  /\ axis_reaches_target HeadAxis (call (MoveHead 95) (setup 0 3000))
  /\ currentPos (headState (ticks [25; 30; 50; 75] (call (MoveHead 95) (setup 0 3000))))
     = 95.
Proof.
  assert (Hok : axis_ok (axisState HeadAxis (call (MoveHead 95) (setup 0 3000)))).
  { unfold axis_ok, limits_ok, within, Arduino.INT_MIN, Arduino.INT_MAX.
    vm_compute. repeat split; discriminate. }
  split; [exact Hok |]. split; [reflexivity |].
  destruct (C2_steps_converge HeadAxis (call (MoveHead 95) (setup 0 3000))
              [25; 30; 50; 75] Hok eq_refl) as [Hc Hr].
  split; [exact Hc |]. split; [exact Hr | reflexivity].
Defined.

(** C9: updateServoPositions leaves everything but the three servo states
    and the angles written to the three servos as it was; the new state of
    each axis is the step of that axis alone (it is computed from the old
    state of that axis and the clock reading, and from nothing else); and a
    step leaves targetPos, minPos, maxPos and name of the axis unchanged, so
    that only currentPos, lastMoveTime and moving change. *)
Theorem C9_updateServoPositions_frame (now : Z) (r : Robot) :
  updateServoPositions now r =
    mkRobot (emo r) (pend r) (blinkv r) (track r)
            (stepAxis now (headState r))
            (stepAxis now (leftArmState r))
            (stepAxis now (rightArmState r))
            (writeAxis now (headState r) (headServo r))
            (writeAxis now (leftArmState r) (leftArmServo r))
            (writeAxis now (rightArmState r) (rightArmServo r))
  /\ (forall s : ServoState,
        targetPos (stepAxis now s) = targetPos s
        /\ minPos (stepAxis now s) = minPos s
        /\ maxPos (stepAxis now s) = maxPos s
        /\ name (stepAxis now s) = name s).
Proof.
  split; [apply updateServoPositions_eq | intros s; apply stepAxis_frame].
Qed.

End ServoClaims.

(** ** The command mailboxes *)

Section Mailboxes.
Import Controller.








End Mailboxes.

Section Drains.
Import Controller.

Lemma pend_poseLRH (l rt h : Z) (r : Robot) : pend (poseLRH l rt h r) = pend r.
Proof. reflexivity. Qed.

Lemma pend_poseHLR (h l rt : Z) (r : Robot) : pend (poseHLR h l rt r) = pend r.
Proof. reflexivity. Qed.

Lemma pend_applyEmotion (now : Z) (emotion : string) (r : Robot) :
  pend (applyEmotion now emotion r) = pend r.
Proof.
  unfold applyEmotion, emotionPose.
  repeat match goal with |- context [if ?c then _ else _] => destruct c end;
    reflexivity.
Qed.

Lemma pend_applyHead (env : PendingEnv) (number angle : Z) (r : Robot) :
  pend (applyHead env number angle r) = pend r.
Proof.
  unfold applyHead, personCountControl.
  repeat match goal with |- context [if ?c then _ else _] => destruct c end;
    reflexivity.
Qed.

Lemma pend_processReset (env : PendingEnv) (r : Robot) :
  pendingEmotion (pend (processReset env r)) = pendingEmotion (pend r)
  /\ pendingEmotionValue (pend (processReset env r)) = pendingEmotionValue (pend r)
  /\ pendingHead (pend (processReset env r)) = pendingHead (pend r)
  /\ pendingHeadNumber (pend (processReset env r)) = pendingHeadNumber (pend r)
  /\ pendingHeadAngle (pend (processReset env r)) = pendingHeadAngle (pend r).
Proof.
  unfold processReset, acknowledgeReset, executeReset.
  destruct (pendingReset (pend r) && negb (resetAcknowledged (pend r)))%bool;
    cbn [snd pend set_pend resetAcknowledged resetStartTime].
  - destruct (_ >=? 5000); repeat split; reflexivity.
  - destruct (resetAcknowledged (pend r)); [| repeat split; reflexivity].
    destruct (_ >=? 5000); repeat split; reflexivity.
Qed.

Lemma pend_processEmotion (env : PendingEnv) (r : Robot) :
  pendingEmotion (pend (processEmotion env r)) = false
  /\ pendingHead (pend (processEmotion env r)) = pendingHead (pend r)
  /\ pendingHeadNumber (pend (processEmotion env r)) = pendingHeadNumber (pend r)
  /\ pendingHeadAngle (pend (processEmotion env r)) = pendingHeadAngle (pend r).
Proof.
  unfold processEmotion, drainEmotion.
  destruct (pendingEmotion (pend r)) eqn:E.
  - rewrite pend_applyEmotion. repeat split; reflexivity.
  - rewrite E. repeat split; reflexivity.
Qed.

Lemma pend_processHead (env : PendingEnv) (r : Robot) :
  pendingHead (pend (processHead env r)) = false
  /\ pendingEmotion (pend (processHead env r)) = pendingEmotion (pend r).
Proof.
  unfold processHead, drainHead.
  destruct (pendingHead (pend r)) eqn:E.
  - rewrite pend_applyHead. split; reflexivity.
  - rewrite E. split; reflexivity.
Qed.


End Drains.

(** ** Head requests *)

Section HeadRequests.
Import Controller.

(** C10: a body whose angle member is -1 (and that has no number member) is
    answered 200 head_angle_queued with the angle -1 and fills the head slot
    with the pair (-1, -1); the drain takes it out of the slot, neither the
    direct angle branch nor the person count branch runs, and the pass over
    the head slot changes nothing but the slot: the head axis and the statics
    of the sweep are as they were. *)
Theorem C10_angle_minus_one_is_dropped
  (doc : JsonDocument) (r : Robot) (env : PendingEnv) :
  containsKey doc "number" = false ->
  containsKey doc "angle" = true ->
  as_int doc "angle" = -1 ->
  code (fst (onHeadHandler (Document doc) r)) = 200
  /\ queuedHead (fst (onHeadHandler (Document doc) r)) = Some (-1, -1)
  /\ status_is (fst (onHeadHandler (Document doc) r)) "head_angle_queued" = true
  /\ fst (drainHead (snd (onHeadHandler (Document doc) r))) = Some (-1, -1)
  /\ processHead env (snd (onHeadHandler (Document doc) r))
     = snd (drainHead (snd (onHeadHandler (Document doc) r)))
  /\ headState (processHead env (snd (onHeadHandler (Document doc) r))) = headState r
  /\ track (processHead env (snd (onHeadHandler (Document doc) r))) = track r
  /\ pendingHead (pend (processHead env (snd (onHeadHandler (Document doc) r)))) = false.
Proof.
  intros Hn Ha Hv. unfold onHeadHandler. rewrite Hn, Ha, Hv.
  cbn [fst snd code].
  split; [reflexivity |]. split; [reflexivity |]. split; [reflexivity |].
  split; [reflexivity |].
  unfold processHead, drainHead, postHead, applyHead.
  cbn [pend set_pend pendingHead pendingHeadNumber pendingHeadAngle fst snd].
  destruct (negb _ && _)%bool; cbn; repeat split; reflexivity.
Qed.

Lemma C10_angle_minus_one_is_dropped_witness :
  containsKey [("angle"%string, mkMember (-1) "-1")] "number" = false
  /\ code (fst (onHeadHandler (Document [("angle"%string, mkMember (-1) "-1")])
                              (setup 0 3000))) = 200
  /\ headState (processHead (mkPendingEnv 20 20 20 3000 20 5000 50 0)
                  (snd (onHeadHandler (Document [("angle"%string, mkMember (-1) "-1")])
                                      (setup 0 3000))))
     = headState0.
Proof.
  pose proof (C10_angle_minus_one_is_dropped
                [("angle"%string, mkMember (-1) "-1")] (setup 0 3000)
                (mkPendingEnv 20 20 20 3000 20 5000 50 0)
                eq_refl eq_refl eq_refl) as H.
  split; [reflexivity |]. split; [apply H |].
  destruct H as (_ & _ & _ & _ & _ & H & _). exact H.
Defined.

End HeadRequests.

(** ** Bodies with both an angle and a number *)

Section Precedence.
Import Controller.

(** C7, as stated, fails on the controller: for a body with the angle 100 and
    the number 3 the queued head command carries the number 3, and the angle
    slot holds the sentinel -1, not 100. *)
Lemma C7_counterexample :
  queuedHead (fst (onHeadHandler
                     (Document [("angle"%string, mkMember 100 "100");
                                ("number"%string, mkMember 3 "3")])
                     (setup 0 3000))) = Some (3, -1)
  /\ pendingHeadNumber
       (pend (snd (onHeadHandler
                     (Document [("angle"%string, mkMember 100 "100");
                                ("number"%string, mkMember 3 "3")])
                     (setup 0 3000)))) = 3
  /\ pendingHeadAngle
       (pend (snd (onHeadHandler
                     (Document [("angle"%string, mkMember 100 "100");
                                ("number"%string, mkMember 3 "3")])
                     (setup 0 3000)))) <> 100.
Proof.
  split; [reflexivity |]. split; [reflexivity |]. cbn. discriminate.
Qed.

(** C7, amended: for a body with both an angle and a number member, the
    controller's onHeadHandler tests for the number first: it queues the
    number and puts the sentinel -1 in the angle slot, so the angle is
    discarded; handleHeadRequest of the simplified sketch tests for the angle
    first: when it serves the request it queues the angle and discards the
    number. *)
Theorem C7_precedence_by_variant
  (doc : JsonDocument) (r : Robot) (r' : Aug2a.Robot) :
  containsKey doc "angle" = true ->
  containsKey doc "number" = true ->
  Aug2a.server_busy r' = false ->
  Aug2a.emotion_mode_active r' = false ->
  (code (fst (onHeadHandler (Document doc) r)) = 200
   /\ queuedHead (fst (onHeadHandler (Document doc) r)) = Some (as_int doc "number", -1)
   /\ fst (drainHead (snd (onHeadHandler (Document doc) r)))
      = Some (as_int doc "number", -1))
  /\ (code (fst (Aug2a.handleHeadRequest (Some doc) r')) = 200
      /\ Aug2a.has_head_task
           (Aug2a.currentTask (snd (Aug2a.handleHeadRequest (Some doc) r'))) = true
      /\ Aug2a.head_angle
           (Aug2a.currentTask (snd (Aug2a.handleHeadRequest (Some doc) r')))
         = as_int doc "angle").
Proof.
  intros Ha Hn Hb Hm. split.
  - unfold onHeadHandler. rewrite Hn. repeat split; reflexivity.
  - unfold Aug2a.handleHeadRequest. rewrite Hb, Hm, Ha. repeat split; reflexivity.
Qed.

Lemma C7_precedence_by_variant_witness :
  containsKey [("angle"%string, mkMember 100 "100");
               ("number"%string, mkMember 3 "3")] "angle" = true
  /\ fst (drainHead (snd (onHeadHandler
                            (Document [("angle"%string, mkMember 100 "100");
                                       ("number"%string, mkMember 3 "3")])
                            (setup 0 3000)))) = Some (3, -1)
  /\ Aug2a.head_angle
       (Aug2a.currentTask
          (snd (Aug2a.handleHeadRequest
                  (Some [("angle"%string, mkMember 100 "100");
                         ("number"%string, mkMember 3 "3")])
                  Aug2a.initial))) = 100.
Proof.
  pose proof (C7_precedence_by_variant
                [("angle"%string, mkMember 100 "100");
                 ("number"%string, mkMember 3 "3")]
                (setup 0 3000) Aug2a.initial
                eq_refl eq_refl eq_refl eq_refl) as [(_ & _ & H1) (_ & _ & H2)].
  split; [reflexivity |]. split; [exact H1 | exact H2].
Defined.

End Precedence.

(** ** Sentiments *)

Section Sentiments.
Import Controller.

Lemma tolower_idem (c : ascii) : Arduino.tolower (Arduino.tolower c) = Arduino.tolower c.
Proof.
  destruct c as [[] [] [] [] [] [] [] []]; reflexivity.
Qed.

Lemma toLowerCase_idem (s : string) :
  Arduino.toLowerCase (Arduino.toLowerCase s) = Arduino.toLowerCase s.
Proof.
  induction s as [| c s IH]; cbn; [reflexivity |].
  rewrite tolower_idem, IH. reflexivity.
Qed.

Lemma emo_applyHead (env : PendingEnv) (number angle : Z) (r : Robot) :
  emo (applyHead env number angle r) = emo r.
Proof.
  unfold applyHead, personCountControl.
  repeat match goal with |- context [if ?c then _ else _] => destruct c end;
    reflexivity.
Qed.

Lemma emo_processHead (env : PendingEnv) (r : Robot) :
  emo (processHead env r) = emo r.
Proof.
  unfold processHead, drainHead. destruct (pendingHead (pend r)); [| reflexivity].
  rewrite emo_applyHead. reflexivity.
Qed.

Lemma emo_applyEmotion (now : Z) (emotion : string) (r : Robot) :
  emo (applyEmotion now emotion r) = mkEmotionVars emotion emotion true false now.
Proof.
  unfold applyEmotion, emotionPose.
  repeat match goal with |- context [if ?c then _ else _] => destruct c end;
    reflexivity.
Qed.

(** A pending emotion is what the pass over the mailboxes makes the current
    emotion, with emotion mode on. *)
Lemma emo_processPendingRequests (env : PendingEnv) (r : Robot) :
  pendingEmotion (pend r) = true ->
  emo (processPendingRequests env r)
  = mkEmotionVars (pendingEmotionValue (pend r)) (pendingEmotionValue (pend r))
                  true false (t_emotion env).
Proof.
  intros Hp. unfold processPendingRequests. rewrite emo_processHead.
  destruct (pend_processReset env r) as (E1 & E2 & _).
  unfold processEmotion, drainEmotion. rewrite E1, Hp, E2.
  apply emo_applyEmotion.
Qed.

Lemma Aug2a_updateArmPose_frame (r : Aug2a.Robot) :
  Aug2a.current_emotion (Aug2a.updateArmPose r) = Aug2a.current_emotion r
  /\ Aug2a.emotion_mode_active (Aug2a.updateArmPose r) = Aug2a.emotion_mode_active r
  /\ Aug2a.head_tracking_enabled (Aug2a.updateArmPose r) = Aug2a.head_tracking_enabled r
  /\ Aug2a.currentTask (Aug2a.updateArmPose r) = Aug2a.currentTask r
  /\ Aug2a.headState (Aug2a.updateArmPose r) = Aug2a.headState r.
Proof.
  unfold Aug2a.updateArmPose, Aug2a.armPose.
  repeat match goal with |- context [if ?c then _ else _] => destruct c end;
    repeat split; reflexivity.
Qed.

(** A pending emotion task becomes the current emotion as it was queued. *)
Lemma Aug2a_emotion_task (t : Z) (r : Aug2a.Robot) :
  Aug2a.has_emotion_task (Aug2a.currentTask r) = true ->
  Aug2a.current_emotion (Aug2a.processSimpleTasks t r)
  = Aug2a.emotion_data (Aug2a.currentTask r)
  /\ Aug2a.emotion_mode_active (Aug2a.processSimpleTasks t r) = true.
Proof.
  intros H. unfold Aug2a.processSimpleTasks, Aug2a.processEmotionTask. rewrite H.
  cbv zeta.
  match goal with
  | |- context [Aug2a.updateArmPose ?x] =>
      destruct (Aug2a_updateArmPose_frame x) as (E1 & E2 & E3 & E4 & E5);
      revert E1 E2 E3 E4 E5; generalize (Aug2a.updateArmPose x)
  end.
  intros rd E1 E2 E3 E4 E5. cbn in E1, E2, E3, E4, E5.
  unfold Aug2a.processHeadTask.
  cbn [Aug2a.emotion_mode_active Aug2a.set_currentTask Aug2a.set_headState
       Aug2a.currentTask Aug2a.has_head_task Aug2a.current_emotion].
  rewrite E2. cbn [negb]. rewrite andb_false_r.
  cbn [Aug2a.emotion_mode_active Aug2a.set_currentTask Aug2a.set_headState
       Aug2a.current_emotion].
  split; assumption.
Qed.

(** C6, as stated, fails on the simplified sketch: the sentiment ANGRY is
    queued, made the current emotion and reported as it was received. *)
Lemma C6_counterexample :
  Aug2a.emotion_data
    (Aug2a.currentTask
       (snd (Aug2a.handleReceiveRequest (Some (Aug2a.sentimentBody "ANGRY"))
                                        Aug2a.initial))) = "ANGRY"%string
  /\ reported "emotion"
       (body (Aug2a.handleStatusRequest 0
                (Aug2a.processSimpleTasks 20
                   (snd (Aug2a.handleReceiveRequest (Some (Aug2a.sentimentBody "ANGRY"))
                                                    Aug2a.initial)))))
     = Some (JStr "ANGRY")
  /\ "ANGRY"%string <> "angry"%string.
Proof.
  split; [reflexivity |]. split; [reflexivity | discriminate].
Qed.

(** C6, amended: onReceiveHandler of the controller lower-cases every
    sentiment before it queues it: the response, the emotion slot, and after
    the next pass over the mailboxes the current emotion, the current
    sentiment and the status report all carry the lower-cased text, the pose
    table is entered with it, and emotion mode is on; ANGRY becomes angry.
    handleReceiveRequest of the simplified sketch does not lower-case: it
    queues the sentiment as received, and that becomes the current emotion. *)
Theorem C6_sentiment_lower_cased_by_variant
  (doc : JsonDocument) (r : Robot) (env : PendingEnv) (senv : StatusEnv)
  (r' : Aug2a.Robot) (t : Z) :
  containsKey doc "sentiment" = true ->
  Aug2a.server_busy r' = false ->
  (code (fst (onReceiveHandler (Document doc) r)) = 200
   /\ queuedEmotion (fst (onReceiveHandler (Document doc) r))
      = Some (Arduino.toLowerCase (as_String doc "sentiment"))
   /\ fst (drainEmotion (snd (onReceiveHandler (Document doc) r)))
      = Some (Arduino.toLowerCase (as_String doc "sentiment"))
   /\ emo (processPendingRequests env (snd (onReceiveHandler (Document doc) r)))
      = mkEmotionVars (Arduino.toLowerCase (as_String doc "sentiment"))
                      (Arduino.toLowerCase (as_String doc "sentiment"))
                      true false (t_emotion env)
   /\ reported "emotion"
        (body (onStatusHandler senv
                 (processPendingRequests env (snd (onReceiveHandler (Document doc) r)))))
      = Some (JStr (Arduino.toLowerCase (as_String doc "sentiment")))
   /\ reported "emotion_mode"
        (body (onStatusHandler senv
                 (processPendingRequests env (snd (onReceiveHandler (Document doc) r)))))
      = Some (JBool true)
   /\ processEmotion env (processReset env (snd (onReceiveHandler (Document doc) r)))
      = applyEmotion (t_emotion env) (Arduino.toLowerCase (as_String doc "sentiment"))
          (snd (drainEmotion (processReset env (snd (onReceiveHandler (Document doc) r)))))
   /\ Arduino.toLowerCase (Arduino.toLowerCase (as_String doc "sentiment"))
      = Arduino.toLowerCase (as_String doc "sentiment")
   /\ Arduino.toLowerCase "ANGRY" = "angry"%string)
  /\ (code (fst (Aug2a.handleReceiveRequest (Some doc) r')) = 200
      /\ Aug2a.emotion_data
           (Aug2a.currentTask (snd (Aug2a.handleReceiveRequest (Some doc) r')))
         = as_String doc "sentiment"
      /\ Aug2a.current_emotion
           (Aug2a.processSimpleTasks t (snd (Aug2a.handleReceiveRequest (Some doc) r')))
         = as_String doc "sentiment"
      /\ Aug2a.emotion_mode_active
           (Aug2a.processSimpleTasks t (snd (Aug2a.handleReceiveRequest (Some doc) r')))
         = true).
Proof.
  intros Hk Hb. split.
  - assert (E : emo (processPendingRequests env (snd (onReceiveHandler (Document doc) r)))
                = mkEmotionVars (Arduino.toLowerCase (as_String doc "sentiment"))
                                (Arduino.toLowerCase (as_String doc "sentiment"))
                                true false (t_emotion env)).
    { rewrite emo_processPendingRequests;
        unfold onReceiveHandler; rewrite Hk; reflexivity. }
    split; [unfold onReceiveHandler; rewrite Hk; reflexivity |].
    split; [unfold onReceiveHandler; rewrite Hk; reflexivity |].
    split; [unfold onReceiveHandler; rewrite Hk; reflexivity |].
    split; [exact E |].
    split; [unfold onStatusHandler; cbn [body reported String.eqb Ascii.eqb Bool.eqb];
            rewrite E; reflexivity |].
    split; [unfold onStatusHandler; cbn [body reported String.eqb Ascii.eqb Bool.eqb];
            rewrite E; reflexivity |].
    split.
    { destruct (pend_processReset env (snd (onReceiveHandler (Document doc) r)))
        as (E1 & E2 & _).
      unfold processEmotion, drainEmotion. rewrite E1, E2.
      unfold onReceiveHandler. rewrite Hk. reflexivity. }
    split; [apply toLowerCase_idem | reflexivity].
  - unfold Aug2a.handleReceiveRequest. rewrite Hb, Hk. cbn [fst snd code].
    split; [reflexivity |]. split; [reflexivity |].
    apply Aug2a_emotion_task. reflexivity.
Qed.

Lemma C6_sentiment_lower_cased_by_variant_witness :
  containsKey [("sentiment"%string, mkMember 0 "ANGRY")] "sentiment" = true
  /\ emo (processPendingRequests (mkPendingEnv 20 20 20 3000 20 5000 50 0)
            (snd (onReceiveHandler
                    (Document [("sentiment"%string, mkMember 0 "ANGRY")])
                    (setup 0 3000))))
     = mkEmotionVars "angry" "angry" true false 20
  /\ Aug2a.emotion_data
       (Aug2a.currentTask
          (snd (Aug2a.handleReceiveRequest
                  (Some [("sentiment"%string, mkMember 0 "ANGRY")]) Aug2a.initial)))
     = "ANGRY"%string.
Proof.
  pose proof (C6_sentiment_lower_cased_by_variant
                [("sentiment"%string, mkMember 0 "ANGRY")]
                (setup 0 3000) (mkPendingEnv 20 20 20 3000 20 5000 50 0)
                (mkStatusEnv true true true true 200000 1000)
                Aug2a.initial 20 eq_refl eq_refl)
    as [(_ & _ & _ & H1 & _) (_ & H2 & _)].
  split; [reflexivity |]. split; [exact H1 | exact H2].
Defined.

End Sentiments.

(** ** Emotion mode and the head *)

Section EmotionGate.
Import Controller.

Lemma processHead_gated (env : PendingEnv) (r : Robot) :
  emotion_mode_active (emo r) = true ->
  processHead env r = snd (drainHead r).
Proof.
  intros H. unfold processHead, drainHead.
  destruct (pendingHead (pend r)); [| reflexivity].
  unfold applyHead. cbn [emo set_pend snd]. rewrite H. reflexivity.
Qed.

Lemma drainHead_frame (r : Robot) :
  headState (snd (drainHead r)) = headState r
  /\ track (snd (drainHead r)) = track r
  /\ emo (snd (drainHead r)) = emo r
  /\ pendingHead (pend (snd (drainHead r))) = false.
Proof.
  unfold drainHead. destruct (pendingHead (pend r)) eqn:E; cbn;
    repeat split; try reflexivity. exact E.
Qed.

(** C4, as stated, fails on the simplified sketch: once the emotion sad has
    put it in emotion mode, a head request is answered 503 (blocked) and
    nothing is queued. *)
Lemma C4_counterexample :
  Aug2a.emotion_mode_active
    (Aug2a.processSimpleTasks 20
       (snd (Aug2a.handleReceiveRequest (Some (Aug2a.sentimentBody "sad"))
                                        Aug2a.initial))) = true
  /\ code (fst (Aug2a.handleHeadRequest
                  (Some [("angle"%string, mkMember 100 "100")])
                  (Aug2a.processSimpleTasks 20
                     (snd (Aug2a.handleReceiveRequest
                             (Some (Aug2a.sentimentBody "sad")) Aug2a.initial)))))
     = 503
  /\ Aug2a.has_head_task
       (Aug2a.currentTask
          (snd (Aug2a.handleHeadRequest
                  (Some [("angle"%string, mkMember 100 "100")])
                  (Aug2a.processSimpleTasks 20
                     (snd (Aug2a.handleReceiveRequest
                             (Some (Aug2a.sentimentBody "sad")) Aug2a.initial))))))
     = false.
Proof.
  split; [reflexivity |]. split; reflexivity.
Qed.

(** The reset block, by whether the pass executes the reset. *)
Lemma processReset_due (env : PendingEnv) (r : Robot) :
  processReset env r
  = if resetDue env r
    then executeReset env (snd (acknowledgeReset (t_resetAck env) r))
    else snd (acknowledgeReset (t_resetAck env) r).
Proof.
  unfold processReset, resetDue. cbv zeta.
  destruct (resetAcknowledged (pend (snd (acknowledgeReset (t_resetAck env) r))));
    [| reflexivity].
  cbn [andb]. reflexivity.
Qed.

Lemma emo_processReset (env : PendingEnv) (r : Robot) :
  emo (processReset env r)
  = if resetDue env r
    then mkEmotionVars "happy" "happy" false true (emotion_mode_start (emo r))
    else emo r.
Proof.
  rewrite processReset_due. destruct (resetDue env r).
  - unfold executeReset, acknowledgeReset. destruct (_ && _)%bool; reflexivity.
  - unfold acknowledgeReset. destruct (_ && _)%bool; reflexivity.
Qed.

Lemma resetDue_postHead (env : PendingEnv) (n a : Z) (r : Robot) :
  resetDue env (postHead n a r) = resetDue env r.
Proof.
  unfold resetDue, acknowledgeReset, postHead. cbv zeta.
  cbn [pend set_pend pendingReset resetAcknowledged].
  destruct (pendingReset (pend r) && negb (resetAcknowledged (pend r)))%bool;
    reflexivity.
Qed.

(** The reset block and the emotion block do not read the head slot. *)
Lemma processReset_postHead (env : PendingEnv) (n a : Z) (r : Robot) :
  processReset env (postHead n a r) = postHead n a (processReset env r).
Proof.
  rewrite !processReset_due, resetDue_postHead.
  unfold executeReset, acknowledgeReset, postHead.
  cbn [pend set_pend pendingReset resetAcknowledged].
  destruct (resetDue env r);
    destruct (pendingReset (pend r) && negb (resetAcknowledged (pend r)))%bool;
    reflexivity.
Qed.

Lemma processEmotion_postHead (env : PendingEnv) (n a : Z) (r : Robot) :
  processEmotion env (postHead n a r) = postHead n a (processEmotion env r).
Proof.
  unfold processEmotion, drainEmotion.
  change (pendingEmotion (pend (postHead n a r))) with (pendingEmotion (pend r)).
  destruct (pendingEmotion (pend r)) eqn:E; [| reflexivity].
  change (pendingEmotionValue (pend (postHead n a r)))
    with (pendingEmotionValue (pend r)).
  unfold applyEmotion, emotionPose.
  repeat match goal with |- context [if ?c then _ else _] => destruct c end;
    reflexivity.
Qed.

Lemma processEmotion_idle (env : PendingEnv) (r : Robot) :
  pendingEmotion (pend r) = false -> processEmotion env r = r.
Proof.
  intros H. unfold processEmotion, drainEmotion. rewrite H. reflexivity.
Qed.

(** A pass over the mailboxes with a command in the head slot: the head
    block applies the command to what the reset and the emotion block made
    of the state, with the slot emptied. *)
Lemma pass_postHead (env : PendingEnv) (n a : Z) (r : Robot) :
  processPendingRequests env (postHead n a r)
  = applyHead env n a
      (snd (drainHead (postHead n a (processEmotion env (processReset env r))))).
Proof.
  unfold processPendingRequests.
  rewrite processReset_postHead, processEmotion_postHead.
  unfold processHead, drainHead, postHead.
  cbn [pend set_pend pendingHead pendingHeadNumber pendingHeadAngle fst snd].
  reflexivity.
Qed.

(** With emotion mode active when the head block is reached, the pass with
    the command is the pass without it, the slot empty. *)
Lemma pass_postHead_gated (env : PendingEnv) (n a : Z) (r : Robot) :
  emotion_mode_active (emo (processEmotion env (processReset env r))) = true ->
  processPendingRequests env (postHead n a r)
  = snd (drainHead (postHead n a (processPendingRequests env r))).
Proof.
  intros H. rewrite pass_postHead. unfold processPendingRequests.
  rewrite (processHead_gated env _ H).
  generalize dependent (processEmotion env (processReset env r)). intros x H.
  unfold applyHead, drainHead, postHead.
  cbn [pend set_pend pendingHead pendingHeadNumber pendingHeadAngle fst snd emo].
  rewrite H. cbn [negb andb].
  destruct (pendingHead (pend x)); reflexivity.
Qed.

Lemma emptied_frame (n a : Z) (r : Robot) :
  headState (snd (drainHead (postHead n a r))) = headState r
  /\ leftArmState (snd (drainHead (postHead n a r))) = leftArmState r
  /\ rightArmState (snd (drainHead (postHead n a r))) = rightArmState r
  /\ track (snd (drainHead (postHead n a r))) = track r
  /\ emo (snd (drainHead (postHead n a r))) = emo r
  /\ headServo (snd (drainHead (postHead n a r))) = headServo r
  /\ pendingHead (pend (snd (drainHead (postHead n a r)))) = false.
Proof.
  unfold drainHead, postHead. cbn. repeat split; reflexivity.
Qed.

Lemma emo_applyHead_pass (env : PendingEnv) (n a : Z) (r : Robot) :
  emo (processPendingRequests env (postHead n a r))
  = emo (processEmotion env (processReset env r)).
Proof.
  rewrite pass_postHead, emo_applyHead.
  destruct (emptied_frame n a (processEmotion env (processReset env r)))
    as (_ & _ & _ & _ & E & _).
  exact E.
Qed.

(** Whether emotion mode is active when the head block is reached, for a
    pass that starts in emotion mode. *)
Lemma mode_at_head_block (env : PendingEnv) (r : Robot) :
  emotion_mode_active (emo r) = true ->
  emotion_mode_active (emo (processEmotion env (processReset env r)))
  = (pendingEmotion (pend r) || negb (resetDue env r))%bool.
Proof.
  intros H.
  destruct (pend_processReset env r) as (Ep & _).
  destruct (pendingEmotion (pend r)) eqn:E.
  - unfold processEmotion, drainEmotion. rewrite Ep.
    rewrite emo_applyEmotion. reflexivity.
  - rewrite processEmotion_idle by exact Ep. rewrite emo_processReset.
    destruct (resetDue env r); [reflexivity | exact H].
Qed.

Lemma onHeadHandler_posts (doc : JsonDocument) (r : Robot) :
  (containsKey doc "number" || containsKey doc "angle")%bool = true ->
  code (fst (onHeadHandler (Document doc) r)) = 200
  /\ snd (onHeadHandler (Document doc) r)
     = postHead (fst (headCommand doc)) (snd (headCommand doc)) r.
Proof.
  intros H. unfold onHeadHandler, headCommand.
  destruct (containsKey doc "number"); [split; reflexivity |].
  destruct (containsKey doc "angle"); [split; reflexivity | discriminate].
Qed.

(** C4, amended: while emotion mode is active, onHeadHandler of the
    controller answers a body with a number or an angle 200 and fills the
    head slot, and the next pass of processPendingRequests empties the
    slot.  Emotion mode is still active after that pass unless the countdown
    of a reset ends in it with no emotion pending.  When it is still active,
    the command is dropped: the pass leaves the state that it leaves without
    the command, the head slot empty, so the head axis, the arms and the
    statics of the sweep are untouched by the command, and it is not applied
    later either.  When the reset of that pass has ended emotion mode, the
    head gate is open by the time the head block is reached and the block
    applies the command to the state the reset left: the command takes
    effect only after emotion mode is off.  In every state, a pass that ends
    in emotion mode has done nothing in its head block but empty the slot.
    onHeadPositionHandler queues nothing in emotion mode.  The simplified
    sketch refuses the request: handleHeadRequest answers 503 blocked and
    changes nothing, and processSimpleTasks neither applies nor removes a
    head task that is pending.  In neither variant does a head input change
    the head axis while emotion mode is active. *)
Theorem C4_head_input_gated_by_variant
  (doc : JsonDocument) (data : Parsed) (r r0 : Robot) (env : PendingEnv)
  (data' : option JsonDocument) (r' : Aug2a.Robot) (t : Z) :
  emotion_mode_active (emo r) = true ->
  (containsKey doc "number" || containsKey doc "angle")%bool = true ->
  Aug2a.emotion_mode_active r' = true ->
  (code (fst (onHeadHandler (Document doc) r)) = 200
   /\ snd (onHeadHandler (Document doc) r)
      = postHead (fst (headCommand doc)) (snd (headCommand doc)) r
   /\ pendingHead (pend (snd (onHeadHandler (Document doc) r))) = true
   /\ pendingHead
        (pend (processPendingRequests env (snd (onHeadHandler (Document doc) r))))
      = false
   /\ emotion_mode_active
        (emo (processPendingRequests env (snd (onHeadHandler (Document doc) r))))
      = (pendingEmotion (pend r) || negb (resetDue env r))%bool
   /\ (emotion_mode_active
         (emo (processPendingRequests env (snd (onHeadHandler (Document doc) r))))
       = true ->
       processPendingRequests env (snd (onHeadHandler (Document doc) r))
       = snd (drainHead (postHead (fst (headCommand doc)) (snd (headCommand doc))
                                  (processPendingRequests env r)))
       /\ headState (processPendingRequests env (snd (onHeadHandler (Document doc) r)))
          = headState (processPendingRequests env r)
       /\ leftArmState
            (processPendingRequests env (snd (onHeadHandler (Document doc) r)))
          = leftArmState (processPendingRequests env r)
       /\ rightArmState
            (processPendingRequests env (snd (onHeadHandler (Document doc) r)))
          = rightArmState (processPendingRequests env r)
       /\ track (processPendingRequests env (snd (onHeadHandler (Document doc) r)))
          = track (processPendingRequests env r))
   /\ (emotion_mode_active
         (emo (processPendingRequests env (snd (onHeadHandler (Document doc) r))))
       = false ->
       emotion_mode_active (emo (processReset env r)) = false
       /\ tracking (processReset env r) = true
       /\ processPendingRequests env (snd (onHeadHandler (Document doc) r))
          = applyHead env (fst (headCommand doc)) (snd (headCommand doc))
              (snd (drainHead (postHead (fst (headCommand doc)) (snd (headCommand doc))
                                        (processReset env r)))))
   /\ (emotion_mode_active (emo (processPendingRequests env r0)) = true ->
       processPendingRequests env r0
       = snd (drainHead (processEmotion env (processReset env r0))))
   /\ snd (onHeadPositionHandler data r) = r
   /\ queuedHead (fst (onHeadPositionHandler data r)) = None)
  /\ (Aug2a.handleHeadRequest data' r'
      = (mkResponse 503 [("status"%string, JStr "blocked")], r')
      /\ Aug2a.processHeadTask r' = r'
      /\ Aug2a.processSimpleTasks t r' = Aug2a.processEmotionTask t r'
      /\ Aug2a.has_head_task (Aug2a.currentTask (Aug2a.processSimpleTasks t r'))
         = Aug2a.has_head_task (Aug2a.currentTask r')
      /\ Aug2a.head_angle (Aug2a.currentTask (Aug2a.processSimpleTasks t r'))
         = Aug2a.head_angle (Aug2a.currentTask r')).
Proof.
  intros Hm Hk Hm'. split.
  - destruct (onHeadHandler_posts doc r Hk) as [Hc Hq]. rewrite Hq.
    set (n := fst (headCommand doc)). set (a := snd (headCommand doc)).
    pose proof (mode_at_head_block env r Hm) as Hmid.
    pose proof (emo_applyHead_pass env n a r) as Ee.
    split; [exact Hc |]. split; [reflexivity |]. split; [reflexivity |].
    split.
    { rewrite pass_postHead, pend_applyHead. reflexivity. }
    split; [rewrite Ee; exact Hmid |].
    split.
    { rewrite Ee. intros Ha.
      rewrite (pass_postHead_gated env n a r Ha).
      destruct (emptied_frame n a (processPendingRequests env r))
        as (E1 & E2 & E3 & E4 & _).
      split; [reflexivity |]. split; [exact E1 |]. split; [exact E2 |].
      split; [exact E3 | exact E4]. }
    split.
    { rewrite Ee, Hmid. intros Ha.
      destruct (pendingEmotion (pend r)) eqn:Ep; [discriminate |].
      destruct (resetDue env r) eqn:Ed; [| discriminate].
      assert (Ex : emo (processReset env r)
                   = mkEmotionVars "happy" "happy" false true
                                   (emotion_mode_start (emo r)))
        by (rewrite emo_processReset, Ed; reflexivity).
      split; [rewrite Ex; reflexivity |].
      split; [unfold tracking; rewrite Ex; reflexivity |].
      rewrite pass_postHead.
      rewrite (processEmotion_idle env (processReset env r)); [reflexivity |].
      destruct (pend_processReset env r) as (E & _). rewrite E. exact Ep. }
    split.
    { intros Ha. unfold processPendingRequests in *.
      rewrite emo_processHead in Ha. apply processHead_gated. exact Ha. }
    unfold onHeadPositionHandler. destruct data; [split; reflexivity |].
    destruct (_ && _)%bool; [| split; reflexivity].
    rewrite Hm. split; reflexivity.
  - assert (Ht : Aug2a.processSimpleTasks t r' = Aug2a.processEmotionTask t r').
    { unfold Aug2a.processSimpleTasks, Aug2a.processHeadTask.
      assert (Ha : Aug2a.emotion_mode_active (Aug2a.processEmotionTask t r') = true).
      { unfold Aug2a.processEmotionTask.
        destruct (Aug2a.has_emotion_task (Aug2a.currentTask r')); [| exact Hm'].
        unfold Aug2a.updateArmPose, Aug2a.armPose.
        repeat match goal with |- context [if ?c then _ else _] => destruct c end;
          reflexivity. }
      rewrite Ha. cbn [negb]. rewrite andb_false_r. reflexivity. }
    split.
    { unfold Aug2a.handleHeadRequest. rewrite Hm', orb_true_r. reflexivity. }
    split.
    { unfold Aug2a.processHeadTask. rewrite Hm'. cbn [negb]. rewrite andb_false_r.
      reflexivity. }
    split; [exact Ht |]. rewrite Ht.
    unfold Aug2a.processEmotionTask.
    destruct (Aug2a.has_emotion_task (Aug2a.currentTask r')); [| split; reflexivity].
    unfold Aug2a.updateArmPose, Aug2a.armPose.
    repeat match goal with |- context [if ?c then _ else _] => destruct c end;
      split; reflexivity.
Qed.

(** In the run into the emotion timeout, emotion mode is active at 300 ms.
    A head request for 100 degrees is dropped by the pass at 400 ms.  When a
    reset has been acknowledged at 400 ms, the pass at 5400 ms executes the
    reset and then applies the head request posted before it. *)
Lemma C4_head_input_gated_by_variant_witness :
  emotion_mode_active (emo (run timeoutScenario (setup 0 3000))) = true
  /\ code (fst (onHeadHandler (Document (angleBody 100))
                              (run timeoutScenario (setup 0 3000)))) = 200
  /\ headState (processPendingRequests (pendingEnv (quiet 400))
                  (snd (onHeadHandler (Document (angleBody 100))
                                      (run timeoutScenario (setup 0 3000)))))
     = headState (run timeoutScenario (setup 0 3000))
  /\ emotion_mode_active (emo (run resetScenario (setup 0 3000))) = true
  /\ emotion_mode_active
       (emo (processPendingRequests (pendingEnv (quiet 5400))
               (snd (onHeadHandler (Document (angleBody 100))
                                   (run resetScenario (setup 0 3000)))))) = false
  /\ targetPos
       (headState (processPendingRequests (pendingEnv (quiet 5400))
                     (snd (onHeadHandler (Document (angleBody 100))
                                         (run resetScenario (setup 0 3000))))))
     = 100
  /\ Aug2a.handleHeadRequest
       (Some (angleBody 100))
       (Aug2a.processSimpleTasks 20
          (snd (Aug2a.handleReceiveRequest (Some (Aug2a.sentimentBody "sad"))
                                           Aug2a.initial)))
     = (mkResponse 503 [("status"%string, JStr "blocked")],
        Aug2a.processSimpleTasks 20
          (snd (Aug2a.handleReceiveRequest (Some (Aug2a.sentimentBody "sad"))
                                           Aug2a.initial))).
Proof.
  pose proof (C4_head_input_gated_by_variant
                (angleBody 100) (Document (positionBody 320 640))
                (run timeoutScenario (setup 0 3000)) (setup 0 3000)
                (pendingEnv (quiet 400))
                (Some (angleBody 100))
                (Aug2a.processSimpleTasks 20
                   (snd (Aug2a.handleReceiveRequest (Some (Aug2a.sentimentBody "sad"))
                                                    Aug2a.initial)))
                20 eq_refl eq_refl eq_refl)
    as [(H1 & _ & _ & _ & _ & H2 & _) (H3 & _)].
  pose proof (C4_head_input_gated_by_variant
                (angleBody 100) (Document (positionBody 320 640))
                (run resetScenario (setup 0 3000)) (setup 0 3000)
                (pendingEnv (quiet 5400))
                (Some (angleBody 100))
                (Aug2a.processSimpleTasks 20
                   (snd (Aug2a.handleReceiveRequest (Some (Aug2a.sentimentBody "sad"))
                                                    Aug2a.initial)))
                20 eq_refl eq_refl eq_refl)
    as [(_ & _ & _ & _ & H4 & _ & H5 & _) _].
  split; [reflexivity |]. split; [exact H1 |].
  split.
  { assert (A : emotion_mode_active
                  (emo (processPendingRequests (pendingEnv (quiet 400))
                          (snd (onHeadHandler (Document (angleBody 100))
                                              (run timeoutScenario (setup 0 3000))))))
                = true) by (vm_compute; reflexivity).
    rewrite (proj1 (proj2 (H2 A))). vm_compute. reflexivity. }
  split; [vm_compute; reflexivity |].
  assert (B : emotion_mode_active
                (emo (processPendingRequests (pendingEnv (quiet 5400))
                        (snd (onHeadHandler (Document (angleBody 100))
                                            (run resetScenario (setup 0 3000))))))
              = false) by (rewrite H4; vm_compute; reflexivity).
  split; [exact B |].
  split; [| exact H3].
  destruct (H5 B) as (_ & _ & E). rewrite E. vm_compute. reflexivity.
Defined.

End EmotionGate.

(** ** The emotion timeout *)

Section EmotionTimeout.
Import Controller.

Lemma abs_small (x : Z) :
  Arduino.INT_MIN < x <= Arduino.INT_MAX -> Arduino.abs x = Z.abs x.
Proof.
  unfold Arduino.abs, Arduino.INT_MIN, Arduino.INT_MAX. intros H.
  destruct (x >? 0) eqn:E.
  - apply Z.gtb_lt in E. lia.
  - assert (x <= 0) by (destruct (Z.gtb_spec x 0); [discriminate | lia]).
    rewrite int_of_small by (unfold Arduino.INT_MIN, Arduino.INT_MAX; lia). lia.
Qed.

(** The target a request leaves on an axis with small limits. *)
Lemma moveServoSafely_requested (lo hi : Z) (s : ServoState) (a : Z) :
  -1000 <= lo -> hi <= 1000 -> axis_in lo hi s -> lo <= a <= hi ->
  targetPos (moveServoSafely s a) = requested 2 (targetPos s) a.
Proof.
  intros Hlo Hhi (Emin & Emax & _ & Ht) Ha. unfold moveServoSafely, requested.
  rewrite Emin, Emax in *. rewrite constrain_id by exact Ha.
  rewrite int_of_small by (unfold Arduino.INT_MIN, Arduino.INT_MAX; lia).
  rewrite abs_small by (unfold Arduino.INT_MIN, Arduino.INT_MAX; lia).
  destruct (Z.abs (targetPos s - a) >? 2); reflexivity.
Qed.

Lemma requested_near (deadband t a : Z) :
  0 <= deadband -> Z.abs (requested deadband t a - a) <= deadband.
Proof.
  intros H. unfold requested. destruct (Z.abs (t - a) >? deadband) eqn:E.
  - lia.
  - destruct (Z.gtb_spec (Z.abs (t - a)) deadband); [discriminate | lia].
Qed.

(** The difference is taken on [unsigned long]: a start of emotion mode that
    was read up to a minute after [now] counts as timed out. *)
Lemma timed_out_when_start_is_later (now : Z) (q : Robot) :
  now < emotion_mode_start (emo q) <= now + 60000 -> timed_out now q.
Proof.
  intros H. unfold timed_out, Arduino.ulong_of, EMOTION_MODE_DURATION.
  replace (now - emotion_mode_start (emo q))
    with ((now - emotion_mode_start (emo q) + 4294967296) + (-1) * 4294967296) by lia.
  rewrite Z.mod_add by lia. rewrite Z.mod_small by lia.
  apply Z.gtb_lt. lia.
Qed.

Lemma poses_ok_beforeTimeout (env : LoopEnv) (r : Robot) :
  poses_ok r -> poses_ok (beforeTimeout env r).
Proof.
  intros H. unfold beforeTimeout, processPendingRequests.
  pose proof (poses_ok_updateServoPositions (t_servo env) _
                (poses_ok_processHead (pendingEnv env) _
                   (poses_ok_processEmotion (pendingEnv env) _
                      (poses_ok_processReset (pendingEnv env) _ H)))) as H1.
  revert H1. generalize (updateServoPositions (t_servo env)
               (processHead (pendingEnv env)
                  (processEmotion (pendingEnv env) (processReset (pendingEnv env) r)))).
  intros r2 H2. unfold updateEyeBlinking.
  repeat match goal with |- context [if ?c then _ else _] => destruct c end; exact H2.
Qed.

(** What the timeout does when it fires. *)
Lemma emotionTimeout_fires (now : Z) (q : Robot) :
  poses_ok q ->
  emotion_mode_active (emo q) = true ->
  timed_out now q ->
  emo (emotionTimeout now q)
  = mkEmotionVars "happy" "happy" false true (emotion_mode_start (emo q))
  /\ targetPos (headState (emotionTimeout now q))
     = requested 2 (targetPos (headState q)) 90
  /\ targetPos (leftArmState (emotionTimeout now q))
     = requested 2 (targetPos (leftArmState q)) 180
  /\ targetPos (rightArmState (emotionTimeout now q))
     = requested 2 (targetPos (rightArmState q)) 0.
Proof.
  intros (H & L & R) Hm Hgt. unfold emotionTimeout. unfold timed_out in Hgt.
  rewrite Hm, Hgt. cbn [andb].
  unfold poseHLR.
  cbn [emo headState leftArmState rightArmState set_emo set_headState
       set_leftArmState set_rightArmState].
  split; [reflexivity |].
  split; [apply (moveServoSafely_requested 45 135); try lia; exact H |].
  split; [apply (moveServoSafely_requested 0 180); try lia; exact L |].
  apply (moveServoSafely_requested 0 180); try lia; exact R.
Qed.

End EmotionTimeout.

Section EmotionTimeoutClaims.
Import Controller.

Lemma Aug2a_requested (lo hi : Z) (s : Aug2a.ServoState) (a : Z) :
  -1000 <= lo -> hi <= 1000 ->
  Aug2a.minPos s = lo /\ Aug2a.maxPos s = hi /\ lo <= Aug2a.targetPos s <= hi ->
  lo <= a <= hi ->
  Aug2a.targetPos (Aug2a.moveServoSafely s a) = requested 3 (Aug2a.targetPos s) a.
Proof.
  intros Hlo Hhi (Emin & Emax & Ht) Ha. unfold Aug2a.moveServoSafely, requested.
  rewrite Emin, Emax. rewrite constrain_id by exact Ha.
  rewrite int_of_small by (unfold Arduino.INT_MIN, Arduino.INT_MAX; lia).
  rewrite abs_small by (unfold Arduino.INT_MIN, Arduino.INT_MAX; lia).
  destruct (Z.abs (Aug2a.targetPos s - a) >? 3); reflexivity.
Qed.

Lemma Aug2a_timeout_fires (t : Z) (r : Aug2a.Robot) :
  Aug2a.targets_ok r ->
  Aug2a.emotion_mode_active r = true ->
  (Arduino.ulong_of (t - Aug2a.task_time (Aug2a.currentTask r)) >? 8000) = true ->
  Aug2a.emotion_mode_active (Aug2a.checkEmotionTimeout t r) = false
  /\ Aug2a.head_tracking_enabled (Aug2a.checkEmotionTimeout t r) = true
  /\ Aug2a.current_emotion (Aug2a.checkEmotionTimeout t r) = "happy"%string
  /\ Aug2a.targetPos (Aug2a.headState (Aug2a.checkEmotionTimeout t r))
     = requested 3 (Aug2a.targetPos (Aug2a.headState r)) 90
  /\ Aug2a.targetPos (Aug2a.leftArmState (Aug2a.checkEmotionTimeout t r))
     = requested 3 (Aug2a.targetPos (Aug2a.leftArmState r)) 180
  /\ Aug2a.targetPos (Aug2a.rightArmState (Aug2a.checkEmotionTimeout t r))
     = requested 3 (Aug2a.targetPos (Aug2a.rightArmState r)) 0.
Proof.
  intros (H & L & R) Hm Hgt. unfold Aug2a.checkEmotionTimeout.
  rewrite Hm, Hgt. cbn [andb]. cbv zeta.
  unfold Aug2a.updateArmPose.
  cbn [Aug2a.current_emotion Aug2a.set_current_emotion String.eqb Ascii.eqb Bool.eqb
       orb].
  unfold Aug2a.armPose.
  cbn [Aug2a.emotion_mode_active Aug2a.head_tracking_enabled Aug2a.current_emotion
       Aug2a.headState Aug2a.leftArmState Aug2a.rightArmState
       Aug2a.set_headState Aug2a.set_leftArmState Aug2a.set_rightArmState
       Aug2a.set_current_emotion Aug2a.set_head_tracking_enabled
       Aug2a.set_emotion_mode_active].
  split; [reflexivity |]. split; [reflexivity |]. split; [reflexivity |].
  split; [apply (Aug2a_requested 60 120); try lia; exact H |].
  split; [apply (Aug2a_requested 0 180); try lia; exact L |].
  apply (Aug2a_requested 0 180); try lia; exact R.
Qed.

Lemma loop_beforeTimeout (env : LoopEnv) (r : Robot) :
  loop env r = emotionTimeout (now env) (beforeTimeout env r).
Proof.
  unfold loop, beforeTimeout. reflexivity.
Qed.

(** C5, as stated, fails on the controller: after the head was sent to 95 and
    then to 88 degrees and the emotion disgust was received at 300 ms,
    emotion mode is active with the head target at 88; the tick at 12400 ms
    finds the timeout over and leaves emotion mode, but the head target
    stays 88, it is not restored to the 90 of the default pose. *)
Lemma C5_counterexample :
  emotion_mode_active
    (emo (beforeTimeout (quiet 12400) (run timeoutScenario (setup 0 3000)))) = true
  /\ timed_out 12400 (beforeTimeout (quiet 12400) (run timeoutScenario (setup 0 3000)))
  /\ emotion_mode_active
       (emo (loop (quiet 12400) (run timeoutScenario (setup 0 3000)))) = false
  /\ targetPos (headState (loop (quiet 12400) (run timeoutScenario (setup 0 3000))))
     = 88
  /\ targetPos (headState (setup 0 3000)) = 90.
Proof.
  unfold timed_out. repeat split; vm_compute; reflexivity.
Qed.

(** C5, amended: when an iteration of loop reaches the timeout check with
    emotion mode active and now - emotion_mode_start above
    EMOTION_MODE_DURATION, it clears emotion_mode_active, sets the emotion
    and the sentiment to happy, enables head tracking, and requests the
    default pose (head 90, left arm 180, right arm 0) with moveServoSafely:
    the target of an axis becomes the default when it is more than 2 degrees
    from it and is left as it is otherwise, so it ends within 2 degrees of the
    default.  checkEmotionTimeout of the simplified sketch does the same
    after 8000 ms with a deadband of 3 degrees (it has no sentiment). *)
Theorem C5_timeout_requests_default_pose
  (env : LoopEnv) (r : Robot) (t : Z) (r' : Aug2a.Robot) :
  poses_ok r ->
  emotion_mode_active (emo (beforeTimeout env r)) = true ->
  timed_out (now env) (beforeTimeout env r) ->
  Aug2a.targets_ok r' ->
  Aug2a.emotion_mode_active r' = true ->
  (Arduino.ulong_of (t - Aug2a.task_time (Aug2a.currentTask r')) >? 8000) = true ->
  (emotion_mode_active (emo (loop env r)) = false
   /\ head_tracking_enabled (emo (loop env r)) = true
   /\ current_emotion (emo (loop env r)) = "happy"%string
   /\ current_sentiment (emo (loop env r)) = "happy"%string
   /\ targetPos (headState (loop env r))
      = requested 2 (targetPos (headState (beforeTimeout env r))) 90
   /\ targetPos (leftArmState (loop env r))
      = requested 2 (targetPos (leftArmState (beforeTimeout env r))) 180
   /\ targetPos (rightArmState (loop env r))
      = requested 2 (targetPos (rightArmState (beforeTimeout env r))) 0
   /\ Z.abs (targetPos (headState (loop env r)) - 90) <= 2
   /\ Z.abs (targetPos (leftArmState (loop env r)) - 180) <= 2
   /\ Z.abs (targetPos (rightArmState (loop env r)) - 0) <= 2)
  /\ (Aug2a.emotion_mode_active (Aug2a.checkEmotionTimeout t r') = false
      /\ Aug2a.head_tracking_enabled (Aug2a.checkEmotionTimeout t r') = true
      /\ Aug2a.current_emotion (Aug2a.checkEmotionTimeout t r') = "happy"%string
      /\ Aug2a.targetPos (Aug2a.headState (Aug2a.checkEmotionTimeout t r'))
         = requested 3 (Aug2a.targetPos (Aug2a.headState r')) 90
      /\ Aug2a.targetPos (Aug2a.leftArmState (Aug2a.checkEmotionTimeout t r'))
         = requested 3 (Aug2a.targetPos (Aug2a.leftArmState r')) 180
      /\ Aug2a.targetPos (Aug2a.rightArmState (Aug2a.checkEmotionTimeout t r'))
         = requested 3 (Aug2a.targetPos (Aug2a.rightArmState r')) 0).
Proof.
  intros Hok Hm Hgt Hok' Hm' Hgt'. split.
  - rewrite loop_beforeTimeout.
    destruct (emotionTimeout_fires (now env) (beforeTimeout env r)
                (poses_ok_beforeTimeout env r Hok) Hm Hgt) as (E & Eh & El & Er).
    rewrite E, Eh, El, Er. cbn [emotion_mode_active head_tracking_enabled
                                 current_emotion current_sentiment].
    repeat split; try reflexivity; apply requested_near; lia.
  - apply Aug2a_timeout_fires; assumption.
Qed.

Lemma C5_timeout_requests_default_pose_witness :
  timed_out 12400 (beforeTimeout (quiet 12400) (run timeoutScenario (setup 0 3000)))
  /\ current_emotion (emo (loop (quiet 12400) (run timeoutScenario (setup 0 3000))))
     = "happy"%string
  /\ targetPos (headState (loop (quiet 12400) (run timeoutScenario (setup 0 3000))))
     = requested 2
         (targetPos (headState (beforeTimeout (quiet 12400)
                                  (run timeoutScenario (setup 0 3000))))) 90
  /\ Aug2a.current_emotion
       (Aug2a.checkEmotionTimeout 9000
          (Aug2a.processSimpleTasks 20
             (snd (Aug2a.handleReceiveRequest (Some (Aug2a.sentimentBody "sad"))
                                              Aug2a.initial))))
     = "happy"%string.
Proof.
  assert (Hok : poses_ok (run timeoutScenario (setup 0 3000))).
  { unfold poses_ok, axis_in, within. vm_compute.
    repeat split; reflexivity || discriminate. }
  assert (Hok' : Aug2a.targets_ok
                   (Aug2a.processSimpleTasks 20
                      (snd (Aug2a.handleReceiveRequest
                              (Some (Aug2a.sentimentBody "sad")) Aug2a.initial)))).
  { unfold Aug2a.targets_ok. vm_compute.
    repeat split; reflexivity || discriminate. }
  pose proof (C5_timeout_requests_default_pose
                (quiet 12400) (run timeoutScenario (setup 0 3000)) 9000
                (Aug2a.processSimpleTasks 20
                   (snd (Aug2a.handleReceiveRequest (Some (Aug2a.sentimentBody "sad"))
                                                    Aug2a.initial)))
                Hok eq_refl eq_refl Hok' eq_refl eq_refl)
    as [(_ & _ & H1 & _ & H2 & _) (_ & _ & H3 & _)].
  split; [reflexivity |]. split; [exact H1 |]. split; [exact H2 | exact H3].
Defined.

End EmotionTimeoutClaims.

(** ** The head position mapping *)

Section HeadPosition.
Import Controller.

(** [map] onto the limits of the head axis, for a position within a frame
    whose width does not make the product wrap. *)
Lemma map_head_linear (x fw : Z) :
  0 < fw -> fw * 90 <= Arduino.INT_MAX -> 0 <= x <= fw ->
  Arduino.map x 0 fw 45 135 = 45 + (x * (135 - 45)) / fw.
Proof.
  unfold Arduino.INT_MAX. intros Hfw Hb Hx. unfold Arduino.map.
  rewrite !Z.sub_0_r.
  rewrite (int_of_small fw) by (unfold Arduino.INT_MIN, Arduino.INT_MAX; lia).
  rewrite (int_of_small x) by (unfold Arduino.INT_MIN, Arduino.INT_MAX; lia).
  destruct (fw =? 0) eqn:E; [apply Z.eqb_eq in E; lia |].
  change (Arduino.int_of (135 - 45)) with 90. change (135 - 45) with 90.
  rewrite (int_of_small (x * 90)) by (unfold Arduino.INT_MIN, Arduino.INT_MAX; nia).
  rewrite Z.quot_div_nonneg by lia.
  assert (Hq : 0 <= x * 90 / fw <= 90).
  { split; [apply Z.div_pos; lia |].
    apply Z.div_le_upper_bound; [lia | nia]. }
  rewrite (int_of_small (x * 90 / fw))
    by (unfold Arduino.INT_MIN, Arduino.INT_MAX; lia).
  rewrite int_of_small by (unfold Arduino.INT_MIN, Arduino.INT_MAX; lia).
  lia.
Qed.

Lemma queuedAngle_tracking (x fw : Z) (r : Robot) :
  tracking r = true ->
  queuedAngle x fw r
  = Some (Arduino.map x 0 fw (minPos (headState r)) (maxPos (headState r)))
  /\ fst (drainHead (snd (onHeadPositionHandler (Document (positionBody x fw)) r)))
     = Some (-1, Arduino.map x 0 fw (minPos (headState r)) (maxPos (headState r))).
Proof.
  unfold tracking. intros Ht. unfold queuedAngle, onHeadPositionHandler.
  cbn [positionBody containsKey member String.eqb Ascii.eqb Bool.eqb andb as_int asInt].
  rewrite Ht. split; reflexivity.
Qed.

(** C8, as stated, fails where the handler does not check the frame width:
    from setup, with the head gate open, a request with x = 0 and
    frame_width = 0 is answered with the angle -1, not with minPos = 45 or
    maxPos = 135; with x = frame_width = 30000000 the 32-bit product
    x * 90 wraps and the angle is -8, not maxPos; and for the odd width 641,
    x = 641 / 2 = 320 is mapped to 89, not to the midpoint 90. *)
Lemma C8_counterexample :
  tracking (setup 0 3000) = true
  /\ minPos (headState (setup 0 3000)) = 45
  /\ maxPos (headState (setup 0 3000)) = 135
  /\ code (fst (onHeadPositionHandler (Document (positionBody 0 0)) (setup 0 3000)))
     = 200
  /\ queuedAngle 0 0 (setup 0 3000) = Some (-1)
  /\ queuedAngle 30000000 30000000 (setup 0 3000) = Some (-8)
  /\ 641 / 2 = 320
  /\ queuedAngle 320 641 (setup 0 3000) = Some 89.
Proof.
  vm_compute. repeat split; reflexivity.
Qed.

(** C8, amended: with the head gate open, for a frame width that is positive
    and small enough for the 32-bit product x * 90 not to wrap
    (frame_width * 90 <= INT_MAX) and 0 <= x <= frame_width, the angle a head
    position request queues is the linear map of x over [0, frame_width]
    onto [minPos, maxPos] of the head axis in truncating integer arithmetic,
    minPos + x * (maxPos - minPos) / frame_width: x = 0 is mapped to minPos,
    x = frame_width to maxPos, and for an even width the x with
    2 * x = frame_width to the midpoint (minPos + maxPos) / 2; for an odd
    width 2 * x + 1 the x is mapped below the midpoint.  For the frame width
    640, x = 0, 640 and 320 are mapped to 45, 135 and 90.  The width is not
    checked: for the frame width 0 the angle queued is -1, whatever x is. *)
Theorem C8_head_position_linear_map (r : Robot) (x fw h x0 : Z) :
  poses_ok r ->
  tracking r = true ->
  0 < fw -> fw * 90 <= Arduino.INT_MAX -> 0 <= x <= fw ->
  0 < h -> (2 * h) * 90 <= Arduino.INT_MAX ->
  queuedAngle x fw r
  = Some (minPos (headState r)
          + (x * (maxPos (headState r) - minPos (headState r))) / fw)
  /\ fst (drainHead (snd (onHeadPositionHandler (Document (positionBody x fw)) r)))
     = Some (-1, minPos (headState r)
                 + (x * (maxPos (headState r) - minPos (headState r))) / fw)
  /\ queuedAngle 0 fw r = Some (minPos (headState r))
  /\ queuedAngle fw fw r = Some (maxPos (headState r))
  /\ queuedAngle h (2 * h) r
     = Some ((minPos (headState r) + maxPos (headState r)) / 2)
  /\ queuedAngle h (2 * h + 1) r
     = Some (minPos (headState r)
             + (h * (maxPos (headState r) - minPos (headState r))) / (2 * h + 1))
  /\ minPos (headState r)
     + (h * (maxPos (headState r) - minPos (headState r))) / (2 * h + 1)
     < (minPos (headState r) + maxPos (headState r)) / 2
  /\ queuedAngle x0 0 r = Some (-1)
  /\ queuedAngle 0 640 r = Some 45
  /\ queuedAngle 640 640 r = Some 135
  /\ queuedAngle 320 640 r = Some 90.
Proof.
  intros ((Emin & Emax & _) & _) Ht Hfw Hb Hx Hh Hhb.
  assert (Q : forall a w, 0 < w -> w * 90 <= Arduino.INT_MAX -> 0 <= a <= w ->
                          queuedAngle a w r = Some (45 + (a * (135 - 45)) / w)).
  { intros a w H1 H2 H3. destruct (queuedAngle_tracking a w r Ht) as [E _].
    rewrite E, Emin, Emax, map_head_linear by assumption. reflexivity. }
  rewrite Emin, Emax.
  split; [apply Q; assumption |].
  split.
  { destruct (queuedAngle_tracking x fw r Ht) as [_ E].
    rewrite E, Emin, Emax, map_head_linear by assumption. reflexivity. }
  split; [rewrite Q by (assumption || lia); rewrite Z.mul_0_l, Z.div_0_l by lia;
          reflexivity |].
  split; [rewrite Q by (assumption || lia);
          replace (fw * (135 - 45)) with (90 * fw) by lia;
          rewrite Z.div_mul by lia; reflexivity |].
  split; [rewrite Q by (assumption || lia);
          replace (h * (135 - 45)) with (45 * (2 * h)) by lia;
          rewrite Z.div_mul by lia; reflexivity |].
  unfold Arduino.INT_MAX in *.
  split; [apply Q; unfold Arduino.INT_MAX; lia |].
  split.
  { change ((45 + 135) / 2) with 90.
    assert (h * (135 - 45) / (2 * h + 1) < 45)
      by (apply Z.div_lt_upper_bound; lia).
    lia. }
  split.
  { destruct (queuedAngle_tracking x0 0 r Ht) as [E _]. rewrite E.
    unfold Arduino.map. rewrite Z.sub_diag. reflexivity. }
  split; [rewrite Q by (unfold Arduino.INT_MAX; lia); reflexivity |].
  split; rewrite Q by (unfold Arduino.INT_MAX; lia); reflexivity.
Qed.

Lemma C8_head_position_linear_map_witness :
  tracking (setup 0 3000) = true
  /\ 0 <= 160 <= 640
  /\ queuedAngle 160 640 (setup 0 3000) = Some (45 + 160 * (135 - 45) / 640)
  /\ queuedAngle 320 640 (setup 0 3000) = Some 90.
Proof.
  assert (Hok : poses_ok (setup 0 3000)).
  { unfold poses_ok, axis_in, within. vm_compute.
    repeat split; reflexivity || discriminate. }
  assert (H1 : 0 < 640) by lia.
  assert (H2 : 640 * 90 <= Arduino.INT_MAX) by (unfold Arduino.INT_MAX; lia).
  assert (H3 : 0 <= 160 <= 640) by lia.
  assert (H4 : 0 < 320) by lia.
  assert (H5 : 2 * 320 * 90 <= Arduino.INT_MAX) by (unfold Arduino.INT_MAX; lia).
  pose proof (C8_head_position_linear_map (setup 0 3000) 160 640 320 7
                Hok eq_refl H1 H2 H3 H4 H5)
    as (E1 & _ & _ & _ & _ & _ & _ & _ & _ & _ & E2).
  split; [reflexivity |]. split; [exact H3 |]. split; [exact E1 | exact E2].
Defined.

End HeadPosition.

(** * Further properties of the code *)

(** ** The controller along its runs *)

Section ControllerRuns.
Import Controller.

Ltac split_ifs :=
  repeat match goal with
         | |- context [if ?c then _ else _] => destruct c
         end.

Lemma run_invariant (P : Robot -> Prop) :
  (forall e r, P r -> P (serve e r)) ->
  forall es r, P r -> P (run es r).
Proof.
  intros Hstep es. induction es as [| e es IH]; intros r H; cbn.
  - exact H.
  - apply IH, Hstep, H.
Qed.

Lemma same_positions_refl (r : Robot) : same_positions r r.
Proof. repeat split. Qed.

Lemma same_positions_trans (r1 r2 r3 : Robot) :
  same_positions r1 r2 -> same_positions r2 r3 -> same_positions r1 r3.
Proof.
  unfold same_positions. intros (A1 & A2 & A3 & A4 & A5 & A6) (B1 & B2 & B3 & B4 & B5 & B6).
  rewrite B1, B2, B3, B4, B5, B6. repeat split; assumption.
Qed.

Ltac positions :=
  unfold same_positions, poseLRH, poseHLR;
  cbn [headServo leftArmServo rightArmServo headState leftArmState rightArmState
       set_headState set_leftArmState set_rightArmState set_emo set_pend
       set_blinkv set_track snd];
  repeat split; try reflexivity; apply moveServoSafely_frame.

Lemma same_positions_processReset (env : PendingEnv) (r : Robot) :
  same_positions r (processReset env r).
Proof.
  unfold processReset, acknowledgeReset, executeReset.
  destruct (pendingReset (pend r) && negb (resetAcknowledged (pend r)))%bool;
    cbn [snd pend set_pend resetAcknowledged resetStartTime].
  - destruct (_ >=? 5000); positions.
  - destruct (resetAcknowledged (pend r)); [| positions].
    destruct (_ >=? 5000); positions.
Qed.

Lemma same_positions_processEmotion (env : PendingEnv) (r : Robot) :
  same_positions r (processEmotion env r).
Proof.
  unfold processEmotion, drainEmotion.
  destruct (pendingEmotion (pend r)); [| positions].
  unfold applyEmotion, emotionPose. split_ifs; positions.
Qed.

Lemma same_positions_processHead (env : PendingEnv) (r : Robot) :
  same_positions r (processHead env r).
Proof.
  unfold processHead, drainHead.
  destruct (pendingHead (pend r)); [| positions].
  unfold applyHead.
  destruct (negb _ && _)%bool; [| positions].
  destruct (negb (_ =? -1)); [positions |].
  destruct (negb (_ =? -1)); [| positions].
  unfold personCountControl.
  destruct (_ >? 2000); positions.
Qed.

Lemma same_positions_updateEyeBlinking (now rnd : Z) (r : Robot) :
  same_positions r (updateEyeBlinking now rnd r).
Proof.
  unfold updateEyeBlinking. split_ifs; positions.
Qed.

Lemma same_positions_emotionTimeout (now : Z) (r : Robot) :
  same_positions r (emotionTimeout now r).
Proof.
  unfold emotionTimeout. destruct (_ && _)%bool; positions.
Qed.

Lemma same_positions_answer (q : Request) (r : Robot) :
  same_positions r (snd (answer q r)).
Proof.
  destruct q as [d | d | d |]; cbn [answer].
  - unfold onReceiveHandler. destruct d; [positions |].
    destruct (negb _); positions.
  - unfold onHeadHandler. destruct d; [positions |].
    destruct (containsKey doc "number"); [positions |].
    destruct (containsKey doc "angle"); positions.
  - unfold onHeadPositionHandler. destruct d; [positions |].
    destruct (_ && _)%bool; [| positions].
    destruct (_ && _)%bool; positions.
  - positions.
Qed.

Lemma writeAxis_synced (now : Z) (s : ServoState) (written : Z) :
  axis_ok s -> written = currentPos s ->
  writeAxis now s written = currentPos (stepAxis now s).
Proof.
  intros Hok Hw. unfold writeAxis.
  destruct (moving s && _)%bool eqn:G.
  - pose proof (stepAxis_ok now s Hok) as [_ [Hc _]].
    destruct (stepAxis_frame now s) as (_ & E1 & E2 & _).
    rewrite E1, E2 in Hc.
    destruct (currentPos (stepAxis now s) >=? minPos s) eqn:A;
      destruct (currentPos (stepAxis now s) <=? maxPos s) eqn:B; cbn [andb];
      try reflexivity.
    + apply Z.leb_gt in B. lia.
    + assert (currentPos (stepAxis now s) < minPos s)
        by (destruct (Z.geb_spec (currentPos (stepAxis now s)) (minPos s));
            [discriminate | lia]).
      lia.
    + apply Z.leb_gt in B. lia.
  - unfold stepAxis. rewrite G. exact Hw.
Qed.

Lemma synced_same_positions (r r' : Robot) :
  same_positions r r' -> synced r -> synced r'.
Proof.
  unfold same_positions, synced.
  intros (A1 & A2 & A3 & A4 & A5 & A6) (S1 & S2 & S3).
  rewrite A1, A2, A3, A4, A5, A6. repeat split; assumption.
Qed.

Lemma synced_updateServoPositions (now : Z) (r : Robot) :
  poses_ok r -> synced r -> synced (updateServoPositions now r).
Proof.
  intros (H & L & R) (S1 & S2 & S3). rewrite updateServoPositions_eq.
  unfold synced. cbn [headServo leftArmServo rightArmServo headState leftArmState
                      rightArmState].
  split; [| split]; apply writeAxis_synced; try assumption.
  - apply (axis_in_ok 45 135); try apply int_limits_head; exact H.
  - apply (axis_in_ok 0 180); try apply int_limits_arm; exact L.
  - apply (axis_in_ok 0 180); try apply int_limits_arm; exact R.
Qed.

Lemma synced_serve (e : Event) (r : Robot) :
  poses_ok r /\ synced r -> poses_ok (serve e r) /\ synced (serve e r).
Proof.
  intros [Hok Hs]. split; [apply poses_ok_serve; exact Hok |].
  destruct e as [q | env]; cbn [serve].
  - apply (synced_same_positions r); [apply same_positions_answer | exact Hs].
  - unfold loop, processPendingRequests.
    set (r1 := processReset (pendingEnv env) r).
    set (r2 := processEmotion (pendingEnv env) r1).
    set (r3 := processHead (pendingEnv env) r2).
    assert (H3 : poses_ok r3 /\ synced r3).
    { split.
      - apply poses_ok_processHead, poses_ok_processEmotion, poses_ok_processReset, Hok.
      - apply (synced_same_positions r2); [apply same_positions_processHead |].
        apply (synced_same_positions r1); [apply same_positions_processEmotion |].
        apply (synced_same_positions r); [apply same_positions_processReset | exact Hs]. }
    destruct H3 as [Hok3 Hs3].
    apply (synced_same_positions _ _ (same_positions_emotionTimeout _ _)).
    apply (synced_same_positions _ _ (same_positions_updateEyeBlinking _ _ _)).
    apply synced_updateServoPositions; assumption.
Qed.

(** X1: along every run of the controller from setup, the angle last written
    to each of the three servos is the currentPos of its axis: the check of
    the limits in updateServoPositions never holds a write back. *)
Theorem X1_servo_output_follows_position (now rnd : Z) (es : list Event) :
  synced (run es (setup now rnd)).
Proof.
  apply (run_invariant (fun r => poses_ok r /\ synced r)).
  - apply synced_serve.
  - split; [apply poses_ok_setup | repeat split].
Qed.

Ltac fields :=
  cbn [emo blinkv track pend set_headState set_leftArmState set_rightArmState
       set_emo set_pend set_blinkv set_track set_headServo set_leftArmServo
       set_rightArmServo snd poseLRH poseHLR
       head_tracking_enabled emotion_mode_active eyesOpen isBlinking
       currentDirection movementSpeed negb].

(** The emotion variables, the blinking variables and the statics of the
    sweep after each request: as before. *)
Lemma answer_keeps (q : Request) (r : Robot) :
  emo (snd (answer q r)) = emo r
  /\ blinkv (snd (answer q r)) = blinkv r
  /\ track (snd (answer q r)) = track r.
Proof.
  destruct q as [d | d | d |]; cbn [answer].
  - unfold onReceiveHandler. destruct d; [repeat split |].
    destruct (negb _); repeat split.
  - unfold onHeadHandler. destruct d; [repeat split |].
    destruct (containsKey doc "number"); [repeat split |].
    destruct (containsKey doc "angle"); repeat split.
  - unfold onHeadPositionHandler. destruct d; [repeat split |].
    destruct (_ && _)%bool; [| repeat split].
    destruct (_ && _)%bool; repeat split.
  - repeat split.
Qed.

(** A property kept by the six blocks of [loop] and by the handlers is kept
    by every event. *)
Lemma serve_invariant (P : Robot -> Prop) :
  (forall q r, P r -> P (snd (answer q r))) ->
  (forall env r, P r -> P (processReset env r)) ->
  (forall env r, P r -> P (processEmotion env r)) ->
  (forall env r, P r -> P (processHead env r)) ->
  (forall now r, P r -> P (updateServoPositions now r)) ->
  (forall now rnd r, P r -> P (updateEyeBlinking now rnd r)) ->
  (forall now r, P r -> P (emotionTimeout now r)) ->
  forall e r, P r -> P (serve e r).
Proof.
  intros Ha H1 H2 H3 H4 H5 H6 e r H. destruct e as [q | env]; cbn [serve].
  - apply Ha, H.
  - unfold loop, processPendingRequests.
    apply H6, H5, H4, H3, H2, H1, H.
Qed.

Lemma gate_flags_serve (e : Event) (r : Robot) :
  gate_flags_ok r -> gate_flags_ok (serve e r).
Proof.
  revert e r. apply serve_invariant; unfold gate_flags_ok.
  - intros q r H. destruct (answer_keeps q r) as (E & _). rewrite E. exact H.
  - intros env r H. unfold processReset, acknowledgeReset, executeReset.
    split_ifs; fields; try exact H; reflexivity.
  - intros env r H. unfold processEmotion, drainEmotion.
    destruct (pendingEmotion (pend r)); [| exact H].
    rewrite emo_applyEmotion. reflexivity.
  - intros env r H. rewrite emo_processHead. exact H.
  - intros now r H. rewrite updateServoPositions_eq. exact H.
  - intros now rnd r H. unfold updateEyeBlinking. split_ifs; exact H.
  - intros now r H. unfold emotionTimeout. split_ifs; fields; try exact H; reflexivity.
Qed.

(** X2: along every run of the controller from setup, head tracking is
    enabled exactly when emotion mode is off; the head gate
    (not emotion_mode_active and head_tracking_enabled) is open exactly when
    emotion mode is off. *)
Theorem X2_tracking_enabled_iff_not_emotion_mode (now rnd : Z) (es : list Event) :
  head_tracking_enabled (emo (run es (setup now rnd)))
  = negb (emotion_mode_active (emo (run es (setup now rnd))))
  /\ tracking (run es (setup now rnd))
     = negb (emotion_mode_active (emo (run es (setup now rnd)))).
Proof.
  assert (H : gate_flags_ok (run es (setup now rnd))).
  { apply (run_invariant gate_flags_ok); [apply gate_flags_serve | reflexivity]. }
  unfold gate_flags_ok in H. unfold tracking. rewrite H.
  split; [reflexivity |].
  destruct (emotion_mode_active _); reflexivity.
Qed.

Lemma blink_flags_serve (e : Event) (r : Robot) :
  blink_flags_ok r -> blink_flags_ok (serve e r).
Proof.
  revert e r. apply serve_invariant; unfold blink_flags_ok.
  - intros q r H. destruct (answer_keeps q r) as (_ & E & _). rewrite E. exact H.
  - intros env r H. unfold processReset, acknowledgeReset, executeReset.
    split_ifs; fields; try exact H; reflexivity.
  - intros env r H. unfold processEmotion, drainEmotion.
    destruct (pendingEmotion (pend r)); [| exact H].
    unfold applyEmotion, emotionPose. split_ifs; exact H.
  - intros env r H. unfold processHead, drainHead.
    destruct (pendingHead (pend r)); [| exact H].
    unfold applyHead, personCountControl. split_ifs; exact H.
  - intros now r H. rewrite updateServoPositions_eq. exact H.
  - intros now rnd r H. unfold updateEyeBlinking.
    destruct (isBlinking (blinkv r)) eqn:E; destruct (_ >=? _); fields;
      rewrite ?E; try exact H; reflexivity.
  - intros now r H. unfold emotionTimeout. split_ifs; exact H.
Qed.

(** X3: along every run of the controller from setup, the eyes are open
    exactly when no blink is running, whatever the readings of the clock
    and of random() were; the status reports eyes_open as the negation of
    blinking. *)
Theorem X3_eyes_open_iff_not_blinking
  (now rnd : Z) (es : list Event) (senv : StatusEnv) :
  eyesOpen (blinkv (run es (setup now rnd)))
  = negb (isBlinking (blinkv (run es (setup now rnd))))
  /\ reported "eyes_open" (body (onStatusHandler senv (run es (setup now rnd))))
     = Some (JBool (negb (isBlinking (blinkv (run es (setup now rnd))))))
  /\ reported "blinking" (body (onStatusHandler senv (run es (setup now rnd))))
     = Some (JBool (isBlinking (blinkv (run es (setup now rnd))))).
Proof.
  assert (H : blink_flags_ok (run es (setup now rnd))).
  { apply (run_invariant blink_flags_ok); [apply blink_flags_serve | reflexivity]. }
  unfold blink_flags_ok in H.
  split; [exact H |].
  unfold onStatusHandler. cbn [body reported String.eqb Ascii.eqb Bool.eqb].
  rewrite H. split; reflexivity.
Qed.

Lemma sweep_keeps (env : PendingEnv) (number : Z) (r : Robot) :
  sweep_ok r ->
  (snd (fst (sweep env number r)) = 1 \/ snd (fst (sweep env number r)) = -1)
  /\ (snd (sweep env number r) = 5 \/ snd (sweep env number r) = 8)
  /\ movementSpeed (track r) <= snd (sweep env number r).
Proof.
  intros [Hd Hs]. unfold sweep, boundSweep.
  destruct (number =? 0).
  - split_ifs; cbn [fst snd]; repeat split; auto; lia.
  - destruct (number >=? 1); [| cbn [fst snd]; repeat split; auto; lia].
    destruct (rnd_track env <? 30);
      split_ifs; cbn [fst snd]; repeat split; auto; try lia;
      destruct Hd as [-> | ->]; vm_compute; auto.
Qed.

Lemma sweep_ok_processHead (env : PendingEnv) (r : Robot) :
  sweep_ok r ->
  sweep_ok (processHead env r)
  /\ movementSpeed (track r) <= movementSpeed (track (processHead env r)).
Proof.
  intros H. unfold processHead, drainHead.
  destruct (pendingHead (pend r)); [| split; [exact H | lia]].
  unfold applyHead.
  destruct (negb _ && _)%bool; [| split; [exact H | cbn; lia]].
  destruct (negb (_ =? -1)); [split; [exact H | cbn; lia] |].
  destruct (negb (_ =? -1)); [| split; [exact H | cbn; lia]].
  unfold personCountControl.
  destruct (_ >? 2000); [| split; [exact H | cbn; lia]].
  match goal with
  | |- context [sweep ?e ?n ?x] =>
      destruct (sweep_keeps e n x H) as (A & B & C)
  end.
  unfold sweep_ok. fields. cbn [track set_pend] in C. repeat split; assumption.
Qed.

Lemma sweep_ok_serve (e : Event) (r : Robot) :
  sweep_ok r /\ 5 <= movementSpeed (track r) ->
  sweep_ok (serve e r)
  /\ movementSpeed (track r) <= movementSpeed (track (serve e r)).
Proof.
  intros [H _].
  assert (K : forall f : Robot -> Robot,
             (forall x, track (f x) = track x) ->
             forall x, sweep_ok x ->
                       sweep_ok (f x)
                       /\ movementSpeed (track x) <= movementSpeed (track (f x))).
  { intros f Hf x Hx. unfold sweep_ok. rewrite Hf. split; [exact Hx | lia]. }
  destruct e as [q | env]; cbn [serve].
  - apply (K (fun x => snd (answer q x))); [| exact H].
    intros x. apply answer_keeps.
  - unfold loop, processPendingRequests.
    assert (H1 : track (processReset (pendingEnv env) r) = track r).
    { unfold processReset, acknowledgeReset, executeReset. split_ifs; reflexivity. }
    assert (H2 : track (processEmotion (pendingEnv env) (processReset (pendingEnv env) r))
                 = track r).
    { rewrite <- H1. unfold processEmotion, drainEmotion.
      destruct (pendingEmotion _); [| reflexivity].
      unfold applyEmotion, emotionPose. split_ifs; reflexivity. }
    assert (Hok2 : sweep_ok (processEmotion (pendingEnv env)
                               (processReset (pendingEnv env) r)))
      by (unfold sweep_ok; rewrite H2; exact H).
    destruct (sweep_ok_processHead (pendingEnv env) _ Hok2) as [Hok3 Hle].
    rewrite H2 in Hle.
    assert (H4 : forall x,
               track (emotionTimeout (now env)
                        (updateEyeBlinking (t_blink env) (rnd_blink env)
                           (updateServoPositions (t_servo env) x))) = track x).
    { intros x. unfold emotionTimeout, updateEyeBlinking.
      split_ifs; fields; rewrite updateServoPositions_eq; reflexivity. }
    unfold sweep_ok. rewrite H4. split; [exact Hok3 | exact Hle].
Qed.

Lemma sweep_ok_run (es : list Event) :
  forall r, sweep_ok r ->
            sweep_ok (run es r)
            /\ movementSpeed (track r) <= movementSpeed (track (run es r)).
Proof.
  induction es as [| e es IH]; intros r H.
  - cbn. split; [exact H | lia].
  - change (run (e :: es) r) with (run es (serve e r)).
    assert (H5 : 5 <= movementSpeed (track r)) by (destruct H as [_ [-> | ->]]; lia).
    destruct (sweep_ok_serve e r (conj H H5)) as [H1 H2].
    destruct (IH _ H1) as [H3 H4]. split; [exact H3 | lia].
Qed.

(** X4: along every run of the controller from setup, the direction of the
    person count sweep is 1 or -1 and its speed is 5 or 8 degrees; the speed
    never goes down along a run, so once a request with people has raised it
    to 8 the sweep for nobody moves by 8 degrees too. *)
Theorem X4_sweep_direction_and_speed (now rnd : Z) (es es' : list Event) :
  (currentDirection (track (run es (setup now rnd))) = 1
   \/ currentDirection (track (run es (setup now rnd))) = -1)
  /\ (movementSpeed (track (run es (setup now rnd))) = 5
      \/ movementSpeed (track (run es (setup now rnd))) = 8)
  /\ movementSpeed (track (run es (setup now rnd)))
     <= movementSpeed (track (run es' (run es (setup now rnd)))).
Proof.
  assert (H0 : sweep_ok (setup now rnd)) by (split; left; reflexivity).
  destruct (sweep_ok_run es _ H0) as [[Hd Hs] _].
  destruct (sweep_ok_run es' _ (conj Hd Hs)) as [_ Hle].
  repeat split; assumption.
Qed.

Lemma set_pend_same (r : Robot) : set_pend (pend r) r = r.
Proof. destruct r; reflexivity. Qed.

(** X5: a request served by a handler changes nothing but the pending request
    variables (the servo states, the angles written, the emotion variables,
    the blinking and the sweep are untouched, and so are resetAcknowledged
    and resetStartTime); every request is answered 200 or 400, and one
    answered 400 (a body that does not parse, a missing member) changes
    nothing at all. *)
Theorem X5_requests_write_only_the_slots (q : Request) (r : Robot) :
  snd (answer q r) = set_pend (pend (snd (answer q r))) r
  /\ resetAcknowledged (pend (snd (answer q r))) = resetAcknowledged (pend r)
  /\ resetStartTime (pend (snd (answer q r))) = resetStartTime (pend r)
  /\ (code (fst (answer q r)) = 200
      \/ (code (fst (answer q r)) = 400 /\ snd (answer q r) = r)).
Proof.
  destruct q as [d | d | d |]; cbn [answer].
  - unfold onReceiveHandler. destruct d as [c | doc]; cbn [fst snd code].
    + rewrite set_pend_same. repeat split. right. split; reflexivity.
    + destruct (negb _); cbn [fst snd code].
      * rewrite set_pend_same. repeat split. right. split; reflexivity.
      * repeat split. left. reflexivity.
  - unfold onHeadHandler. destruct d as [c | doc]; cbn [fst snd code].
    + rewrite set_pend_same. repeat split. right. split; reflexivity.
    + destruct (containsKey doc "number"); cbn [fst snd code];
        [repeat split; left; reflexivity |].
      destruct (containsKey doc "angle"); cbn [fst snd code];
        [repeat split; left; reflexivity |].
      rewrite set_pend_same. repeat split. right. split; reflexivity.
  - unfold onHeadPositionHandler. destruct d as [c | doc]; cbn [fst snd code].
    + rewrite set_pend_same. repeat split. right. split; reflexivity.
    + destruct (_ && _)%bool; cbn [fst snd code].
      * destruct (_ && _)%bool; cbn [fst snd code].
        -- repeat split. left. reflexivity.
        -- rewrite set_pend_same. repeat split. left. reflexivity.
      * rewrite set_pend_same. repeat split. right. split; reflexivity.
  - cbn. repeat split. left. reflexivity.
Qed.

Lemma moveServoSafely_idem (s : ServoState) (a : Z) :
  moveServoSafely (moveServoSafely s a) a = moveServoSafely s a.
Proof.
  unfold moveServoSafely at 2 3.
  destruct (Arduino.abs _ >? 2) eqn:E.
  - unfold moveServoSafely. cbn [targetPos minPos maxPos].
    rewrite Z.sub_diag. reflexivity.
  - unfold moveServoSafely. rewrite E. reflexivity.
Qed.

(** X6: an emotion that is posted and processed a second time leaves the
    three servo states exactly as the first time left them (the second
    request for the same pose is within the deadband of the target); only
    the start of emotion mode is taken anew.  A second moveServoSafely for
    the same angle changes nothing. *)
Theorem X6_same_emotion_twice
  (env1 env2 : PendingEnv) (sentiment : string) (r : Robot)
  (s : ServoState) (a : Z) :
  processEmotion env2 (postEmotion sentiment
                         (processEmotion env1 (postEmotion sentiment r)))
  = set_emo (mkEmotionVars sentiment sentiment true false (t_emotion env2))
            (processEmotion env1 (postEmotion sentiment r))
  /\ moveServoSafely (moveServoSafely s a) a = moveServoSafely s a.
Proof.
  split; [| apply moveServoSafely_idem].
  unfold processEmotion, drainEmotion, postEmotion.
  cbn [pend set_pend pendingEmotion pendingEmotionValue pendingHead pendingHeadNumber
       pendingHeadAngle pendingReset resetAcknowledged resetStartTime].
  unfold applyEmotion, emotionPose.
  split_ifs; unfold poseLRH;
    cbn [pend emo set_pend set_emo headState leftArmState rightArmState
         set_headState set_leftArmState set_rightArmState blinkv track
         headServo leftArmServo rightArmServo
         pendingHead pendingHeadNumber pendingHeadAngle pendingReset
         resetAcknowledged resetStartTime];
    rewrite !moveServoSafely_idem; reflexivity.
Qed.

Lemma processReset_counting (env : PendingEnv) (r : Robot) :
  resetAcknowledged (pend r) = true ->
  counting (resetStartTime (pend r)) env ->
  processReset env r = r.
Proof.
  unfold counting. intros Ha Hc. unfold processReset, acknowledgeReset.
  rewrite Ha, andb_false_r. cbn [snd]. rewrite Ha.
  destruct (_ >=? 5000) eqn:E; [| reflexivity].
  destruct (Z.geb_spec (Arduino.ulong_of (t_resetElapsed env - resetStartTime (pend r)))
              5000); [lia | discriminate].
Qed.

Lemma resetPasses_counting (envs : list PendingEnv) (r : Robot) :
  resetAcknowledged (pend r) = true ->
  Forall (counting (resetStartTime (pend r))) envs ->
  resetPasses envs r = r.
Proof.
  intros Ha Hall. induction Hall as [| env envs Hc _ IH]; [reflexivity |].
  unfold resetPasses in *. cbn [fold_left].
  rewrite processReset_counting by assumption. exact IH.
Qed.

(** X7: a reset that is pending with no countdown running is acknowledged by
    the next pass, and as long as the passes find less than 5000 ms gone
    since that acknowledgement nothing but the three reset variables has
    changed: in particular the emotion and the poses are as before, and the
    status reports reset_pending.  The first pass that finds 5000 ms or more
    gone ends the countdown, sets emotion and sentiment to happy, turns
    emotion mode off and head tracking on, requests the default pose and
    re-arms the blinking. *)
Theorem X7_reset_waits_five_seconds
  (env0 : PendingEnv) (envs : list PendingEnv) (env1 : PendingEnv)
  (senv : StatusEnv) (r : Robot) :
  pendingReset (pend r) = true ->
  resetAcknowledged (pend r) = false ->
  Forall (counting (t_resetAck env0)) (env0 :: envs) ->
  5000 <= Arduino.ulong_of (t_resetElapsed env1 - t_resetAck env0) ->
  resetPasses (env0 :: envs) r
  = set_pend (mkPendingVars (pendingEmotion (pend r)) (pendingEmotionValue (pend r))
                            (pendingHead (pend r)) (pendingHeadNumber (pend r))
                            (pendingHeadAngle (pend r))
                            false true (t_resetAck env0)) r
  /\ reported "reset_pending"
       (body (onStatusHandler senv (resetPasses (env0 :: envs) r)))
     = Some (JBool true)
  /\ emo (processReset env1 (resetPasses (env0 :: envs) r))
     = mkEmotionVars "happy" "happy" false true (emotion_mode_start (emo r))
  /\ resetAcknowledged (pend (processReset env1 (resetPasses (env0 :: envs) r))) = false
  /\ headState (processReset env1 (resetPasses (env0 :: envs) r))
     = moveServoSafely (headState r) 90
  /\ leftArmState (processReset env1 (resetPasses (env0 :: envs) r))
     = moveServoSafely (leftArmState r) 180
  /\ rightArmState (processReset env1 (resetPasses (env0 :: envs) r))
     = moveServoSafely (rightArmState r) 0
  /\ blinkv (processReset env1 (resetPasses (env0 :: envs) r))
     = mkBlinkVars (t_resetBlink env1) (rnd_resetBlink env1) false
                   (blinkStartTime (blinkv r)) true.
Proof.
  intros Hp Ha Hall Hgo.
  assert (E : resetPasses (env0 :: envs) r
              = set_pend (mkPendingVars (pendingEmotion (pend r))
                            (pendingEmotionValue (pend r))
                            (pendingHead (pend r)) (pendingHeadNumber (pend r))
                            (pendingHeadAngle (pend r))
                            false true (t_resetAck env0)) r).
  { inversion Hall as [| x l Hc Hrest]; subst.
    unfold resetPasses. cbn [fold_left].
    assert (E0 : processReset env0 r
                 = set_pend (mkPendingVars (pendingEmotion (pend r))
                               (pendingEmotionValue (pend r))
                               (pendingHead (pend r)) (pendingHeadNumber (pend r))
                               (pendingHeadAngle (pend r))
                               false true (t_resetAck env0)) r).
    { unfold processReset, acknowledgeReset. rewrite Hp, Ha. cbn [andb negb snd].
      cbn [pend set_pend resetAcknowledged resetStartTime].
      unfold counting in Hc.
      destruct (_ >=? 5000) eqn:G; [| reflexivity].
      destruct (Z.geb_spec (Arduino.ulong_of (t_resetElapsed env0 - t_resetAck env0))
                  5000); [lia | discriminate]. }
    rewrite E0. apply (resetPasses_counting envs); [reflexivity | exact Hrest]. }
  rewrite E. split; [reflexivity |]. split; [reflexivity |].
  unfold processReset, acknowledgeReset.
  cbn [pend set_pend pendingReset resetAcknowledged resetStartTime andb negb snd].
  destruct (_ >=? 5000) eqn:G.
  - unfold executeReset, poseHLR. cbn. repeat split; reflexivity.
  - destruct (Z.geb_spec (Arduino.ulong_of (t_resetElapsed env1 - t_resetAck env0))
                5000); [discriminate | lia].
Qed.

Lemma X7_reset_waits_five_seconds_witness :
  pendingReset (pend (snd (onResetHandler (setup 0 3000)))) = true
  /\ Forall (counting 100) [mkPendingEnv 100 100 100 3000 100 100 50 0;
                            mkPendingEnv 2000 2000 2000 3000 2000 2000 50 0;
                            mkPendingEnv 5000 5000 5000 3000 5000 5000 50 0]
  /\ emotion_mode_active
       (emo (processReset (mkPendingEnv 5100 5100 5100 3000 5100 5100 50 0)
               (resetPasses [mkPendingEnv 100 100 100 3000 100 100 50 0;
                             mkPendingEnv 2000 2000 2000 3000 2000 2000 50 0;
                             mkPendingEnv 5000 5000 5000 3000 5000 5000 50 0]
                            (snd (onResetHandler (setup 0 3000)))))) = false.
Proof.
  assert (Hall : Forall (counting 100)
                   [mkPendingEnv 100 100 100 3000 100 100 50 0;
                    mkPendingEnv 2000 2000 2000 3000 2000 2000 50 0;
                    mkPendingEnv 5000 5000 5000 3000 5000 5000 50 0]).
  { repeat constructor; unfold counting; vm_compute; reflexivity. }
  assert (Hgo : 5000 <= Arduino.ulong_of (5100 - 100)) by (vm_compute; discriminate).
  pose proof (X7_reset_waits_five_seconds
                (mkPendingEnv 100 100 100 3000 100 100 50 0)
                [mkPendingEnv 2000 2000 2000 3000 2000 2000 50 0;
                 mkPendingEnv 5000 5000 5000 3000 5000 5000 50 0]
                (mkPendingEnv 5100 5100 5100 3000 5100 5100 50 0)
                (mkStatusEnv true true true true 200000 1000)
                (snd (onResetHandler (setup 0 3000)))
                eq_refl eq_refl Hall Hgo) as (_ & _ & H & _).
  split; [reflexivity |]. split; [exact Hall |].
  rewrite H. reflexivity.
Defined.

(** X8: two more bodies collide with the sentinel -1 of the head slot.  A
    person count of -1 is answered 200 head_number_queued, and a head
    position with frame_width 0 (for which map gives -1 for every x) is
    answered 200 head_position_queued with the angle -1; in both cases the
    slot holds (-1, -1) and the pass over the head slot empties it without
    doing anything else. *)
Theorem X8_number_minus_one_and_zero_width_are_dropped
  (r : Robot) (env : PendingEnv) (x : Z) :
  tracking r = true ->
  (code (fst (onHeadHandler (Document (numberBody (-1))) r)) = 200
   /\ queuedHead (fst (onHeadHandler (Document (numberBody (-1))) r)) = Some (-1, -1)
   /\ processHead env (snd (onHeadHandler (Document (numberBody (-1))) r))
      = snd (drainHead (snd (onHeadHandler (Document (numberBody (-1))) r)))
   /\ headState (processHead env (snd (onHeadHandler (Document (numberBody (-1))) r)))
      = headState r)
  /\ (code (fst (onHeadPositionHandler (Document (positionBody x 0)) r)) = 200
      /\ queuedAngle x 0 r = Some (-1)
      /\ fst (drainHead (snd (onHeadPositionHandler (Document (positionBody x 0)) r)))
         = Some (-1, -1)
      /\ processHead env (snd (onHeadPositionHandler (Document (positionBody x 0)) r))
         = snd (drainHead (snd (onHeadPositionHandler (Document (positionBody x 0)) r)))
      /\ headState (processHead env
                      (snd (onHeadPositionHandler (Document (positionBody x 0)) r)))
         = headState r).
Proof.
  unfold tracking. intros Ht. split.
  - unfold onHeadHandler, numberBody.
    cbn [containsKey member String.eqb Ascii.eqb Bool.eqb as_int asInt fst snd code].
    split; [reflexivity |]. split; [reflexivity |].
    unfold processHead, drainHead, postHead, applyHead.
    cbn [pend set_pend pendingHead pendingHeadNumber pendingHeadAngle fst snd emo].
    rewrite Ht. cbn. split; reflexivity.
  - unfold queuedAngle, onHeadPositionHandler, positionBody.
    cbn [containsKey member String.eqb Ascii.eqb Bool.eqb as_int asInt andb].
    rewrite Ht. cbn [fst snd code].
    assert (Em : Arduino.map x 0 0 (minPos (headState r)) (maxPos (headState r)) = -1)
      by reflexivity.
    rewrite Em.
    split; [reflexivity |]. split; [reflexivity |]. split; [reflexivity |].
    unfold processHead, drainHead, postHead, applyHead.
    cbn [pend set_pend pendingHead pendingHeadNumber pendingHeadAngle fst snd emo].
    rewrite Ht. cbn. split; reflexivity.
Qed.

Lemma X8_number_minus_one_and_zero_width_are_dropped_witness :
  tracking (setup 0 3000) = true
  /\ queuedAngle 320 0 (setup 0 3000) = Some (-1)
  /\ headState (processHead (pendingEnv (quiet 100))
                  (snd (onHeadPositionHandler (Document (positionBody 320 0))
                                              (setup 0 3000))))
     = headState0.
Proof.
  pose proof (X8_number_minus_one_and_zero_width_are_dropped
                (setup 0 3000) (pendingEnv (quiet 100)) 320 eq_refl)
    as (_ & _ & H1 & _ & _ & H2).
  split; [reflexivity |]. split; [exact H1 | exact H2].
Defined.

(** X9: with the head gate open, a head request with an angle other than -1
    is never refused for its value, and the next pass of
    processPendingRequests empties the slot and leaves the position of the
    head alone and its target within 45 and 135.  With no emotion pending,
    the pass constrains the angle to the limits of the head axis and makes
    it the target when it is more than 2 degrees from the target that the
    reset block of the pass left, else leaves that target, and the arms are
    as the reset block left them; when the pass does not execute a reset,
    that is the target and the arms from before the pass.  With an emotion
    pending, the emotion block of the pass enters emotion mode first and the
    command is dropped: the pass leaves the state that it leaves without the
    command, the slot empty. *)
Theorem X9_direct_angle_is_clamped
  (r : Robot) (env : PendingEnv) (angle : Z) :
  poses_ok r -> tracking r = true -> angle <> -1 ->
  code (fst (onHeadHandler (Document (angleBody angle)) r)) = 200
  /\ (if pendingEmotion (pend r)
      then
        processPendingRequests env (snd (onHeadHandler (Document (angleBody angle)) r))
        = snd (drainHead (postHead (-1) angle (processPendingRequests env r)))
      else
        headState (processPendingRequests env
                     (snd (onHeadHandler (Document (angleBody angle)) r)))
        = moveServoSafely (headState (processReset env r))
                          (Arduino.constrain angle 45 135)
        /\ targetPos
             (headState (processPendingRequests env
                           (snd (onHeadHandler (Document (angleBody angle)) r))))
           = requested 2 (targetPos (headState (processReset env r)))
                       (Arduino.constrain angle 45 135)
        /\ leftArmState (processPendingRequests env
                           (snd (onHeadHandler (Document (angleBody angle)) r)))
           = leftArmState (processReset env r)
        /\ rightArmState (processPendingRequests env
                            (snd (onHeadHandler (Document (angleBody angle)) r)))
           = rightArmState (processReset env r)
        /\ (resetDue env r = false ->
            targetPos
              (headState (processPendingRequests env
                            (snd (onHeadHandler (Document (angleBody angle)) r))))
            = requested 2 (targetPos (headState r)) (Arduino.constrain angle 45 135)
            /\ leftArmState (processPendingRequests env
                               (snd (onHeadHandler (Document (angleBody angle)) r)))
               = leftArmState r
            /\ rightArmState (processPendingRequests env
                                (snd (onHeadHandler (Document (angleBody angle)) r)))
               = rightArmState r))
  /\ 45 <= targetPos
             (headState (processPendingRequests env
                           (snd (onHeadHandler (Document (angleBody angle)) r))))
        <= 135
  /\ currentPos
       (headState (processPendingRequests env
                     (snd (onHeadHandler (Document (angleBody angle)) r))))
     = currentPos (headState r)
  /\ pendingHead
       (pend (processPendingRequests env
                (snd (onHeadHandler (Document (angleBody angle)) r)))) = false.
Proof.
  intros Hok Ht Ha.
  assert (Eq : snd (onHeadHandler (Document (angleBody angle)) r)
               = postHead (-1) angle r) by reflexivity.
  split; [reflexivity |].
  assert (Hq : poses_ok (snd (onHeadHandler (Document (angleBody angle)) r)))
    by (apply (poses_ok_serve (Http (PostHead (Document (angleBody angle))))); exact Hok).
  assert (Hp : poses_ok (processPendingRequests env
                           (snd (onHeadHandler (Document (angleBody angle)) r)))).
  { unfold processPendingRequests.
    apply poses_ok_processHead, poses_ok_processEmotion, poses_ok_processReset, Hq. }
  assert (Hs : same_positions r
                 (processPendingRequests env
                    (snd (onHeadHandler (Document (angleBody angle)) r)))).
  { unfold processPendingRequests.
    eapply same_positions_trans;
      [apply (same_positions_answer (PostHead (Document (angleBody angle)))) |].
    cbn [answer].
    eapply same_positions_trans; [apply (same_positions_processReset env) |].
    eapply same_positions_trans; [apply (same_positions_processEmotion env) |].
    apply same_positions_processHead. }
  split.
  - rewrite Eq. destruct (pend_processReset env r) as (Ep & _).
    destruct (pendingEmotion (pend r)) eqn:E.
    + apply pass_postHead_gated.
      unfold processEmotion, drainEmotion. rewrite Ep.
      rewrite emo_applyEmotion. reflexivity.
    + rewrite pass_postHead.
      rewrite (processEmotion_idle env (processReset env r)) by exact Ep.
      pose proof (poses_ok_processReset env r Hok) as (Hh & _).
      pose proof Hh as (Emin & Emax & _).
      assert (Eg : tracking (processReset env r) = true).
      { unfold tracking. rewrite emo_processReset.
        destruct (resetDue env r); [reflexivity | exact Ht]. }
      assert (Ex : applyHead env (-1) angle
                     (snd (drainHead (postHead (-1) angle (processReset env r))))
                   = set_headState
                       (moveServoSafely (headState (processReset env r))
                                        (Arduino.constrain angle 45 135))
                       (snd (drainHead (postHead (-1) angle (processReset env r))))).
      { unfold tracking in Eg. unfold applyHead.
        destruct (emptied_frame (-1) angle (processReset env r))
          as (F1 & _ & _ & _ & F5 & _).
        rewrite F5, Eg, F1, Emin, Emax.
        destruct (angle =? -1) eqn:G; [apply Z.eqb_eq in G; contradiction |].
        reflexivity. }
      rewrite Ex. cbn [headState leftArmState rightArmState set_headState].
      destruct (emptied_frame (-1) angle (processReset env r))
        as (_ & F2 & F3 & _).
      assert (Hc : 45 <= Arduino.constrain angle 45 135 <= 135)
        by (apply constrain_within; lia).
      split; [reflexivity |].
      split; [apply (moveServoSafely_requested 45 135); try lia; assumption |].
      split; [exact F2 |]. split; [exact F3 |].
      intros Hd. rewrite F2, F3.
      assert (Er : processReset env r = snd (acknowledgeReset (t_resetAck env) r))
        by (rewrite processReset_due, Hd; reflexivity).
      assert (Ef : headState (processReset env r) = headState r
                   /\ leftArmState (processReset env r) = leftArmState r
                   /\ rightArmState (processReset env r) = rightArmState r).
      { rewrite Er. unfold acknowledgeReset. destruct (_ && _)%bool;
          repeat split; reflexivity. }
      destruct Ef as (G1 & G2 & G3). rewrite G2, G3.
      split; [| split; reflexivity].
      rewrite <- G1. apply (moveServoSafely_requested 45 135); try lia; assumption.
  - destruct Hp as ((Emin & Emax & _ & Hr) & _).
    destruct Hs as (_ & _ & _ & Hc & _).
    rewrite Emin, Emax in Hr.
    split; [exact Hr |]. split; [exact Hc |].
    unfold processPendingRequests. apply pend_processHead.
Qed.

(** From setup a request for 400 degrees makes 135 the target.  With the
    emotion sad pending as well, the pass enters emotion mode and the head
    is requested to 70, the arms to 90: the request for 400 degrees is
    dropped. *)
Lemma X9_direct_angle_is_clamped_witness :
  tracking (setup 0 3000) = true
  /\ targetPos (headState (processPendingRequests (pendingEnv (quiet 100))
                             (snd (onHeadHandler (Document (angleBody 400))
                                                 (setup 0 3000)))))
     = 135
  /\ tracking (postEmotion "sad" (setup 0 3000)) = true
  /\ targetPos (headState (processPendingRequests (pendingEnv (quiet 100))
                             (snd (onHeadHandler (Document (angleBody 400))
                                                 (postEmotion "sad" (setup 0 3000))))))
     = 70
  /\ targetPos (leftArmState
                  (processPendingRequests (pendingEnv (quiet 100))
                     (snd (onHeadHandler (Document (angleBody 400))
                                         (postEmotion "sad" (setup 0 3000))))))
     = 90.
Proof.
  assert (Hok : poses_ok (setup 0 3000)).
  { unfold poses_ok, axis_in, within. vm_compute.
    repeat split; reflexivity || discriminate. }
  assert (Hok' : poses_ok (postEmotion "sad" (setup 0 3000))).
  { unfold poses_ok, axis_in, within. vm_compute.
    repeat split; reflexivity || discriminate. }
  assert (Ha : 400 <> -1) by discriminate.
  pose proof (X9_direct_angle_is_clamped (setup 0 3000) (pendingEnv (quiet 100)) 400
                Hok eq_refl Ha) as (_ & H & _).
  pose proof (X9_direct_angle_is_clamped (postEmotion "sad" (setup 0 3000))
                (pendingEnv (quiet 100)) 400 Hok' eq_refl Ha) as (_ & H' & _).
  cbn [pendingEmotion pend postEmotion set_pend setup] in H, H'.
  destruct H as (_ & H & _).
  split; [reflexivity |]. split; [rewrite H; vm_compute; reflexivity |].
  split; [reflexivity |]. rewrite H'. split; vm_compute; reflexivity.
Defined.

Lemma emo_beforeTimeout (env : LoopEnv) (r : Robot) :
  emo (beforeTimeout env r) = emo (processPendingRequests (pendingEnv env) r).
Proof.
  unfold beforeTimeout.
  assert (B : forall t rnd x, emo (updateEyeBlinking t rnd x) = emo x).
  { intros t rnd x. unfold updateEyeBlinking. split_ifs; reflexivity. }
  rewrite B, updateServoPositions_eq. reflexivity.
Qed.

(** X10: loop reads its clock before the pass over the mailboxes, and the
    pass reads the clock again for the start of emotion mode.  When the two
    readings are the same, an emotion drained in the iteration leaves the
    iteration in emotion mode.  When the clock has moved on between the two
    readings, the unsigned difference now - emotion_mode_start wraps around
    and the timeout check of the same iteration ends emotion mode again: the
    iteration leaves with the emotion happy and emotion mode off. *)
Theorem X10_timeout_in_the_iteration_that_starts_emotion_mode
  (env env' : LoopEnv) (r : Robot) :
  pendingEmotion (pend r) = true ->
  t_emotion (pendingEnv env) = now env ->
  now env' < t_emotion (pendingEnv env') <= now env' + 60000 ->
  emo (loop env r)
  = mkEmotionVars (pendingEmotionValue (pend r)) (pendingEmotionValue (pend r))
                  true false (now env)
  /\ emo (loop env' r)
     = mkEmotionVars "happy" "happy" false true (t_emotion (pendingEnv env')).
Proof.
  intros Hp Hsame Hlater. split.
  - rewrite loop_beforeTimeout. unfold emotionTimeout.
    rewrite emo_beforeTimeout, (emo_processPendingRequests _ _ Hp), Hsame.
    cbn [emotion_mode_active emotion_mode_start andb].
    rewrite Z.sub_diag. cbn.
    rewrite emo_beforeTimeout, (emo_processPendingRequests _ _ Hp), Hsame.
    reflexivity.
  - rewrite loop_beforeTimeout.
    assert (E : emo (beforeTimeout env' r)
                = mkEmotionVars (pendingEmotionValue (pend r))
                                (pendingEmotionValue (pend r))
                                true false (t_emotion (pendingEnv env')))
      by (rewrite emo_beforeTimeout; apply emo_processPendingRequests; exact Hp).
    assert (T : timed_out (now env') (beforeTimeout env' r)).
    { apply timed_out_when_start_is_later. rewrite E. exact Hlater. }
    unfold emotionTimeout. unfold timed_out in T. rewrite T, E.
    cbn [emotion_mode_active andb emotion_mode_start]. reflexivity.
Qed.

Lemma X10_timeout_in_the_iteration_that_starts_emotion_mode_witness :
  pendingEmotion (pend (postEmotion "angry" (setup 0 3000))) = true
  /\ emotion_mode_active (emo (loop (quiet 100) (postEmotion "angry" (setup 0 3000))))
     = true
  /\ emotion_mode_active
       (emo (loop (mkLoopEnv 100 (mkPendingEnv 100 100 100 3000 101 101 50 0)
                             101 101 3000)
                  (postEmotion "angry" (setup 0 3000)))) = false.
Proof.
  assert (H : 100 < 101 <= 100 + 60000) by lia.
  pose proof (X10_timeout_in_the_iteration_that_starts_emotion_mode
                (quiet 100)
                (mkLoopEnv 100 (mkPendingEnv 100 100 100 3000 101 101 50 0) 101 101 3000)
                (postEmotion "angry" (setup 0 3000)) eq_refl eq_refl H) as [H1 H2].
  split; [reflexivity |]. split; [rewrite H1 | rewrite H2]; reflexivity.
Defined.

(** X11: an emotion and a reset in one pass.  In the controller the reset
    block comes first: when the countdown of a reset ends in a pass in which
    an emotion is pending, the reset is executed and the emotion is applied
    on top of it, so the pass ends in emotion mode with that emotion.  In
    the variant without the LED strip the reset block comes last: a pending
    reset overrides an emotion drained in the same pass, and the pass ends
    with the emotion happy, emotion mode off and both slots empty. *)
Theorem X11_emotion_and_reset_in_one_pass
  (env : PendingEnv) (r r' : Robot) :
  pendingEmotion (pend r) = true ->
  resetAcknowledged (pend r) = true ->
  5000 <= Arduino.ulong_of (t_resetElapsed env - resetStartTime (pend r)) ->
  pendingReset (pend r') = true ->
  (emo (processPendingRequests env r)
   = mkEmotionVars (pendingEmotionValue (pend r)) (pendingEmotionValue (pend r))
                   true false (t_emotion env)
   /\ resetAcknowledged (pend (processPendingRequests env r)) = false
   /\ blinkv (processPendingRequests env r)
      = mkBlinkVars (t_resetBlink env) (rnd_resetBlink env) false
                    (blinkStartTime (blinkv r)) true)
  /\ (current_emotion (emo (Plain.processPendingRequests env r')) = "happy"%string
      /\ current_sentiment (emo (Plain.processPendingRequests env r')) = "happy"%string
      /\ emotion_mode_active (emo (Plain.processPendingRequests env r')) = false
      /\ head_tracking_enabled (emo (Plain.processPendingRequests env r')) = true
      /\ pendingReset (pend (Plain.processPendingRequests env r')) = false
      /\ pendingEmotion (pend (Plain.processPendingRequests env r')) = false).
Proof.
  intros Hp Ha Hgo Hr. split.
  - split; [apply emo_processPendingRequests; exact Hp |].
    assert (E : processReset env r = executeReset env r).
    { unfold processReset, acknowledgeReset. rewrite Ha, andb_false_r. cbn [snd].
      rewrite Ha. destruct (_ >=? 5000) eqn:G; [reflexivity |].
      destruct (Z.geb_spec (Arduino.ulong_of (t_resetElapsed env
                                               - resetStartTime (pend r))) 5000);
        [discriminate | lia]. }
    unfold processPendingRequests. rewrite E.
    assert (K : forall x,
               resetAcknowledged (pend (processHead env (processEmotion env x)))
               = resetAcknowledged (pend x)
               /\ blinkv (processHead env (processEmotion env x)) = blinkv x).
    { intros x. unfold processHead, drainHead, processEmotion, drainEmotion.
      unfold applyHead, personCountControl, applyEmotion, emotionPose.
      split_ifs; split; reflexivity. }
    destruct (K (executeReset env r)) as [K1 K2]. rewrite K1, K2.
    split; reflexivity.
  - unfold Plain.processPendingRequests.
    assert (K : pendingReset (pend (processHead env (processEmotion env r'))) = true
                /\ pendingEmotion (pend (processHead env (processEmotion env r')))
                   = false).
    { destruct (pend_processHead env (processEmotion env r')) as [_ E2].
      rewrite E2. split; [| apply pend_processEmotion].
      rewrite <- Hr.
      unfold processHead, drainHead, processEmotion, drainEmotion.
      unfold applyHead, personCountControl, applyEmotion, emotionPose.
      split_ifs; reflexivity. }
    destruct K as [K1 K2]. unfold Plain.processReset. rewrite K1.
    cbn. rewrite K2. repeat split; reflexivity.
Qed.

Lemma X11_emotion_and_reset_in_one_pass_witness :
  pendingEmotion
    (pend (postEmotion "sad"
             (snd (acknowledgeReset 100 (postReset (setup 0 3000)))))) = true
  /\ emotion_mode_active
       (emo (processPendingRequests (pendingEnv (quiet 5200))
               (postEmotion "sad"
                  (snd (acknowledgeReset 100 (postReset (setup 0 3000)))))))
     = true
  /\ emotion_mode_active
       (emo (Plain.processPendingRequests (pendingEnv (quiet 5200))
               (postEmotion "sad" (postReset (setup 0 3000))))) = false.
Proof.
  assert (Hgo : 5000 <= Arduino.ulong_of (5200 - 100)) by (vm_compute; discriminate).
  pose proof (X11_emotion_and_reset_in_one_pass
                (pendingEnv (quiet 5200))
                (postEmotion "sad" (snd (acknowledgeReset 100 (postReset (setup 0 3000)))))
                (postEmotion "sad" (postReset (setup 0 3000)))
                eq_refl eq_refl Hgo eq_refl) as [(H1 & _) (_ & _ & H2 & _)].
  split; [reflexivity |]. split; [rewrite H1; reflexivity | exact H2].
Defined.

End ControllerRuns.

(** ** The simplified sketch along its runs *)

Section SketchRuns.

Ltac split_ifs :=
  repeat match goal with
         | |- context [if ?c then _ else _] => destruct c
         end.

Lemma Aug2a_move_in (lo hi : Z) (s : Aug2a.ServoState) (a : Z) :
  lo <= hi -> Aug2a.axis_in lo hi s ->
  Aug2a.axis_in lo hi (Aug2a.moveServoSafely s a)
  /\ Aug2a.currentPos (Aug2a.moveServoSafely s a) = Aug2a.currentPos s.
Proof.
  intros Hle (Emin & Emax & Hc & Ht). unfold Aug2a.moveServoSafely, Aug2a.axis_in.
  destruct (Arduino.abs _ >? 3); cbn; [| repeat split; assumption || lia].
  rewrite Emin, Emax. pose proof (constrain_within a lo hi Hle).
  repeat split; assumption || lia.
Qed.

Lemma Aug2a_move_pos (s : Aug2a.ServoState) (a : Z) :
  Aug2a.currentPos (Aug2a.moveServoSafely s a) = Aug2a.currentPos s.
Proof.
  unfold Aug2a.moveServoSafely. destruct (Arduino.abs _ >? 3); reflexivity.
Qed.

Lemma Aug2a_updateArmPose_ok (r : Aug2a.Robot) :
  Aug2a.axis_in 0 180 (Aug2a.leftArmState r) ->
  Aug2a.axis_in 0 180 (Aug2a.rightArmState r) ->
  Aug2a.axis_in 0 180 (Aug2a.leftArmState (Aug2a.updateArmPose r))
  /\ Aug2a.axis_in 0 180 (Aug2a.rightArmState (Aug2a.updateArmPose r))
  /\ Aug2a.currentPos (Aug2a.leftArmState (Aug2a.updateArmPose r))
     = Aug2a.currentPos (Aug2a.leftArmState r)
  /\ Aug2a.currentPos (Aug2a.rightArmState (Aug2a.updateArmPose r))
     = Aug2a.currentPos (Aug2a.rightArmState r)
  /\ Aug2a.server_busy (Aug2a.updateArmPose r) = Aug2a.server_busy r.
Proof.
  intros L R. unfold Aug2a.updateArmPose, Aug2a.armPose.
  split_ifs; cbn [Aug2a.leftArmState Aug2a.rightArmState Aug2a.set_leftArmState
                  Aug2a.set_rightArmState Aug2a.server_busy];
    (split; [apply Aug2a_move_in; [lia | assumption] |]);
    (split; [apply Aug2a_move_in; [lia | assumption] |]);
    (split; [apply Aug2a_move_pos |]);
    (split; [apply Aug2a_move_pos | reflexivity]).
Qed.

(** The arms at their pose and the head requested to [h], on any globals. *)
Lemma Aug2a_pose_then_head (h : Z) (r : Aug2a.Robot) :
  Aug2a.axis_in 60 120 (Aug2a.headState r) ->
  Aug2a.axis_in 0 180 (Aug2a.leftArmState r) ->
  Aug2a.axis_in 0 180 (Aug2a.rightArmState r) ->
  Aug2a.axis_in 60 120
    (Aug2a.headState
       (Aug2a.set_headState
          (Aug2a.moveServoSafely (Aug2a.headState (Aug2a.updateArmPose r)) h)
          (Aug2a.updateArmPose r)))
  /\ Aug2a.axis_in 0 180
       (Aug2a.leftArmState
          (Aug2a.set_headState
             (Aug2a.moveServoSafely (Aug2a.headState (Aug2a.updateArmPose r)) h)
             (Aug2a.updateArmPose r)))
  /\ Aug2a.axis_in 0 180
       (Aug2a.rightArmState
          (Aug2a.set_headState
             (Aug2a.moveServoSafely (Aug2a.headState (Aug2a.updateArmPose r)) h)
             (Aug2a.updateArmPose r)))
  /\ Aug2a.same_pos r
       (Aug2a.set_headState
          (Aug2a.moveServoSafely (Aug2a.headState (Aug2a.updateArmPose r)) h)
          (Aug2a.updateArmPose r))
  /\ Aug2a.server_busy
       (Aug2a.set_headState
          (Aug2a.moveServoSafely (Aug2a.headState (Aug2a.updateArmPose r)) h)
          (Aug2a.updateArmPose r)) = Aug2a.server_busy r
  /\ Aug2a.emotion_mode_active
       (Aug2a.set_headState
          (Aug2a.moveServoSafely (Aug2a.headState (Aug2a.updateArmPose r)) h)
          (Aug2a.updateArmPose r)) = Aug2a.emotion_mode_active r
  /\ Aug2a.head_tracking_enabled
       (Aug2a.set_headState
          (Aug2a.moveServoSafely (Aug2a.headState (Aug2a.updateArmPose r)) h)
          (Aug2a.updateArmPose r)) = Aug2a.head_tracking_enabled r
  /\ Aug2a.currentTask
       (Aug2a.set_headState
          (Aug2a.moveServoSafely (Aug2a.headState (Aug2a.updateArmPose r)) h)
          (Aug2a.updateArmPose r)) = Aug2a.currentTask r.
Proof.
  intros H L R.
  destruct (Aug2a_updateArmPose_frame r) as (_ & F2 & F3 & F4 & F5).
  destruct (Aug2a_updateArmPose_ok r L R) as (A1 & A2 & A3 & A4 & A5).
  revert F2 F3 F4 F5 A1 A2 A3 A4 A5. generalize (Aug2a.updateArmPose r).
  intros rd F2 F3 F4 F5 A1 A2 A3 A4 A5.
  unfold Aug2a.same_pos.
  cbn [Aug2a.headState Aug2a.leftArmState Aug2a.rightArmState Aug2a.set_headState
       Aug2a.server_busy Aug2a.emotion_mode_active Aug2a.head_tracking_enabled
       Aug2a.currentTask].
  rewrite F5.
  destruct (Aug2a_move_in 60 120 (Aug2a.headState r) h ltac:(lia) H) as [M1 M2].
  split; [exact M1 |]. split; [exact A1 |]. split; [exact A2 |].
  split; [split; [exact M2 | split; [exact A3 | exact A4]] |].
  split; [exact A5 |]. split; [exact F2 |]. split; [exact F3 | exact F4].
Qed.

Lemma robot_ok_processEmotionTask (t : Z) (r : Aug2a.Robot) :
  Aug2a.robot_ok r ->
  Aug2a.robot_ok (Aug2a.processEmotionTask t r)
  /\ Aug2a.same_pos r (Aug2a.processEmotionTask t r).
Proof.
  intros Hok. pose proof Hok as (H & L & R & B & T). unfold Aug2a.processEmotionTask.
  destruct (Aug2a.has_emotion_task (Aug2a.currentTask r));
    [| split; [exact Hok | unfold Aug2a.same_pos; auto]].
  cbv zeta.
  match goal with
  | |- context [Aug2a.updateArmPose ?x] =>
      destruct (Aug2a_pose_then_head 75 x H L R)
        as (P1 & P2 & P3 & P4 & P5 & P6 & P7 & _);
      revert P1 P2 P3 P4 P5 P6 P7;
      generalize (Aug2a.set_headState
                    (Aug2a.moveServoSafely (Aug2a.headState (Aug2a.updateArmPose x)) 75)
                    (Aug2a.updateArmPose x))
  end.
  intros re P1 P2 P3 P4 P5 P6 P7.
  cbn [Aug2a.server_busy Aug2a.emotion_mode_active Aug2a.head_tracking_enabled
       Aug2a.set_currentTask Aug2a.set_head_tracking_enabled
       Aug2a.set_emotion_mode_active Aug2a.set_current_emotion] in P5, P6, P7.
  unfold Aug2a.same_pos in P4.
  cbn [Aug2a.headState Aug2a.leftArmState Aug2a.rightArmState
       Aug2a.set_currentTask Aug2a.set_head_tracking_enabled
       Aug2a.set_emotion_mode_active Aug2a.set_current_emotion] in P4.
  split.
  - unfold Aug2a.robot_ok.
    cbn [Aug2a.headState Aug2a.leftArmState Aug2a.rightArmState Aug2a.set_currentTask
         Aug2a.server_busy Aug2a.emotion_mode_active Aug2a.head_tracking_enabled].
    rewrite P5, P6, P7.
    exact (conj P1 (conj P2 (conj P3 (conj B eq_refl)))).
  - unfold Aug2a.same_pos.
    cbn [Aug2a.headState Aug2a.leftArmState Aug2a.rightArmState Aug2a.set_currentTask].
    exact P4.
Qed.

Lemma robot_ok_processHeadTask (r : Aug2a.Robot) :
  Aug2a.robot_ok r ->
  Aug2a.robot_ok (Aug2a.processHeadTask r)
  /\ Aug2a.same_pos r (Aug2a.processHeadTask r).
Proof.
  intros Hok. pose proof Hok as (H & L & R & B & T). unfold Aug2a.processHeadTask.
  destruct (_ && _)%bool; [| split; [exact Hok | unfold Aug2a.same_pos; auto]].
  unfold Aug2a.robot_ok, Aug2a.same_pos.
  cbn [Aug2a.headState Aug2a.leftArmState Aug2a.rightArmState Aug2a.set_currentTask
       Aug2a.set_headState Aug2a.server_busy Aug2a.emotion_mode_active
       Aug2a.head_tracking_enabled].
  destruct (Aug2a_move_in 60 120 (Aug2a.headState r)
              (Arduino.constrain (Aug2a.head_angle (Aug2a.currentTask r)) 70 110)
              ltac:(lia) H) as [M1 M2].
  split; [exact (conj M1 (conj L (conj R (conj B T)))) |].
  split; [exact M2 | split; reflexivity].
Qed.

Lemma same_pos_trans (r1 r2 r3 : Aug2a.Robot) :
  Aug2a.same_pos r1 r2 -> Aug2a.same_pos r2 r3 -> Aug2a.same_pos r1 r3.
Proof.
  unfold Aug2a.same_pos. intros (A1 & A2 & A3) (B1 & B2 & B3).
  rewrite B1, B2, B3. repeat split; assumption.
Qed.

Lemma robot_ok_processSimpleTasks (t : Z) (r : Aug2a.Robot) :
  Aug2a.robot_ok r ->
  Aug2a.robot_ok (Aug2a.processSimpleTasks t r)
  /\ Aug2a.same_pos r (Aug2a.processSimpleTasks t r).
Proof.
  intros Hok. unfold Aug2a.processSimpleTasks.
  destruct (robot_ok_processEmotionTask t r Hok) as [H1 S1].
  destruct (robot_ok_processHeadTask _ H1) as [H2 S2].
  split; [exact H2 | exact (same_pos_trans _ _ _ S1 S2)].
Qed.

(** The globals after the flags were set for the neutral state, the arms
    posed and the head requested to 90. *)
Lemma robot_ok_neutral (r r1 : Aug2a.Robot) :
  Aug2a.robot_ok r ->
  Aug2a.headState r1 = Aug2a.headState r ->
  Aug2a.leftArmState r1 = Aug2a.leftArmState r ->
  Aug2a.rightArmState r1 = Aug2a.rightArmState r ->
  Aug2a.server_busy r1 = Aug2a.server_busy r ->
  Aug2a.emotion_mode_active r1 = false ->
  Aug2a.head_tracking_enabled r1 = true ->
  Aug2a.robot_ok
    (Aug2a.set_headState
       (Aug2a.moveServoSafely (Aug2a.headState (Aug2a.updateArmPose r1)) 90)
       (Aug2a.updateArmPose r1))
  /\ Aug2a.same_pos r
       (Aug2a.set_headState
          (Aug2a.moveServoSafely (Aug2a.headState (Aug2a.updateArmPose r1)) 90)
          (Aug2a.updateArmPose r1)).
Proof.
  intros (H & L & R & B & T) E1 E2 E3 E4 E5 E6.
  rewrite <- E1 in H. rewrite <- E2 in L. rewrite <- E3 in R.
  destruct (Aug2a_pose_then_head 90 r1 H L R)
    as (P1 & P2 & P3 & P4 & P5 & P6 & P7 & _).
  split.
  - unfold Aug2a.robot_ok. rewrite P5, P6, P7, E4, E5, E6.
    exact (conj P1 (conj P2 (conj P3 (conj B eq_refl)))).
  - unfold Aug2a.same_pos in *. rewrite <- E1, <- E2, <- E3. exact P4.
Qed.

Lemma robot_ok_reset_like (r : Aug2a.Robot) :
  Aug2a.robot_ok r ->
  Aug2a.robot_ok (snd (Aug2a.handleResetRequest r))
  /\ Aug2a.same_pos r (snd (Aug2a.handleResetRequest r)).
Proof.
  intros Hok. unfold Aug2a.handleResetRequest. cbv zeta. cbn [snd].
  apply robot_ok_neutral; try reflexivity. exact Hok.
Qed.

Lemma robot_ok_checkEmotionTimeout (t : Z) (r : Aug2a.Robot) :
  Aug2a.robot_ok r ->
  Aug2a.robot_ok (Aug2a.checkEmotionTimeout t r)
  /\ Aug2a.same_pos r (Aug2a.checkEmotionTimeout t r).
Proof.
  intros Hok. unfold Aug2a.checkEmotionTimeout.
  destruct (_ && _)%bool; [| split; [exact Hok | unfold Aug2a.same_pos; auto]].
  cbv zeta. apply robot_ok_neutral; try reflexivity. exact Hok.
Qed.

Lemma robot_ok_handleReceiveRequest (data : option JsonDocument) (r : Aug2a.Robot) :
  Aug2a.robot_ok r ->
  Aug2a.robot_ok (snd (Aug2a.handleReceiveRequest data r))
  /\ Aug2a.same_pos r (snd (Aug2a.handleReceiveRequest data r)).
Proof.
  intros Hok. pose proof Hok as (H & L & R & B & T).
  unfold Aug2a.handleReceiveRequest. rewrite B.
  destruct data as [doc |]; [destruct (containsKey doc "sentiment") |];
    cbn [snd];
    (split; [exact (conj H (conj L (conj R (conj eq_refl T))))
            | unfold Aug2a.same_pos; auto]).
Qed.

Lemma robot_ok_handleHeadRequest (data : option JsonDocument) (r : Aug2a.Robot) :
  Aug2a.robot_ok r ->
  Aug2a.robot_ok (snd (Aug2a.handleHeadRequest data r))
  /\ Aug2a.same_pos r (snd (Aug2a.handleHeadRequest data r)).
Proof.
  intros Hok. pose proof Hok as (H & L & R & B & T).
  unfold Aug2a.handleHeadRequest. rewrite B.
  destruct (Aug2a.emotion_mode_active r) eqn:M; cbn [orb snd];
    [split; [exact Hok | unfold Aug2a.same_pos; auto] |].
  assert (T' : Aug2a.head_tracking_enabled r = negb false) by exact T.
  destruct data as [doc |];
    [destruct (containsKey doc "angle"); [| destruct (containsKey doc "number")] |];
    cbn [snd];
    (split; [unfold Aug2a.robot_ok; cbn; rewrite M;
             exact (conj H (conj L (conj R (conj eq_refl T'))))
            | unfold Aug2a.same_pos; auto]).
Qed.

Lemma Aug2a_stepTo_within (lo hi : Z) (s : Aug2a.ServoState) :
  -1000 <= lo -> hi <= 1000 -> Aug2a.axis_in lo hi s ->
  lo <= Aug2a.stepTo s <= hi
  /\ Z.min (Aug2a.currentPos s) (Aug2a.targetPos s) <= Aug2a.stepTo s
     <= Z.max (Aug2a.currentPos s) (Aug2a.targetPos s).
Proof.
  intros Hlo Hhi (_ & _ & Hc & Ht). unfold Aug2a.stepTo, Aug2a.SERVO_STEP_SIZE.
  destruct (Aug2a.currentPos s <? Aug2a.targetPos s) eqn:E1.
  - apply Z.ltb_lt in E1.
    rewrite int_of_small by (unfold Arduino.INT_MIN, Arduino.INT_MAX; lia).
    unfold Arduino.min. destruct (_ <? _) eqn:E2;
      [apply Z.ltb_lt in E2 | apply Z.ltb_ge in E2]; lia.
  - apply Z.ltb_ge in E1.
    destruct (Aug2a.currentPos s >? Aug2a.targetPos s) eqn:E4; [| lia].
    apply Z.gtb_lt in E4.
    rewrite int_of_small by (unfold Arduino.INT_MIN, Arduino.INT_MAX; lia).
    unfold Arduino.max. destruct (_ >? _) eqn:E2; [apply Z.gtb_lt in E2; lia |].
    lia.
Qed.

Lemma within_test (lo hi pos : Z) :
  lo <= pos <= hi -> ((pos >=? lo) && (pos <=? hi))%bool = true.
Proof.
  intros H. apply andb_true_iff. split; [apply Z.geb_le | apply Z.leb_le]; lia.
Qed.

Lemma sketch_ok_updateServoPositions (t : Z) (k : Aug2a.Sketch) :
  Aug2a.sketch_ok k -> Aug2a.sketch_ok (Aug2a.updateServoPositions t k).
Proof.
  intros Hk. unfold Aug2a.updateServoPositions.
  assert (H1 : Aug2a.sketch_ok (Aug2a.updateHeadServo t k)).
  { destruct Hk as (H & L & R & S1 & S2 & S3 & B & T).
    unfold Aug2a.updateHeadServo. destruct (_ && _)%bool;
      [| repeat split; assumption || apply H || apply L || apply R].
    destruct (Aug2a_stepTo_within 60 120 _ ltac:(lia) ltac:(lia) H) as [W _].
    pose proof H as (Emin & Emax & _ & Ht).
    cbv zeta. rewrite Emin, Emax, (within_test 60 120 _ W).
    unfold Aug2a.sketch_ok, Aug2a.axis_in. cbn.
    repeat split; assumption || lia || apply L || apply R. }
  revert H1. generalize (Aug2a.updateHeadServo t k). clear k Hk. intros k Hk.
  assert (H2 : Aug2a.sketch_ok (Aug2a.updateLeftArmServo t k)).
  { destruct Hk as (H & L & R & S1 & S2 & S3 & B & T).
    unfold Aug2a.updateLeftArmServo. destruct (_ && _)%bool;
      [| repeat split; assumption || apply H || apply L || apply R].
    destruct (Aug2a_stepTo_within 0 180 _ ltac:(lia) ltac:(lia) L) as [W _].
    pose proof L as (Emin & Emax & _ & Ht).
    cbv zeta. rewrite Emin, Emax, (within_test 0 180 _ W).
    unfold Aug2a.sketch_ok, Aug2a.axis_in. cbn.
    repeat split; assumption || lia || apply H || apply R. }
  revert H2. generalize (Aug2a.updateLeftArmServo t k). clear k Hk. intros k Hk.
  destruct Hk as (H & L & R & S1 & S2 & S3 & B & T).
  unfold Aug2a.updateRightArmServo. destruct (_ && _)%bool;
    [| repeat split; assumption || apply H || apply L || apply R].
  destruct (Aug2a_stepTo_within 0 180 _ ltac:(lia) ltac:(lia) R) as [W _].
  pose proof R as (Emin & Emax & _ & Ht).
  cbv zeta. rewrite Emin, Emax, (within_test 0 180 _ W).
  unfold Aug2a.sketch_ok, Aug2a.axis_in. cbn.
  repeat split; assumption || lia || apply H || apply L.
Qed.

(** A step on the globals that keeps [robot_ok] and the positions keeps
    [sketch_ok]. *)
Lemma sketch_ok_with_robot (f : Aug2a.Robot -> Aug2a.Robot) (k : Aug2a.Sketch) :
  (forall r, Aug2a.robot_ok r -> Aug2a.robot_ok (f r) /\ Aug2a.same_pos r (f r)) ->
  Aug2a.sketch_ok k -> Aug2a.sketch_ok (Aug2a.with_robot f k).
Proof.
  intros Hf (H & L & R & S1 & S2 & S3 & B & T).
  destruct (Hf (Aug2a.robot k)) as [(H' & L' & R' & B' & T') (P1 & P2 & P3)].
  { repeat split; assumption || apply H || apply L || apply R. }
  unfold Aug2a.sketch_ok, Aug2a.with_robot. cbn.
  rewrite P1, P2, P3. repeat split; assumption || apply H' || apply L' || apply R'.
Qed.

Lemma sketch_ok_serve (e : Aug2a.Event) (k : Aug2a.Sketch) :
  Aug2a.sketch_ok k -> Aug2a.sketch_ok (Aug2a.serve e k).
Proof.
  intros Hk. destruct e as [d | d | | c]; cbn [Aug2a.serve].
  - apply sketch_ok_with_robot; [apply robot_ok_handleReceiveRequest | exact Hk].
  - apply sketch_ok_with_robot; [apply robot_ok_handleHeadRequest | exact Hk].
  - apply sketch_ok_with_robot; [apply robot_ok_reset_like | exact Hk].
  - unfold Aug2a.loop.
    assert (H3 : Aug2a.sketch_ok
                   (Aug2a.with_robot (Aug2a.checkEmotionTimeout (Aug2a.t_timeout c))
                      (Aug2a.updateServoPositions (Aug2a.t_servo c)
                         (Aug2a.with_robot (Aug2a.processSimpleTasks (Aug2a.t_tasks c))
                                           k)))).
    { apply sketch_ok_with_robot; [apply robot_ok_checkEmotionTimeout |].
      apply sketch_ok_updateServoPositions.
      apply sketch_ok_with_robot; [apply robot_ok_processSimpleTasks | exact Hk]. }
    revert H3. generalize (Aug2a.with_robot (Aug2a.checkEmotionTimeout (Aug2a.t_timeout c))
                      (Aug2a.updateServoPositions (Aug2a.t_servo c)
                         (Aug2a.with_robot (Aug2a.processSimpleTasks (Aug2a.t_tasks c))
                                           k))).
    intros k3 H3. unfold Aug2a.blinkStep. split_ifs; exact H3.
Qed.

Lemma sketch_ok_run (es : list Aug2a.Event) :
  forall k, Aug2a.sketch_ok k -> Aug2a.sketch_ok (Aug2a.run es k).
Proof.
  induction es as [| e es IH]; intros k Hk; [exact Hk |].
  change (Aug2a.run (e :: es) k) with (Aug2a.run es (Aug2a.serve e k)).
  apply IH, sketch_ok_serve, Hk.
Qed.

Lemma sketch_ok_setup : Aug2a.sketch_ok Aug2a.setup.
Proof.
  unfold Aug2a.sketch_ok, Aug2a.axis_in. cbn. repeat split; lia.
Qed.

(** X12: along every run of the simplified sketch from setup (requests to
    /receive, /head and /reset and iterations of loop, in any order and at
    any readings of the clock), the three axes keep their limits (head 60 to
    120, arms 0 to 180), positions and targets are within them, and the angle
    last written to each servo is the position of its axis. *)
Theorem X12_sketch_positions_within_limits (es : list Aug2a.Event) :
  Aug2a.axis_in 60 120 (Aug2a.headState (Aug2a.robot (Aug2a.run es Aug2a.setup)))
  /\ Aug2a.axis_in 0 180 (Aug2a.leftArmState (Aug2a.robot (Aug2a.run es Aug2a.setup)))
  /\ Aug2a.axis_in 0 180 (Aug2a.rightArmState (Aug2a.robot (Aug2a.run es Aug2a.setup)))
  /\ Aug2a.headServo (Aug2a.run es Aug2a.setup)
     = Aug2a.currentPos (Aug2a.headState (Aug2a.robot (Aug2a.run es Aug2a.setup)))
  /\ Aug2a.leftArmServo (Aug2a.run es Aug2a.setup)
     = Aug2a.currentPos (Aug2a.leftArmState (Aug2a.robot (Aug2a.run es Aug2a.setup)))
  /\ Aug2a.rightArmServo (Aug2a.run es Aug2a.setup)
     = Aug2a.currentPos (Aug2a.rightArmState (Aug2a.robot (Aug2a.run es Aug2a.setup))).
Proof.
  destruct (sketch_ok_run es _ sketch_ok_setup) as (H & L & R & S1 & S2 & S3 & _).
  repeat split; assumption || apply H || apply L || apply R.
Qed.

(** X13: along every run of the simplified sketch from setup the server is
    not busy between requests and head tracking is enabled exactly when
    emotion mode is off; so a request to /receive is never answered 503, and
    a request to /head is answered 503 exactly when emotion mode is active. *)
Theorem X13_sketch_busy_only_in_emotion_mode
  (es : list Aug2a.Event) (data : option JsonDocument) :
  Aug2a.server_busy (Aug2a.robot (Aug2a.run es Aug2a.setup)) = false
  /\ Aug2a.head_tracking_enabled (Aug2a.robot (Aug2a.run es Aug2a.setup))
     = negb (Aug2a.emotion_mode_active (Aug2a.robot (Aug2a.run es Aug2a.setup)))
  /\ code (fst (Aug2a.handleReceiveRequest data (Aug2a.robot (Aug2a.run es Aug2a.setup))))
     <> 503
  /\ (code (fst (Aug2a.handleHeadRequest data (Aug2a.robot (Aug2a.run es Aug2a.setup))))
      =? 503)
     = Aug2a.emotion_mode_active (Aug2a.robot (Aug2a.run es Aug2a.setup)).
Proof.
  destruct (sketch_ok_run es _ sketch_ok_setup) as (_ & _ & _ & _ & _ & _ & B & T).
  split; [exact B |]. split; [exact T |].
  unfold Aug2a.handleReceiveRequest, Aug2a.handleHeadRequest. rewrite B.
  split.
  - destruct data as [doc |]; [destruct (containsKey doc "sentiment") |];
      cbn; discriminate.
  - destruct (Aug2a.emotion_mode_active _); cbn [orb]; [reflexivity |].
    destruct data as [doc |];
      [destruct (containsKey doc "angle"); [| destruct (containsKey doc "number")] |];
      reflexivity.
Qed.

(** X14: in the simplified sketch a head task that is pending when emotion
    mode is active is kept: processSimpleTasks neither applies it nor clears
    it, whatever the clock says.  When the timeout has ended emotion mode,
    the next processSimpleTasks applies it: the head is requested to the
    queued angle constrained to 70..110, and the task is cleared. *)
Theorem X14_sketch_head_task_waits_for_emotion_mode
  (t t' t'' : Z) (r : Aug2a.Robot) :
  Aug2a.emotion_mode_active r = true ->
  Aug2a.has_emotion_task (Aug2a.currentTask r) = false ->
  Aug2a.has_head_task (Aug2a.currentTask r) = true ->
  (Arduino.ulong_of (t' - Aug2a.task_time (Aug2a.currentTask r)) >? 8000) = true ->
  Aug2a.processSimpleTasks t r = r
  /\ Aug2a.has_head_task
       (Aug2a.currentTask (Aug2a.checkEmotionTimeout t' (Aug2a.processSimpleTasks t r)))
     = true
  /\ Aug2a.headState
       (Aug2a.processSimpleTasks t''
          (Aug2a.checkEmotionTimeout t' (Aug2a.processSimpleTasks t r)))
     = Aug2a.moveServoSafely
         (Aug2a.headState (Aug2a.checkEmotionTimeout t' r))
         (Arduino.constrain (Aug2a.head_angle (Aug2a.currentTask r)) 70 110)
  /\ Aug2a.has_head_task
       (Aug2a.currentTask
          (Aug2a.processSimpleTasks t''
             (Aug2a.checkEmotionTimeout t' (Aug2a.processSimpleTasks t r))))
     = false.
Proof.
  intros Hm He Hh Hgt.
  assert (E : Aug2a.processSimpleTasks t r = r).
  { unfold Aug2a.processSimpleTasks, Aug2a.processEmotionTask. rewrite He.
    unfold Aug2a.processHeadTask. rewrite Hm, andb_false_r. reflexivity. }
  rewrite E. split; [reflexivity |].
  assert (F : Aug2a.currentTask (Aug2a.checkEmotionTimeout t' r) = Aug2a.currentTask r
              /\ Aug2a.emotion_mode_active (Aug2a.checkEmotionTimeout t' r) = false).
  { unfold Aug2a.checkEmotionTimeout. rewrite Hm, Hgt. cbn [andb]. cbv zeta.
    match goal with
    | |- context [Aug2a.updateArmPose ?x] =>
        destruct (Aug2a_updateArmPose_frame x) as (_ & F2 & _ & F4 & _)
    end.
    cbn [Aug2a.currentTask Aug2a.emotion_mode_active Aug2a.set_headState].
    rewrite F2, F4. split; reflexivity. }
  destruct F as [F1 F2].
  split; [rewrite F1; exact Hh |].
  unfold Aug2a.processSimpleTasks, Aug2a.processEmotionTask. rewrite F1, He.
  unfold Aug2a.processHeadTask. rewrite F1, Hh, F2. cbn [negb andb]. cbv zeta.
  cbn [Aug2a.headState Aug2a.currentTask Aug2a.set_currentTask Aug2a.set_headState
       Aug2a.has_head_task].
  split; reflexivity.
Qed.

Lemma X14_sketch_head_task_waits_for_emotion_mode_witness :
  Aug2a.emotion_mode_active
    (Aug2a.processSimpleTasks 20
       (snd (Aug2a.handleReceiveRequest (Some (Aug2a.sentimentBody "sad"))
               (snd (Aug2a.handleHeadRequest (Some (Aug2a.angleBody 100))
                                             Aug2a.initial))))) = true
  /\ Aug2a.targetPos
       (Aug2a.headState
          (Aug2a.processSimpleTasks 9020
             (Aug2a.checkEmotionTimeout 9000
                (Aug2a.processSimpleTasks 40
                   (Aug2a.processSimpleTasks 20
                      (snd (Aug2a.handleReceiveRequest
                              (Some (Aug2a.sentimentBody "sad"))
                              (snd (Aug2a.handleHeadRequest
                                      (Some (Aug2a.angleBody 100))
                                      Aug2a.initial))))))))) = 100.
Proof.
  pose proof (X14_sketch_head_task_waits_for_emotion_mode 40 9000 9020
                (Aug2a.processSimpleTasks 20
                   (snd (Aug2a.handleReceiveRequest (Some (Aug2a.sentimentBody "sad"))
                           (snd (Aug2a.handleHeadRequest (Some (Aug2a.angleBody 100))
                                                         Aug2a.initial)))))
                eq_refl eq_refl eq_refl eq_refl) as (_ & _ & H & _).
  split; [reflexivity |]. rewrite H. reflexivity.
Defined.

Lemma int_of_add_r (a b : Z) :
  Arduino.int_of (a + Arduino.int_of b) = Arduino.int_of (a + b).
Proof.
  unfold Arduino.int_of.
  replace (a + ((b + 2147483648) mod 4294967296 - 2147483648) + 2147483648)
    with (a + (b + 2147483648) mod 4294967296) by lia.
  rewrite Zplus_mod_idemp_r. do 2 f_equal. lia.
Qed.

Lemma int_of_mul_l (a c : Z) :
  Arduino.int_of (Arduino.int_of a * c) = Arduino.int_of (a * c).
Proof.
  unfold Arduino.int_of.
  rewrite (Z.mod_eq (a + 2147483648) 4294967296) by lia.
  replace ((a + 2147483648
            - 4294967296 * ((a + 2147483648) / 4294967296) - 2147483648) * c
           + 2147483648)
    with (a * c + 2147483648
          + (- (((a + 2147483648) / 4294967296) * c)) * 4294967296) by lia.
  rewrite Z_mod_plus_full. reflexivity.
Qed.

(** X15: in the simplified sketch, with emotion mode off and no emotion task
    pending, a head request with a person count n is turned into the angle
    90 for n up to 1 and, above, into 90 + 5 * (n - 1) in 32-bit arithmetic;
    when the task is processed the angle is constrained to 70..110 and
    requested of the head, subject to the deadband of 3 degrees.  As long as
    the product does not wrap (n up to 429496712) the head is requested to
    min(110, 90 + 5 * (n - 1)), so 5 people up to that many all point the
    head to 110.  The count is not checked: from 429496713 to 858993456 the
    sum has wrapped to a negative angle and the head is requested to 70. *)
Theorem X15_sketch_people_count_angle (n t : Z) (r : Aug2a.Robot) :
  Aug2a.robot_ok r ->
  Aug2a.emotion_mode_active r = false ->
  Aug2a.has_emotion_task (Aug2a.currentTask r) = false ->
  code (fst (Aug2a.handleHeadRequest (Some (Aug2a.numberBody n)) r)) = 200
  /\ Aug2a.head_angle
       (Aug2a.currentTask (snd (Aug2a.handleHeadRequest (Some (Aug2a.numberBody n)) r)))
     = (if n >? 1 then Arduino.int_of (90 + 5 * (n - 1)) else 90)
  /\ Aug2a.targetPos
       (Aug2a.headState
          (Aug2a.processSimpleTasks t
             (snd (Aug2a.handleHeadRequest (Some (Aug2a.numberBody n)) r))))
     = Controller.requested 3 (Aug2a.targetPos (Aug2a.headState r))
         (Arduino.constrain
            (if n >? 1 then Arduino.int_of (90 + 5 * (n - 1)) else 90) 70 110)
  /\ (n <= 429496712 ->
      Arduino.constrain
        (if n >? 1 then Arduino.int_of (90 + 5 * (n - 1)) else 90) 70 110
      = Z.min 110 (90 + 5 * Z.max 0 (n - 1)))
  /\ (5 <= n <= 429496712 ->
      Arduino.constrain
        (if n >? 1 then Arduino.int_of (90 + 5 * (n - 1)) else 90) 70 110
      = 110)
  /\ (429496713 <= n <= 858993456 ->
      Arduino.constrain
        (if n >? 1 then Arduino.int_of (90 + 5 * (n - 1)) else 90) 70 110
      = 70)
  /\ Aug2a.has_head_task
       (Aug2a.currentTask
          (Aug2a.processSimpleTasks t
             (snd (Aug2a.handleHeadRequest (Some (Aug2a.numberBody n)) r))))
     = false.
Proof.
  intros (H & _ & _ & B & _) Hm He.
  assert (Ea : Arduino.int_of
                 (90 + (if n >? 1 then Arduino.int_of (Arduino.int_of (n - 1) * 5) else 0))
               = (if n >? 1 then Arduino.int_of (90 + 5 * (n - 1)) else 90)).
  { destruct (n >? 1).
    - rewrite int_of_mul_l, int_of_add_r. f_equal. lia.
    - reflexivity. }
  assert (Elow : n <= 429496712 ->
                 Arduino.constrain
                   (if n >? 1 then Arduino.int_of (90 + 5 * (n - 1)) else 90) 70 110
                 = Z.min 110 (90 + 5 * Z.max 0 (n - 1))).
  { intros Hn. destruct (n >? 1) eqn:G.
    - apply Z.gtb_lt in G.
      rewrite int_of_small by (unfold Arduino.INT_MIN, Arduino.INT_MAX; lia).
      unfold Arduino.constrain.
      destruct (_ <? 70) eqn:G1; [apply Z.ltb_lt in G1; lia |].
      destruct (_ >? 110) eqn:G2; [apply Z.gtb_lt in G2; lia |].
      assert (90 + 5 * (n - 1) <= 110)
        by (destruct (Z.gtb_spec (90 + 5 * (n - 1)) 110); [discriminate | lia]).
      lia.
    - assert (n <= 1) by (destruct (Z.gtb_spec n 1); [discriminate | lia]).
      replace (Z.max 0 (n - 1)) with 0 by lia. reflexivity. }
  unfold Aug2a.handleHeadRequest, Aug2a.numberBody. rewrite B, Hm.
  cbn [orb containsKey member String.eqb Ascii.eqb Bool.eqb as_int asInt fst snd code].
  rewrite Ea.
  split; [reflexivity |]. split; [reflexivity |].
  unfold Aug2a.processSimpleTasks, Aug2a.processEmotionTask, Aug2a.queueHead.
  cbn [Aug2a.currentTask Aug2a.set_server_busy Aug2a.set_currentTask
       Aug2a.has_emotion_task].
  rewrite He. unfold Aug2a.processHeadTask.
  cbn [Aug2a.currentTask Aug2a.has_head_task Aug2a.emotion_mode_active Aug2a.head_angle
       Aug2a.headState Aug2a.set_headState Aug2a.set_currentTask
       Aug2a.set_server_busy].
  rewrite Hm. cbn [negb andb]. cbv zeta.
  cbn [Aug2a.currentTask Aug2a.has_head_task Aug2a.headState Aug2a.set_headState
       Aug2a.set_currentTask Aug2a.set_server_busy Aug2a.head_angle].
  split.
  { apply (Aug2a_requested 60 120); try lia.
    - destruct H as (E1 & E2 & _ & Ht). repeat split; assumption || apply Ht.
    - assert (70 <= Arduino.constrain
                      (if n >? 1 then Arduino.int_of (90 + 5 * (n - 1)) else 90)
                      70 110 <= 110) by (apply constrain_within; lia).
      lia. }
  split; [exact Elow |].
  split; [intros Hn; rewrite Elow by lia; lia |].
  split; [| reflexivity].
  intros Hn. replace (n >? 1) with true by lia.
  assert (Ew : Arduino.int_of (90 + 5 * (n - 1)) = 90 + 5 * (n - 1) - 4294967296).
  { unfold Arduino.int_of.
    replace (90 + 5 * (n - 1) + 2147483648)
      with (90 + 5 * (n - 1) - 2147483648 + 1 * 4294967296) by lia.
    rewrite Z_mod_plus_full, Z.mod_small by lia. lia. }
  rewrite Ew. unfold Arduino.constrain.
  destruct (_ <? 70) eqn:G1; [reflexivity | apply Z.ltb_ge in G1; lia].
Qed.

Lemma X15_sketch_people_count_angle_witness :
  Aug2a.emotion_mode_active Aug2a.initial = false
  /\ Aug2a.targetPos
       (Aug2a.headState
          (Aug2a.processSimpleTasks 20
             (snd (Aug2a.handleHeadRequest (Some (Aug2a.numberBody 7))
                                           Aug2a.initial)))) = 110
  /\ Aug2a.targetPos
       (Aug2a.headState
          (Aug2a.processSimpleTasks 20
             (snd (Aug2a.handleHeadRequest (Some (Aug2a.numberBody 500000000))
                                           Aug2a.initial)))) = 70.
Proof.
  assert (Hok : Aug2a.robot_ok Aug2a.initial).
  { unfold Aug2a.robot_ok, Aug2a.axis_in. cbn. repeat split; lia. }
  pose proof (X15_sketch_people_count_angle 7 20 Aug2a.initial
                Hok eq_refl eq_refl) as (_ & _ & H & _).
  pose proof (X15_sketch_people_count_angle 500000000 20 Aug2a.initial
                Hok eq_refl eq_refl) as (_ & _ & H' & _).
  split; [reflexivity |]. rewrite H, H'. split; reflexivity.
Defined.

(** X16: in the simplified sketch a request to /reset acts at once, in the
    handler, and what it does to the state is exactly what the emotion
    timeout does when it fires: emotion happy, emotion mode off, head
    tracking on, the arms at the pose of happy and the head requested to
    90. *)
Theorem X16_sketch_reset_is_the_timeout (t : Z) (r : Aug2a.Robot) :
  Aug2a.emotion_mode_active r = true ->
  (Arduino.ulong_of (t - Aug2a.task_time (Aug2a.currentTask r)) >? 8000) = true ->
  Aug2a.checkEmotionTimeout t r = snd (Aug2a.handleResetRequest r)
  /\ code (fst (Aug2a.handleResetRequest r)) = 200
  /\ Aug2a.current_emotion (snd (Aug2a.handleResetRequest r)) = "happy"%string
  /\ Aug2a.emotion_mode_active (snd (Aug2a.handleResetRequest r)) = false
  /\ Aug2a.currentTask (snd (Aug2a.handleResetRequest r)) = Aug2a.currentTask r.
Proof.
  intros Hm Hgt. unfold Aug2a.checkEmotionTimeout, Aug2a.handleResetRequest.
  rewrite Hm, Hgt. cbn [andb fst snd code]. cbv zeta.
  split; [reflexivity |]. split; [reflexivity |].
  match goal with
  | |- context [Aug2a.updateArmPose ?x] =>
      destruct (Aug2a_updateArmPose_frame x) as (F1 & F2 & _ & F4 & _)
  end.
  cbn [Aug2a.current_emotion Aug2a.emotion_mode_active Aug2a.currentTask
       Aug2a.set_headState].
  rewrite F1, F2, F4. repeat split; reflexivity.
Qed.

Lemma X16_sketch_reset_is_the_timeout_witness :
  Aug2a.emotion_mode_active
    (Aug2a.processSimpleTasks 20
       (snd (Aug2a.handleReceiveRequest (Some (Aug2a.sentimentBody "angry"))
                                        Aug2a.initial))) = true
  /\ Aug2a.checkEmotionTimeout 9000
       (Aug2a.processSimpleTasks 20
          (snd (Aug2a.handleReceiveRequest (Some (Aug2a.sentimentBody "angry"))
                                           Aug2a.initial)))
     = snd (Aug2a.handleResetRequest
              (Aug2a.processSimpleTasks 20
                 (snd (Aug2a.handleReceiveRequest (Some (Aug2a.sentimentBody "angry"))
                                                  Aug2a.initial)))).
Proof.
  pose proof (X16_sketch_reset_is_the_timeout 9000
                (Aug2a.processSimpleTasks 20
                   (snd (Aug2a.handleReceiveRequest (Some (Aug2a.sentimentBody "angry"))
                                                    Aug2a.initial)))
                eq_refl eq_refl) as (H & _).
  split; [reflexivity | exact H].
Defined.

End SketchRuns.

(** ** The head tracking sketch *)

Section HeadTrackingSketch.
Import Jul22a.

Ltac split_ifs :=
  repeat match goal with
         | |- context [if ?c then _ else _] => destruct c
         end.

Lemma servo_ok_sweepStep (step now : Z) (r : Robot) :
  0 <= step <= 10 -> servo_ok r -> servo_ok (sweepStep step now r).
Proof.
  intros Hs [Ha _]. unfold sweepStep, servo_ok. cbn [angle myServo].
  split; [| reflexivity].
  rewrite int_of_small
    by (unfold Arduino.INT_MIN, Arduino.INT_MAX; destruct (sweepingRight r); lia).
  destruct (_ >=? 180) eqn:E1; [lia |].
  destruct (_ <=? 0) eqn:E2; [lia |].
  apply Z.leb_gt in E2.
  assert (angle r + (if sweepingRight r then step else - step) < 180)
    by (destruct (Z.geb_spec (angle r + (if sweepingRight r then step else - step)) 180);
        [discriminate | lia]).
  lia.
Qed.

Lemma servo_ok_loop (now : Z) (r : Robot) : servo_ok r -> servo_ok (loop now r).
Proof.
  intros H. unfold loop. cbv zeta.
  set (r1 := if Arduino.ulong_of (now - detection_change_time r) >? DETECTION_DEBOUNCE
             then _ else r).
  assert (H1 : servo_ok r1) by (unfold r1; destruct (_ >? DETECTION_DEBOUNCE); exact H).
  assert (E : angle r1 = angle r) by (unfold r1; destruct (_ >? DETECTION_DEBOUNCE);
                                      reflexivity).
  clearbody r1.
  destruct (negb _).
  - destruct (_ >? 100); [apply servo_ok_sweepStep; [lia | exact H1] | exact H1].
  - destruct (negb _).
    + destruct (_ >? 50); [apply servo_ok_sweepStep; [lia | exact H1] | exact H1].
    + destruct (Arduino.abs _ >? 5) eqn:G; [| exact H1].
      destruct (_ >? 30); [| exact H1].
      destruct H1 as [Ha _]. unfold servo_ok. cbn [angle myServo].
      split; [| reflexivity].
      rewrite int_of_small in G by (unfold Arduino.INT_MIN, Arduino.INT_MAX; lia).
      rewrite abs_small in G by (unfold Arduino.INT_MIN, Arduino.INT_MAX; lia).
      apply Z.gtb_lt in G.
      destruct (angle r1 >? 90) eqn:C.
      * apply Z.gtb_lt in C.
        rewrite int_of_small by (unfold Arduino.INT_MIN, Arduino.INT_MAX; lia). lia.
      * assert (angle r1 <= 90)
          by (destruct (Z.gtb_spec (angle r1) 90); [discriminate | lia]).
        rewrite int_of_small by (unfold Arduino.INT_MIN, Arduino.INT_MAX; lia). lia.
Qed.

Lemma handler_keeps_servo
  (post : bool) (data : option JsonDocument) (t1 t2 : Z) (r : Robot) :
  angle (snd (handleHeadTracking post data t1 t2 r)) = angle r
  /\ myServo (snd (handleHeadTracking post data t1 t2 r)) = myServo r
  /\ lastMoveTime (snd (handleHeadTracking post data t1 t2 r)) = lastMoveTime r
  /\ sweepingRight (snd (handleHeadTracking post data t1 t2 r)) = sweepingRight r
  /\ stable_person_detected (snd (handleHeadTracking post data t1 t2 r))
     = stable_person_detected r.
Proof.
  unfold handleHeadTracking, headData, emotionData.
  destruct post; [| repeat split].
  destruct data as [doc |]; [| repeat split].
  destruct (containsKey doc "number").
  - cbn [snd]. destruct (negb _); repeat split.
  - destruct (_ && _)%bool; repeat split.
Qed.

Lemma servo_ok_serve (e : Event) (r : Robot) : servo_ok r -> servo_ok (serve e r).
Proof.
  intros H. destruct e as [post data t1 t2 | now]; cbn [serve].
  - destruct (handler_keeps_servo post data t1 t2 r) as (E1 & E2 & _).
    unfold servo_ok. rewrite E1, E2. exact H.
  - apply servo_ok_loop, H.
Qed.

(** X17: along every run of the head tracking sketch from setup (requests
    and iterations of loop at any readings of the clock) the angle stays
    between 0 and 180 degrees, and the angle last written to the servo is
    that angle. *)
Theorem X17_tracking_servo_within_range (now : Z) (es : list Event) :
  0 <= angle (run es (setup now)) <= 180
  /\ myServo (run es (setup now)) = angle (run es (setup now)).
Proof.
  assert (H : forall l r, servo_ok r -> servo_ok (run l r)).
  { induction l as [| e l IH]; intros r Hr; [exact Hr |].
    change (run (e :: l) r) with (run l (serve e r)).
    apply IH, servo_ok_serve, Hr. }
  apply H. unfold servo_ok. cbn. lia.
Qed.

(** X18: with fresh head data and a person whose detection is stable, loop
    never moves the servo away from the centre: when it is more than 5
    degrees from 90 and more than 30 ms are gone since the last move, it
    moves 2 degrees nearer; otherwise it stays where it is.  So the servo
    comes to rest 5 degrees or less from the centre, and a move never takes
    it nearer than 4 degrees. *)
Theorem X18_tracking_person_centres_the_servo (now : Z) (r : Robot) :
  servo_ok r -> person_in_view now r ->
  off_centre (loop now r)
  = (if ((off_centre r >? 5) && (Arduino.ulong_of (now - lastMoveTime r) >? 30))%bool
     then off_centre r - 2 else off_centre r)
  /\ off_centre (loop now r) <= off_centre r
  /\ Z.min 4 (off_centre r) <= off_centre (loop now r)
  /\ sweepingRight (loop now r) = sweepingRight r.
Proof.
  intros [Ha _] [Hf Hs]. unfold loop. cbv zeta. rewrite Hf. cbn [negb].
  set (r1 := if Arduino.ulong_of (now - detection_change_time r) >? DETECTION_DEBOUNCE
             then _ else r).
  assert (E : angle r1 = angle r /\ stable_person_detected r1 = true
              /\ lastMoveTime r1 = lastMoveTime r
              /\ sweepingRight r1 = sweepingRight r).
  { unfold r1. destruct (_ >? DETECTION_DEBOUNCE); cbn; repeat split; exact Hs. }
  clearbody r1. destruct E as (E1 & E2 & E3 & E4).
  rewrite E2. cbn [negb]. rewrite E1, E3.
  rewrite int_of_small by (unfold Arduino.INT_MIN, Arduino.INT_MAX; lia).
  rewrite abs_small by (unfold Arduino.INT_MIN, Arduino.INT_MAX; lia).
  unfold off_centre.
  destruct (Z.abs (angle r - 90) >? 5) eqn:G; cbn [andb];
    [| rewrite E1; repeat split; try lia; exact E4].
  apply Z.gtb_lt in G.
  destruct (_ >? 30); [| rewrite E1; repeat split; try lia; exact E4].
  cbn [angle sweepingRight].
  destruct (angle r >? 90) eqn:C.
  - apply Z.gtb_lt in C.
    rewrite int_of_small by (unfold Arduino.INT_MIN, Arduino.INT_MAX; lia).
    repeat split; try lia; exact E4.
  - assert (angle r <= 90) by (destruct (Z.gtb_spec (angle r) 90); [discriminate | lia]).
    rewrite int_of_small by (unfold Arduino.INT_MIN, Arduino.INT_MAX; lia).
    repeat split; try lia; exact E4.
Qed.

Lemma X18_tracking_person_centres_the_servo_witness :
  person_in_view 1500 (run personArrives (setup 0))
  /\ off_centre (run personArrives (setup 0)) = 9
  /\ off_centre (loop 1500 (run personArrives (setup 0))) = 7.
Proof.
  assert (Hok : servo_ok (run personArrives (setup 0))).
  { unfold servo_ok. vm_compute. repeat split; discriminate. }
  assert (Hv : person_in_view 1500 (run personArrives (setup 0))).
  { unfold person_in_view. vm_compute. split; reflexivity. }
  pose proof (X18_tracking_person_centres_the_servo 1500
                (run personArrives (setup 0)) Hok Hv) as (H & _).
  split; [exact Hv |]. split; [reflexivity |]. rewrite H. reflexivity.
Defined.

(** X19: the emotion data of the head tracking sketch are stored and take no
    part in the control of the servo: storing an emotion before an iteration
    of loop gives the state that storing it after the iteration gives, at
    every reading of the clock. *)
Theorem X19_tracking_servo_ignores_emotion
  (now t_received : Z) (emotion sentiment : string) (r : Robot) :
  loop now (emotionData emotion sentiment t_received r)
  = emotionData emotion sentiment t_received (loop now r).
Proof.
  unfold loop, emotionData, sweepStep. cbv zeta.
  cbn [person_detected lastMoveTime lastHeadDataReceived sweepingRight angle
       people_count current_emotion current_sentiment lastEmotionDataReceived
       stable_person_detected detection_change_time myServo].
  destruct (_ >? DETECTION_DEBOUNCE);
    cbn [person_detected lastMoveTime lastHeadDataReceived sweepingRight angle
         people_count current_emotion current_sentiment lastEmotionDataReceived
         stable_person_detected detection_change_time myServo];
    split_ifs; reflexivity.
Qed.

(** X20: a request to the head tracking sketch never moves the servo and
    never changes the stable detection; it is answered 200 or leaves the
    state as it is (405 for a method other than POST, 400 for a body that
    does not parse or has neither a number nor both an emotion and a
    sentiment); it stores head data or emotion data, never both, and a body
    with a number is head data whatever else it holds. *)
Theorem X20_tracking_request_behaviour
  (post : bool) (data : option JsonDocument) (t1 t2 : Z) (r : Robot) :
  (code (fst (handleHeadTracking post data t1 t2 r)) = 200
   \/ snd (handleHeadTracking post data t1 t2 r) = r)
  /\ angle (snd (handleHeadTracking post data t1 t2 r)) = angle r
  /\ myServo (snd (handleHeadTracking post data t1 t2 r)) = myServo r
  /\ lastMoveTime (snd (handleHeadTracking post data t1 t2 r)) = lastMoveTime r
  /\ sweepingRight (snd (handleHeadTracking post data t1 t2 r)) = sweepingRight r
  /\ stable_person_detected (snd (handleHeadTracking post data t1 t2 r))
     = stable_person_detected r
  /\ ((current_emotion (snd (handleHeadTracking post data t1 t2 r)) = current_emotion r
       /\ current_sentiment (snd (handleHeadTracking post data t1 t2 r))
          = current_sentiment r)
      \/ (people_count (snd (handleHeadTracking post data t1 t2 r)) = people_count r
          /\ person_detected (snd (handleHeadTracking post data t1 t2 r))
             = person_detected r))
  /\ (if (post && match data with
                  | Some doc => containsKey doc "number"
                  | None => false
                  end)%bool
      then current_emotion (snd (handleHeadTracking post data t1 t2 r))
           = current_emotion r
           /\ people_count (snd (handleHeadTracking post data t1 t2 r))
              = match data with Some doc => as_int doc "number" | None => 0 end
      else people_count (snd (handleHeadTracking post data t1 t2 r)) = people_count r).
Proof.
  split.
  { unfold handleHeadTracking. destruct post; [| right; reflexivity].
    destruct data as [doc |]; [| right; reflexivity].
    destruct (containsKey doc "number"); [left; reflexivity |].
    destruct (_ && _)%bool; [left | right]; reflexivity. }
  destruct (handler_keeps_servo post data t1 t2 r) as (E1 & E2 & E3 & E4 & E5).
  split; [exact E1 |]. split; [exact E2 |]. split; [exact E3 |]. split; [exact E4 |].
  split; [exact E5 |].
  unfold handleHeadTracking, headData, emotionData.
  destruct post; cbn [andb]; [| split; [left; split |]; reflexivity].
  destruct data as [doc |]; [| split; [left; split |]; reflexivity].
  destruct (containsKey doc "number").
  - cbn [snd]. destruct (negb _); (split; [left; split; reflexivity | split; reflexivity]).
  - destruct (_ && _)%bool; (split; [right; split; reflexivity | reflexivity]).
Qed.

(** X21: the detection of a person is debounced.  When head data change the
    detection at the reading t_change of the clock, the iterations of loop
    up to 1000 ms later leave the stable detection as it was, and one more
    than 1000 ms later makes it the new detection; head data that repeat the
    detection do not restart the debounce. *)
Theorem X21_tracking_detection_is_debounced
  (number number' t_received t_change t' t'' now : Z) (r : Robot) :
  Bool.eqb (number >? 0) (person_detected r) = false ->
  (number' >? 0) = (number >? 0) ->
  person_detected (headData number t_received t_change r) = (number >? 0)
  /\ detection_change_time (headData number t_received t_change r) = t_change
  /\ stable_person_detected (loop now (headData number t_received t_change r))
     = (if Arduino.ulong_of (now - t_change) >? DETECTION_DEBOUNCE
        then number >? 0 else stable_person_detected r)
  /\ detection_change_time
       (headData number' t' t'' (headData number t_received t_change r)) = t_change.
Proof.
  intros Hne Hsame. unfold headData at 1 2 3. rewrite Hne. cbn [negb].
  cbn [person_detected detection_change_time].
  split; [reflexivity |]. split; [reflexivity |]. split.
  - unfold loop, sweepStep. cbv zeta.
    cbn [person_detected lastMoveTime lastHeadDataReceived sweepingRight angle
         people_count stable_person_detected detection_change_time myServo].
    destruct (_ >? DETECTION_DEBOUNCE);
      cbn [person_detected lastMoveTime lastHeadDataReceived sweepingRight angle
           people_count stable_person_detected detection_change_time myServo];
      split_ifs; reflexivity.
  - unfold headData. rewrite Hne. cbn [negb person_detected]. rewrite Hsame.
    rewrite Bool.eqb_reflx. reflexivity.
Qed.

Lemma X21_tracking_detection_is_debounced_witness :
  Bool.eqb (1 >? 0) (person_detected (setup 0)) = false
  /\ stable_person_detected (loop 1400 (headData 1 400 400 (setup 0))) = false
  /\ stable_person_detected (loop 1401 (headData 1 400 400 (setup 0))) = true.
Proof.
  pose proof (X21_tracking_detection_is_debounced 1 2 400 400 800 800 1400 (setup 0)
                eq_refl eq_refl) as (_ & _ & H1 & _).
  pose proof (X21_tracking_detection_is_debounced 1 2 400 400 800 800 1401 (setup 0)
                eq_refl eq_refl) as (_ & _ & H2 & _).
  split; [reflexivity |]. split; [rewrite H1 | rewrite H2]; reflexivity.
Defined.

End HeadTrackingSketch.

(** ** The LED strip of the full controller *)

Section LedStrip.
Import Leds.

Lemma iter_keeps (P : Strip -> Prop) (f : Strip -> Strip) :
  (forall s, P s -> P (f s)) -> forall n s, P s -> P (Nat.iter n f s).
Proof.
  intros Hf n. induction n as [| n IH]; intros s H; simpl; [exact H |].
  apply Hf, IH, H.
Qed.

Lemma fold_keeps (A : Type) (P : Strip -> Prop) (f : Strip -> A -> Strip) :
  (forall s a, P s -> P (f s a)) -> forall l s, P s -> P (fold_left f l s).
Proof.
  intros Hf l. induction l as [| a l IH]; intros s H; simpl; [exact H |].
  apply IH, Hf, H.
Qed.

Lemma setLed_keeps (led : Z) (color : CRGB) (s : Strip) :
  ledStripOk (setLed led color s) = ledStripOk s
  /\ brightness (setLed led color s) = brightness s
  /\ shown (setLed led color s) = shown s.
Proof.
  unfold setLed. destruct (_ && _)%bool; repeat split.
Qed.

Lemma working_flash (color : CRGB) (b : Z) (s : Strip) :
  working b s -> working b (flash color s).
Proof. intros H. exact H. Qed.

Lemma working_twinkle (led : Z) (color : CRGB) (b : Z) (s : Strip) :
  working b s -> working b (show (setLed led Black (show (setLed led color s)))).
Proof.
  intros [Hok Hb]. unfold working, show. cbn [ledStripOk brightness].
  destruct (setLed_keeps led Black
              (mkStrip (leds (setLed led color s)) (brightness (setLed led color s))
                       (ledStripOk (setLed led color s))
                       ((brightness (setLed led color s), leds (setLed led color s))
                          :: shown (setLed led color s)))) as (E1 & E2 & _).
  rewrite E1, E2. cbn [ledStripOk brightness].
  destruct (setLed_keeps led color s) as (E3 & E4 & _). rewrite E3, E4.
  split; assumption.
Qed.

Lemma working_sparkle (color : CRGB) (startTime duration : Z) (clock : list (Z * Z))
  (b : Z) (s : Strip) :
  working b s -> working b (sparkle color startTime duration clock s).
Proof.
  revert s. induction clock as [| [t led] rest IH]; intros s H; cbn [sparkle];
    [exact H |].
  destruct (_ <? _); [| exact H]. apply IH, working_twinkle, H.
Qed.

Lemma ok_fades (color : CRGB) (l : list Z) (s : Strip) :
  ledStripOk s = true -> ledStripOk (fold_left (fade color) l s) = true.
Proof.
  apply (fold_keeps Z (fun s => ledStripOk s = true)). intros x a H. exact H.
Qed.

Lemma lit_working (color : CRGB) (b : Z) (s : Strip) : lit color b s -> working b s.
Proof. intros (H1 & H2 & _). split; assumption. Qed.

Lemma lit_setEmotionLEDs (emotion : string) (b : Z) (s : Strip) :
  working b s -> lit (emotionColor emotion) b (setEmotionLEDs emotion s).
Proof.
  intros [Hok Hb]. unfold setEmotionLEDs. rewrite Hok. cbn [negb].
  unfold lit, show, fill_solid. cbn [ledStripOk brightness leds shown hd_error].
  rewrite Hb. split; [exact Hok |]. split; [reflexivity |]. split; reflexivity.
Qed.

Lemma lit_flashLEDs (color : CRGB) (flashes duration : Z) (current : string)
  (b : Z) (s : Strip) :
  working b s -> lit (emotionColor current) b (flashLEDs color flashes duration current s).
Proof.
  intros H. unfold flashLEDs. rewrite (proj1 H). cbn [negb].
  apply lit_setEmotionLEDs, iter_keeps; [apply working_flash | exact H].
Qed.

Lemma lit_sparkleEffect (color : CRGB) (duration : Z) (current : string)
  (startTime : Z) (clock : list (Z * Z)) (b : Z) (s : Strip) :
  working b s ->
  lit (emotionColor current) b (sparkleEffect color duration current startTime clock s).
Proof.
  intros H. unfold sparkleEffect. rewrite (proj1 H). cbn [negb].
  apply lit_setEmotionLEDs, working_sparkle, H.
Qed.

Lemma working_setBrightness_80 (s : Strip) :
  ledStripOk s = true -> working 80 (setBrightness 80 s).
Proof. intros H. split; [exact H | reflexivity]. Qed.

Lemma lit_breatheEffect (color : CRGB) (cycles : Z) (current : string) (s : Strip) :
  ledStripOk s = true ->
  lit (emotionColor current) 80 (breatheEffect color cycles current s).
Proof.
  intros H. unfold breatheEffect. rewrite H. cbn [negb].
  apply lit_setEmotionLEDs, working_setBrightness_80.
  apply (iter_keeps (fun s => ledStripOk s = true)); [| exact H].
  intros x Hx. unfold breath. apply ok_fades, ok_fades, Hx.
Qed.

Lemma lit_pulseEmotionLEDs (emotion : string) (s : Strip) :
  ledStripOk s = true -> lit (emotionColor emotion) 80 (pulseEmotionLEDs emotion s).
Proof.
  intros H. unfold pulseEmotionLEDs. rewrite H. cbn [negb]. cbv zeta.
  apply lit_setEmotionLEDs, working_setBrightness_80, ok_fades, ok_fades, H.
Qed.

Lemma lit_signal (color : CRGB) (flashes duration : Z) (current : string)
  (b : Z) (s : Strip) :
  working b s -> lit (emotionColor current) b (signal color flashes duration current s).
Proof.
  intros H. unfold signal. rewrite (proj1 H).
  apply lit_setEmotionLEDs, (lit_working (emotionColor current)), lit_flashLEDs, H.
Qed.

(** The reset block: the strip follows the emotion through it. *)
Lemma showing_reset (env : Controller.PendingEnv) (r : Controller.Robot) (s : Strip) :
  lit (emotionColor (Controller.current_emotion (Controller.emo r))) 80 s ->
  lit (emotionColor
         (Controller.current_emotion (Controller.emo (Controller.processReset env r))))
      80 (resetLeds env r s).
Proof.
  intros H. pose proof (lit_working _ _ _ H) as W.
  unfold resetLeds, Controller.processReset, Controller.acknowledgeReset.
  destruct (Controller.pendingReset (Controller.pend r)
            && negb (Controller.resetAcknowledged (Controller.pend r)))%bool;
    cbn [fst snd].
  - rewrite (proj1 W).
    cbn [Controller.pend Controller.set_pend Controller.resetAcknowledged
         Controller.resetStartTime].
    destruct (_ >=? 5000).
    + apply lit_setEmotionLEDs, (lit_working (emotionColor
              (Controller.current_emotion (Controller.emo r)))), lit_flashLEDs, W.
    + apply lit_flashLEDs, W.
  - destruct (Controller.resetAcknowledged (Controller.pend r)); [| exact H].
    destruct (_ >=? 5000); [| exact H].
    apply lit_setEmotionLEDs, W.
Qed.

(** The emotion block: the strip ends on the colour of the emotion taken out
    of the slot. *)
Lemma showing_emotion (env : Controller.PendingEnv) (lenv : LedEnv)
  (r : Controller.Robot) (s : Strip) :
  lit (emotionColor (Controller.current_emotion (Controller.emo r))) 80 s ->
  lit (emotionColor
         (Controller.current_emotion (Controller.emo (Controller.processEmotion env r))))
      80 (emotionLeds lenv r s).
Proof.
  intros H. pose proof (lit_working _ _ _ H) as W.
  unfold emotionLeds, Controller.processEmotion, Controller.drainEmotion.
  destruct (Controller.pendingEmotion (Controller.pend r)); cbn [fst]; [| exact H].
  rewrite emo_applyEmotion. cbn [Controller.current_emotion].
  pose proof (lit_setEmotionLEDs (Controller.pendingEmotionValue (Controller.pend r))
                80 s W) as L.
  pose proof (lit_working _ _ _ L) as W'.
  destruct (_ || _ || _ || _)%bool.
  - destruct (_ || _)%bool; apply lit_flashLEDs, W'.
  - destruct (_ || _)%bool; [apply lit_sparkleEffect, W' |].
    destruct (_ || _)%bool; [apply lit_breatheEffect, (proj1 W') | exact L].
Qed.

Lemma showing_loop (env : Controller.LoopEnv) (lenv : LedEnv) (b : Board) :
  showing b -> showing (loop env lenv b).
Proof.
  unfold showing. intros H.
  pose proof (showing_emotion (Controller.pendingEnv env) lenv _ _
                (showing_reset (Controller.pendingEnv env) _ _ H)) as H2.
  assert (E : Controller.emo (Controller.beforeTimeout env (robot b))
              = Controller.emo
                  (Controller.processEmotion (Controller.pendingEnv env)
                     (Controller.processReset (Controller.pendingEnv env) (robot b)))).
  { rewrite emo_beforeTimeout. unfold Controller.processPendingRequests.
    apply emo_processHead. }
  assert (H3 : lit (emotionColor
                      (Controller.current_emotion
                         (Controller.emo (Controller.loop env (robot b)))))
                   80
                   (timeoutLeds (Controller.now env)
                      (Controller.beforeTimeout env (robot b))
                      (emotionLeds lenv
                         (Controller.processReset (Controller.pendingEnv env) (robot b))
                         (resetLeds (Controller.pendingEnv env) (robot b) (strip b))))).
  { rewrite loop_beforeTimeout. unfold timeoutLeds, Controller.emotionTimeout.
    destruct (_ && _)%bool.
    - rewrite (proj1 H2). apply lit_setEmotionLEDs, (lit_working _ _ _ H2).
    - rewrite E. exact H2. }
  unfold loop. cbv zeta. cbn [robot strip].
  generalize dependent (timeoutLeds (Controller.now env)
                          (Controller.beforeTimeout env (robot b))
                          (emotionLeds lenv
                             (Controller.processReset (Controller.pendingEnv env)
                                (robot b))
                             (resetLeds (Controller.pendingEnv env) (robot b)
                                (strip b)))).
  intros s3 H3.
  assert (H4 : forall c n d,
             lit (emotionColor
                    (Controller.current_emotion
                       (Controller.emo (Controller.loop env (robot b)))))
                 80
                 (signal c n d
                    (Controller.current_emotion
                       (Controller.emo (Controller.loop env (robot b)))) s3)).
  { intros c n d. apply lit_signal, (lit_working _ _ _ H3). }
  destruct (_ && negb _)%bool.
  - destruct (wifi_back lenv).
    + destruct (_ && _)%bool; [| apply H4].
      apply lit_signal, (lit_working _ _ _ (H4 _ _ _)).
    + destruct (_ && _)%bool; [| apply H4].
      apply lit_signal, (lit_working _ _ _ (H4 _ _ _)).
  - destruct (_ && _)%bool; [apply H4 | exact H3].
Qed.

Lemma showing_serve (e : Event) (b : Board) : showing b -> showing (serve e b).
Proof.
  destruct e as [q | env lenv]; cbn [serve]; [| apply showing_loop].
  unfold showing. cbn [robot strip].
  destruct (answer_keeps q (robot b)) as (E & _). rewrite E. exact (fun H => H).
Qed.

Lemma showing_setup (now rnd : Z) (wifi : bool) : showing (setup now rnd wifi).
Proof.
  unfold showing, lit. destruct wifi; vm_compute; repeat split; reflexivity.
Qed.

Lemma board_run_invariant (P : Board -> Prop) :
  (forall e b, P b -> P (serve e b)) ->
  forall es b, P b -> P (run es b).
Proof.
  intros Hs es. induction es as [| e es IH]; intros b H; [exact H |].
  change (run (e :: es) b) with (run es (serve e b)). apply IH, Hs, H.
Qed.

Lemma robot_run (es : list Event) (b : Board) :
  robot (run es b) = Controller.run (List.map robotEvent es) (robot b).
Proof.
  revert b. induction es as [| e es IH]; intros b; [reflexivity |].
  change (run (e :: es) b) with (run es (serve e b)). rewrite IH.
  change (List.map robotEvent (e :: es))
    with (robotEvent e :: List.map robotEvent es).
  change (Controller.run (robotEvent e :: List.map robotEvent es) (robot b))
    with (Controller.run (List.map robotEvent es)
            (Controller.serve (robotEvent e) (robot b))).
  f_equal. destruct e as [q | env lenv];
    cbn [serve robotEvent Controller.serve robot]; [reflexivity |].
  unfold loop. cbv zeta. cbn [robot]. reflexivity.
Qed.

(** X22: after [setup], whether the WiFi came up or not, and after every
    request and every iteration of [loop] from there, the strip works at the
    brightness 80, each of its four LEDs holds the colour of the current
    emotion (green for happy, joy and every emotion the table does not name,
    red for angry and anger, white for sad, sadness, fear and scared, blue
    for disgust, yellow for surprise and surprised), and this is the last
    frame shown; the robot of the board is the robot of the controller after
    the same events. *)
Theorem X22_strip_shows_the_current_emotion
  (now rnd : Z) (wifi : bool) (es : list Event) :
  showing (run es (setup now rnd wifi))
  /\ robot (run es (setup now rnd wifi))
     = Controller.run (List.map robotEvent es) (Controller.setup now rnd).
Proof.
  split.
  - apply board_run_invariant; [apply showing_serve | apply showing_setup].
  - apply robot_run.
Qed.

(** X23: every LED effect ends on the colour of the emotion.  On a strip
    that works, [flashLEDs] and [sparkleEffect] leave every LED in the colour
    of [current_emotion] at the brightness they found, [breatheEffect] and
    [pulseEmotionLEDs] leave the colour of [current_emotion] and of their
    argument at the brightness 80, whatever the colour, the number of
    flashes or cycles and the clock of the effect; on a strip that is not
    initialised each of them changes and shows nothing. *)
Theorem X23_led_effects_end_on_the_emotion_colour
  (color : CRGB) (flashes duration cycles startTime : Z) (clock : list (Z * Z))
  (current emotion : string) (s : Strip) :
  if ledStripOk s then
    lit (emotionColor current) (brightness s)
        (flashLEDs color flashes duration current s)
    /\ lit (emotionColor current) (brightness s)
           (sparkleEffect color duration current startTime clock s)
    /\ lit (emotionColor current) 80 (breatheEffect color cycles current s)
    /\ lit (emotionColor emotion) 80 (pulseEmotionLEDs emotion s)
  else
    flashLEDs color flashes duration current s = s
    /\ sparkleEffect color duration current startTime clock s = s
    /\ breatheEffect color cycles current s = s
    /\ pulseEmotionLEDs emotion s = s
    /\ setEmotionLEDs emotion s = s.
Proof.
  destruct (ledStripOk s) eqn:Hok.
  - assert (W : working (brightness s) s) by (split; [exact Hok | reflexivity]).
    split; [apply lit_flashLEDs, W |]. split; [apply lit_sparkleEffect, W |].
    split; [apply lit_breatheEffect, Hok | apply lit_pulseEmotionLEDs, Hok].
  - unfold flashLEDs, sparkleEffect, breatheEffect, pulseEmotionLEDs, setEmotionLEDs.
    rewrite Hok. cbn [negb]. repeat split.
Qed.

(** X24: [emergencyStop] writes the rest angles 90, 180 and 0 to the servos
    and stops every axis, so that [updateServoPositions] moves nothing
    afterwards; it leaves the emotion happy with emotion mode off and head
    tracking enabled, and a working strip in the colour of happy.  It does
    not touch the sentiment, nor the recorded positions and targets: the
    angles written are the recorded positions only if the robot was at rest
    already. *)
Theorem X24_emergency_stop_leaves_the_records (now : Z) (b : Board) :
  Controller.headServo (robot (emergencyStop b)) = 90
  /\ Controller.leftArmServo (robot (emergencyStop b)) = 180
  /\ Controller.rightArmServo (robot (emergencyStop b)) = 0
  /\ Controller.updateServoPositions now (robot (emergencyStop b))
     = robot (emergencyStop b)
  /\ Controller.emo (robot (emergencyStop b))
     = Controller.mkEmotionVars "happy"
         (Controller.current_sentiment (Controller.emo (robot b))) false true
         (Controller.emotion_mode_start (Controller.emo (robot b)))
  /\ (if ledStripOk (strip b)
      then lit (emotionColor "happy") (brightness (strip b)) (strip (emergencyStop b))
      else strip (emergencyStop b) = strip b)
  /\ Controller.currentPos (Controller.headState (robot (emergencyStop b)))
     = Controller.currentPos (Controller.headState (robot b))
  /\ Controller.currentPos (Controller.leftArmState (robot (emergencyStop b)))
     = Controller.currentPos (Controller.leftArmState (robot b))
  /\ Controller.currentPos (Controller.rightArmState (robot (emergencyStop b)))
     = Controller.currentPos (Controller.rightArmState (robot b))
  /\ Controller.targetPos (Controller.headState (robot (emergencyStop b)))
     = Controller.targetPos (Controller.headState (robot b))
  /\ Controller.targetPos (Controller.leftArmState (robot (emergencyStop b)))
     = Controller.targetPos (Controller.leftArmState (robot b))
  /\ Controller.targetPos (Controller.rightArmState (robot (emergencyStop b)))
     = Controller.targetPos (Controller.rightArmState (robot b))
  /\ (Controller.synced (robot (emergencyStop b))
      <-> Controller.currentPos (Controller.headState (robot b)) = 90
          /\ Controller.currentPos (Controller.leftArmState (robot b)) = 180
          /\ Controller.currentPos (Controller.rightArmState (robot b)) = 0).
Proof.
  split; [reflexivity |]. split; [reflexivity |]. split; [reflexivity |].
  split; [reflexivity |]. split; [reflexivity |].
  split.
  { unfold emergencyStop. cbv zeta. cbn [strip].
    destruct (ledStripOk (strip b)) eqn:Hok; [| rewrite Hok; reflexivity].
    assert (W : working (brightness (strip b)) (strip b))
      by (split; [exact Hok | reflexivity]).
    pose proof (lit_flashLEDs COLOR_ANGRY 10 100
                  (Controller.current_emotion (Controller.emo (robot b)))
                  _ _ W) as L.
    change (Controller.current_emotion
              (Controller.emo
                 (Controller.set_rightArmState _
                    (Controller.set_leftArmState _
                       (Controller.set_headState _ (robot b))))))
      with (Controller.current_emotion (Controller.emo (robot b))).
    rewrite (proj1 L). apply lit_setEmotionLEDs, (lit_working _ _ _ L). }
  split; [reflexivity |]. split; [reflexivity |]. split; [reflexivity |].
  split; [reflexivity |]. split; [reflexivity |]. split; [reflexivity |].
  unfold Controller.synced, emergencyStop. cbv zeta.
  cbn [robot Controller.headServo Controller.leftArmServo Controller.rightArmServo
       Controller.headState Controller.leftArmState Controller.rightArmState
       Controller.set_emo Controller.set_rightArmServo Controller.set_leftArmServo
       Controller.set_headServo Controller.set_rightArmState
       Controller.set_leftArmState Controller.set_headState Controller.currentPos].
  intuition congruence.
Qed.

End LedStrip.

(** ** The emotion sequence *)

Section EmotionSequence.
Import Controller.

Lemma moveServoSafely_sent (s : ServoState) (a : Z) :
  axis_in 45 135 s -> 45 <= a <= 135 ->
  moveServoSafely s a = if Z.abs (targetPos s - a) >? 2 then sent a s else s.
Proof.
  intros (Emin & Emax & _ & Ht) Ha. unfold moveServoSafely, sent.
  rewrite Emin, Emax in *. rewrite constrain_id by exact Ha.
  rewrite int_of_small by (unfold Arduino.INT_MIN, Arduino.INT_MAX; lia).
  replace (Arduino.abs (targetPos s - a)) with (Z.abs (targetPos s - a));
    [reflexivity |].
  unfold Arduino.abs. destruct (targetPos s - a >? 0) eqn:E; [lia |].
  rewrite int_of_small by (unfold Arduino.INT_MIN, Arduino.INT_MAX; lia). lia.
Qed.

Lemma axis_in_sent (s : ServoState) (a : Z) :
  axis_in 45 135 s -> 45 <= a <= 135 -> axis_in 45 135 (sent a s).
Proof.
  intros (Emin & Emax & Hc & Ht) Ha. unfold axis_in, within, sent.
  cbn [minPos maxPos currentPos targetPos]. rewrite Emin, Emax in *.
  split; [reflexivity |]. split; [reflexivity |]. split; [exact Hc | exact Ha].
Qed.

Lemma nod (s : ServoState) (a b c : Z) :
  axis_in 45 135 s -> 45 <= a <= 135 -> 45 <= b <= 135 -> 45 <= c <= 135 ->
  4 < Z.abs (a - b) -> 2 < Z.abs (b - c) ->
  moveServoSafely (moveServoSafely (moveServoSafely s a) b) c = sent c s.
Proof.
  intros H Ha Hb Hc Hab Hbc.
  rewrite (moveServoSafely_sent s a H Ha).
  destruct (Z.abs (targetPos s - a) >? 2) eqn:E.
  - rewrite (moveServoSafely_sent (sent a s) b (axis_in_sent s a H Ha) Hb).
    cbn [targetPos sent].
    replace (Z.abs (a - b) >? 2) with true by lia.
    change (mkServoState (currentPos s) a (lastMoveTime s) true (minPos s) (maxPos s)
                         (name s)) with (sent a s).
    rewrite (moveServoSafely_sent (sent b (sent a s)) c
               (axis_in_sent _ b (axis_in_sent s a H Ha) Hb) Hc).
    cbn [targetPos sent]. replace (Z.abs (b - c) >? 2) with true by lia.
    reflexivity.
  - rewrite (moveServoSafely_sent s b H Hb).
    replace (Z.abs (targetPos s - b) >? 2) with true by lia.
    rewrite (moveServoSafely_sent (sent b s) c (axis_in_sent s b H Hb) Hc).
    cbn [targetPos sent]. replace (Z.abs (b - c) >? 2) with true by lia.
    reflexivity.
Qed.

(** X25: [performEmotionSequence] writes no servo and changes no position,
    and of the nod it asks for only the last target is left: the sequence
    for happy and joy sends the head to 90 and the one for angry and anger
    to 95, each with the axis moving, whatever the target was before, the
    one for sad and sadness sends it to 70 unless the target is within two
    degrees of 70, and every other emotion leaves the robot as it is; the
    arms are never touched, and only the sequence for happy and joy rearms
    the blinking. *)
Theorem X25_emotion_sequence_keeps_only_the_last_target
  (emotion : string) (now rnd : Z) (r : Robot) :
  axis_in 45 135 (headState r) ->
  same_positions r (performEmotionSequence emotion now rnd r)
  /\ headState (performEmotionSequence emotion now rnd r)
     = (if (eqs emotion "happy" || eqs emotion "joy")%bool
        then sent 90 (headState r)
        else if (eqs emotion "sad" || eqs emotion "sadness")%bool
        then if Z.abs (targetPos (headState r) - 70) >? 2
             then sent 70 (headState r) else headState r
        else if (eqs emotion "angry" || eqs emotion "anger")%bool
        then sent 95 (headState r)
        else headState r)
  /\ leftArmState (performEmotionSequence emotion now rnd r) = leftArmState r
  /\ rightArmState (performEmotionSequence emotion now rnd r) = rightArmState r
  /\ emo (performEmotionSequence emotion now rnd r) = emo r
  /\ pend (performEmotionSequence emotion now rnd r) = pend r
  /\ blinkv (performEmotionSequence emotion now rnd r)
     = (if (eqs emotion "happy" || eqs emotion "joy")%bool
        then mkBlinkVars now rnd false (blinkStartTime (blinkv r)) true
        else blinkv r).
Proof.
  intros H. unfold performEmotionSequence, moveHead, blinkEyes.
  destruct (eqs emotion "happy" || eqs emotion "joy")%bool.
  - cbn [headState set_headState set_blinkv leftArmState rightArmState emo pend blinkv].
    rewrite (nod (headState r) 85 95 90 H) by lia.
    split; [| repeat split].
    unfold same_positions, sent.
    cbn [headServo leftArmServo rightArmServo headState leftArmState rightArmState
         set_headState set_blinkv currentPos].
    repeat split.
  - destruct (eqs emotion "sad" || eqs emotion "sadness")%bool.
    + cbn [headState set_headState leftArmState rightArmState emo pend blinkv].
      rewrite (moveServoSafely_sent (headState r) 70 H) by lia.
      split; [| repeat split].
      unfold same_positions, sent.
      cbn [headServo leftArmServo rightArmServo headState leftArmState rightArmState
           set_headState].
      destruct (_ >? 2); cbn [currentPos]; repeat split.
    + destruct (eqs emotion "angry" || eqs emotion "anger")%bool.
      * cbn [headState set_headState leftArmState rightArmState emo pend blinkv].
        rewrite (nod (headState r) 100 80 95 H) by lia.
        split; [| repeat split].
        unfold same_positions, sent.
        cbn [headServo leftArmServo rightArmServo headState leftArmState
             rightArmState set_headState currentPos].
        repeat split.
      * unfold same_positions. repeat split.
Qed.

Lemma X25_emotion_sequence_keeps_only_the_last_target_witness :
  axis_in 45 135 (headState (setup 0 3000))
  /\ targetPos (headState (performEmotionSequence "happy" 100 2500 (setup 0 3000))) = 90
  /\ moving (headState (performEmotionSequence "happy" 100 2500 (setup 0 3000))) = true
  /\ targetPos (headState (performEmotionSequence "angry" 100 2500 (setup 0 3000))) = 95.
Proof.
  assert (H : axis_in 45 135 (headState (setup 0 3000))).
  { unfold axis_in, within. cbn. lia. }
  pose proof (X25_emotion_sequence_keeps_only_the_last_target
                "happy" 100 2500 (setup 0 3000) H) as (_ & E1 & _).
  pose proof (X25_emotion_sequence_keeps_only_the_last_target
                "angry" 100 2500 (setup 0 3000) H) as (_ & E2 & _).
  split; [exact H |]. rewrite E1, E2. repeat split.
Defined.

End EmotionSequence.
